(** * Deployment orchestrator and ensemble engine of the threat-modeling
      platform's AI/ML service

    A shallow embedding of
      - [services/ai-ml-service/test-threat-detection.py]
        (class [ThreatDetectionTester]: the three ensemble strategies and
        [test_ensemble_performance]), and
      - [services/ai-ml-service/deploy-models.py]
        (class [ModelDeployer] and [main]),
    followed by the properties of the specification that concern them.

    Conventions of the embedding.
      - Python dictionaries whose iteration order matters are association
        lists in insertion order; the file system is a finite map from
        paths to files.
      - Python floats are exact rationals ([Q]) where a property concerns
        which models take part, counts and ratios. The weighted average,
        whose score and label depend on the rounding of every operation,
        is embedded a second time over IEEE 754 binary64 numbers
        ([Doubles]), with the operations of the processor.
      - Paths are strings. [Path(d) / f] is [d], a slash and [f]: the
        directories are taken in the form in which pathlib prints them
        (no leading [./], no doubled or trailing slash), and the file
        names are relative.
      - A call that can raise returns a [result]; code that also touches
        the file system or the network runs in the monad [M], which threads
        the file system and a trace of the external effects.
      - Log output and [print] are not modelled. *)

From Stdlib Require Import ZArith QArith Qround Bool Ascii String Lia Lqa.
From Stdlib Require PrimFloat SpecFloat FloatOps.
From stdpp Require Import base option list strings pretty gmap.

Set Warnings "-register-all".
Set Warnings "-inexact-float".
Local Open Scope string_scope.
Local Open Scope list_scope.
Local Open Scope Z_scope.

(** ** Python values, exceptions and fallible computations *)

Module Py.

(** JSON-like values: what [json.load], [response.json()] and the
    dictionary literals of the scripts produce. *)
Inductive value : Type :=
  | VNone
  | VBool (b : bool)
  | VInt (z : Z)
  | VFloat (q : Q)
  | VStr (s : string)
  | VList (l : list value)
  | VDict (d : list (string * value)).

(** The exception classes the scripts can meet. [RequestException] stands
    for [requests.exceptions.RequestException] and all its subclasses
    (connection errors, timeouts, undecodable JSON bodies);
    [InferenceError] for whatever an estimator raises from [predict] or
    [predict_proba]; [ZeroDivisionError] is what a division by zero
    raises. *)
Inductive exn : Type :=
  | KeyError (key : string)
  | AttributeError (what : string)
  | TypeError (what : string)
  | IndexError (what : string)
  | ValueError (what : string)
  | FileNotFoundError (path : string)
  | IsADirectoryError (path : string)
  | NotADirectoryError (path : string)
  | RequestException (what : string)
  | InferenceError (what : string)
  | ZeroDivisionError (what : string).

Definition is_request_exception (e : exn) : bool :=
  match e with RequestException _ => true | _ => false end.

Inductive result (A : Type) : Type :=
  | Ok (a : A)
  | Raise (e : exn).
Arguments Ok {A} a.
Arguments Raise {A} e.

Definition bind {A B} (m : result A) (k : A -> result B) : result B :=
  match m with
  | Ok a => k a
  | Raise e => Raise e
  end.

Definition is_ok {A} (m : result A) : bool :=
  match m with Ok _ => true | Raise _ => false end.

(** [a / b] on two integers: the quotient as a number with a fractional
    part; a zero divisor raises. *)
Definition true_divide (a b : Z) : result Q :=
  if b =? 0 then Raise (ZeroDivisionError "division by zero")
  else Ok (inject_Z a / inject_Z b)%Q.

(** [d.get(k)] of a dictionary held as an association list. *)
Fixpoint assoc {A} (k : string) (d : list (string * A)) : option A :=
  match d with
  | [] => None
  | (k', v) :: d' => if String.eqb k k' then Some v else assoc k d'
  end.

(** [v.get(k, default)]: only dictionaries have the method. *)
Definition get (v : value) (k : string) (default : value) : result value :=
  match v with
  | VDict d => Ok (match assoc k d with Some x => x | None => default end)
  | _ => Raise (AttributeError "get")
  end.

(** [v[k]]: a missing key is a [KeyError]; only dictionaries are indexed
    by a string. *)
Definition getitem (v : value) (k : string) : result value :=
  match v with
  | VDict d => match assoc k d with
               | Some x => Ok x
               | None => Raise (KeyError k)
               end
  | _ => Raise (TypeError "subscript")
  end.

End Py.

Notation "'let!' x ':=' m 'in' k" := (Py.bind m (fun x => k))
  (at level 10, x name, m at level 100, k at level 200,
   format "'[v' 'let!'  x  ':='  m  'in' '/' k ']'").

(** ** The ensemble engine ([test-threat-detection.py]) *)

Module Tester.
Import Py.

(** A batch [X_test] is a two-dimensional array: one feature row per
    sample. [len(X_test)] is the number of rows. *)
Definition batch := list (list Q).

(** A two-dimensional float array as [predict_proba] returns it:
    [shape[1]] is [ncols], and every row has [ncols] entries. *)
Record matrix := Matrix { ncols : nat; rows : list (list Q) }.

(** A loaded estimator. [predict] yields one label per sample;
    [predict_proba] is [None] when [hasattr(model, 'predict_proba')] is
    false. Estimator objects are truthy. *)
Record model := Model {
  predict : batch -> result (list Z);
  predict_proba : option (batch -> result matrix)
}.

(** [self.models]: a dictionary in insertion order. *)
Definition models := list (string * model).

(** An integer array, or the scalar that numpy produces when it casts the
    NaN mean of an empty array to [int] (its value is platform-defined). *)
Inductive int_array : Type :=
  | Arr (l : list Z)
  | NanCast.

Definition strategy_output : Type := int_array * option (list Q).

(** [(y_pred_raw == -1).astype(int)] *)
Definition anomaly_to_int (raw : list Z) : list Z :=
  map (fun v => if v =? -1 then 1 else 0) raw.

(** [(y_pred_raw == -1).astype(float)] *)
Definition anomaly_to_float (raw : list Z) : list Q :=
  map (fun v => if v =? -1 then 1%Q else 0%Q) raw.

(** [y_pred.astype(float)] *)
Definition astype_float (y : list Z) : list Q := map inject_Z y.

(** [np.array(list_of_arrays)] accepts the list only when all the arrays
    have the same length (numpy raises [ValueError] on a ragged list). *)
Definition same_length {A} (n : nat) (l : list (list A)) : bool :=
  forallb (fun r => Nat.eqb (length r) n) l.

(** Reduction along axis 0 of a non-empty stack of equally long rows:
    numpy accumulates the rows in order, starting from the first. *)
Definition add_rows {A} (add : A -> A -> A) (r1 r2 : list A) : list A :=
  zip_with add r1 r2.

Definition sum_axis0 {A} (add : A -> A -> A) (first : list A)
    (rest : list (list A)) : list A :=
  fold_left (add_rows add) rest first.

(** [np.round] on a float: to the nearest integer, a half going to the
    even neighbour. *)
Definition round_half_even (q : Q) : Z :=
  let n := Qnum q in
  let d := Z.pos (Qden q) in
  let f := n / d in
  let r2 := 2 * (n mod d) in
  if r2 <? d then f
  else if d <? r2 then f + 1
  else if Z.even f then f else f + 1.

(** The body of the loop of [majority_vote_ensemble]: the [y_pred] of one
    model. *)
Definition model_vote (model_name : string) (m : model) (X_test : batch)
    : result (list Z) :=
  if String.eqb model_name "anomaly_detector" then
    let! y_pred_raw := predict m X_test in
    Ok (anomaly_to_int y_pred_raw)
  else predict m X_test.

(** The loop itself: one prediction array per model, in dictionary order;
    the first exception ends it. *)
Fixpoint collect_predictions (ms : models) (X_test : batch)
    : result (list (list Z)) :=
  match ms with
  | [] => Ok []
  | (model_name, m) :: ms' =>
      let! y_pred := model_vote model_name m X_test in
      let! predictions := collect_predictions ms' X_test in
      Ok (y_pred :: predictions)
  end.

(** [np.round(np.array(predictions).mean(axis=0)).astype(int)]. The mean
    is taken exactly; for votes of 0 and 1 the rounded binary64 mean is
    the same label. *)
Definition mean_round (predictions : list (list Z)) : result int_array :=
  match predictions with
  | [] => Ok NanCast
  | first :: rest =>
      if same_length (length first) rest then
        let total := sum_axis0 Z.add first rest in
        let k := Z.of_nat (length predictions) in
        Ok (Arr (map (fun s => round_half_even (inject_Z s / inject_Z k))
                     total))
      else Raise (ValueError "inhomogeneous shape")
  end.

Definition majority_vote_ensemble (ms : models) (X_test : batch)
    : result strategy_output :=
  let! predictions := collect_predictions ms X_test in
  let! ensemble_pred := mean_round predictions in
  Ok (ensemble_pred, None).

(** The [weights] table of [weighted_average_ensemble] and
    [weights.get(model_name, 0.1)]. *)
Definition weights : list (string * Q) :=
  [ ("signature_detector", 0.3%Q);
    ("anomaly_detector", 0.2%Q);
    ("ensemble_rf", 0.5%Q);
    ("ensemble_lr", 0.0%Q);
    ("ensemble_svm", 0.0%Q) ].

Definition weight_of (model_name : string) : Q :=
  match assoc model_name weights with
  | Some w => w
  | None => 0.1%Q
  end.

(** Column 1 of a matrix ([y_prob[:, 1]]) and [y_prob.flatten()]. *)
Definition column1 (p : matrix) : list Q :=
  map (fun row => nth 1 row 0%Q) (rows p).

Definition flatten (p : matrix) : list Q := concat (rows p).

(** The score of one model inside [weighted_average_ensemble]. *)
Definition model_score (model_name : string) (m : model) (X_test : batch)
    : result (list Q) :=
  match predict_proba m, String.eqb model_name "anomaly_detector" with
  | Some proba, false =>
      let! y_prob := proba X_test in
      if (1 <? ncols y_prob)%nat then Ok (column1 y_prob)
      else Ok (flatten y_prob)
  | _, true =>
      let! y_pred_raw := predict m X_test in
      Ok (anomaly_to_float y_pred_raw)
  | None, false =>
      let! y_pred := predict m X_test in
      Ok (astype_float y_pred)
  end.

(** The loop of [weighted_average_ensemble] over the state
    [(weighted_probs, total_weight)]; a model of weight 0 is skipped.
    Here the scores are exact rationals; [Doubles] below has the same
    strategy over binary64 numbers. *)
Fixpoint weighted_loop (ms : models) (X_test : batch)
    (weighted_probs : list (list Q)) (total_weight : Q)
    : result (list (list Q) * Q) :=
  match ms with
  | [] => Ok (weighted_probs, total_weight)
  | (model_name, m) :: ms' =>
      let weight := weight_of model_name in
      if Qeq_bool weight 0 then
        weighted_loop ms' X_test weighted_probs total_weight
      else
        let! y_prob := model_score model_name m X_test in
        weighted_loop ms' X_test
          (weighted_probs ++ [map (fun p => p * weight)%Q y_prob])
          (total_weight + weight)%Q
  end.

(** [(ensemble_prob > 0.5).astype(int)] *)
Definition threshold (p : Q) : Z := if Qle_bool p 0.5 then 0 else 1.

Definition weighted_average_ensemble (ms : models) (X_test : batch)
    : result strategy_output :=
  let! st := weighted_loop ms X_test [] 0%Q in
  let '(weighted_probs, total_weight) := st in
  match weighted_probs with
  | first :: rest =>
      if same_length (length first) rest then
        let ensemble_prob :=
          map (fun s => s / total_weight)%Q (sum_axis0 Qplus first rest) in
        Ok (Arr (map threshold ensemble_prob), Some ensemble_prob)
      else Raise (ValueError "inhomogeneous shape")
  | [] => Ok (Arr (repeat 0 (length X_test)), None)
  end.

(** [self.models.get('ensemble_rf') or self.models.get('signature_detector')] *)
Definition best_model (ms : models) : option model :=
  match assoc "ensemble_rf" ms with
  | Some m => Some m
  | None => assoc "signature_detector" ms
  end.

Definition best_model_ensemble (ms : models) (X_test : batch)
    : result strategy_output :=
  match best_model ms with
  | Some m =>
      let! y_pred := predict m X_test in
      match predict_proba m with
      | Some proba =>
          let! p := proba X_test in
          if (1 <? ncols p)%nat then Ok (Arr y_pred, Some (column1 p))
          else Raise (IndexError "index 1 is out of bounds for axis 1")
      | None => Ok (Arr y_pred, None)
      end
  | None => Ok (Arr (repeat 0 (length X_test)), None)
  end.

(** [test_ensemble_performance]. The computation of the metrics of a
    strategy's output (accuracy, classification report, confusion matrix,
    ROC AUC, timing) belongs to scikit-learn and the clock; it is the
    parameter [evaluate], which may raise like the calls it stands for. *)
Section Performance.
Context {report : Type}.
Variable evaluate : strategy_output -> list Z -> result report.

Inductive strategy_result : Type :=
  | Success (r : report)
  | Error (e : exn).

Definition ensemble_strategies
    : list (string * (models -> batch -> result strategy_output)) :=
  [ ("majority_vote", majority_vote_ensemble);
    ("weighted_average", weighted_average_ensemble);
    ("best_model", best_model_ensemble) ].

(** The body of the [try] and its [except Exception] handler. *)
Definition run_strategy
    (strategy_func : models -> batch -> result strategy_output)
    (ms : models) (X_test : batch) (y_test : list Z) : strategy_result :=
  match (let! out := strategy_func ms X_test in evaluate out y_test) with
  | Ok r => Success r
  | Raise e => Error e
  end.

Definition test_ensemble_performance (ms : models) (X_test : batch)
    (y_test : list Z) : list (string * strategy_result) :=
  map (fun '(strategy_name, strategy_func) =>
         (strategy_name, run_strategy strategy_func ms X_test y_test))
      ensemble_strategies.
End Performance.

End Tester.

(** ** The weighted average in binary64 arithmetic

    The score of the weighted average is a quotient of sums of products
    of floating-point numbers, and its label compares that score with
    0.5: both depend on how each operation rounds. Here the strategy is
    embedded over binary64 numbers, the [float] of Python and the
    [float64] of numpy: the literals of the weight table are the nearest
    binary64 numbers, and [+], [*], [/], [==] and [>] are the IEEE 754
    operations. [np.sum(..., axis=0)] adds the rows in order, starting
    from the first: this is the order numpy follows for a stack of fewer
    than eight rows, whatever its shape (a longer stack of one-element
    rows is a contiguous vector, which numpy adds up in blocks). *)

Module Doubles.
Import Py.
Import PrimFloat.

Definition batch := Tester.batch.

(** A [float64] array as [predict_proba] returns it. *)
Record matrix := Matrix { ncols : nat; rows : list (list float) }.

Record model := Model {
  predict : batch -> result (list Z);
  predict_proba : option (batch -> result matrix)
}.

Definition models := list (string * model).

Definition strategy_output : Type := Tester.int_array * option (list float).

(** An integer as a binary64 number: the nearest one, a tie going to the
    even neighbour. *)
Definition float_of_int (z : Z) : float :=
  FloatOps.SF2Prim (SpecFloat.binary_normalize FloatOps.prec FloatOps.emax z 0 false).

(** [(y_pred_raw == -1).astype(float)] *)
Definition anomaly_to_float (raw : list Z) : list float :=
  map (fun v => if v =? -1 then 1%float else 0%float) raw.

(** [y_pred.astype(float)] *)
Definition astype_float (y : list Z) : list float := map float_of_int y.

(** The [weights] table and [weights.get(model_name, 0.1)]. *)
Definition weights : list (string * float) :=
  [ ("signature_detector", 0.3%float);
    ("anomaly_detector", 0.2%float);
    ("ensemble_rf", 0.5%float);
    ("ensemble_lr", 0.0%float);
    ("ensemble_svm", 0.0%float) ].

Definition weight_of (model_name : string) : float :=
  match assoc model_name weights with
  | Some w => w
  | None => 0.1%float
  end.

(** [y_prob[:, 1]] and [y_prob.flatten()]. *)
Definition column1 (p : matrix) : list float :=
  map (fun row => nth 1 row 0%float) (rows p).

Definition flatten (p : matrix) : list float := concat (rows p).

(** The score of one model. *)
Definition model_score (model_name : string) (m : model) (X_test : batch)
    : result (list float) :=
  match predict_proba m, String.eqb model_name "anomaly_detector" with
  | Some proba, false =>
      let! y_prob := proba X_test in
      if (1 <? ncols y_prob)%nat then Ok (column1 y_prob)
      else Ok (flatten y_prob)
  | _, true =>
      let! y_pred_raw := predict m X_test in
      Ok (anomaly_to_float y_pred_raw)
  | None, false =>
      let! y_pred := predict m X_test in
      Ok (astype_float y_pred)
  end.

(** The loop over the state [(weighted_probs, total_weight)]; a model
    whose weight equals 0 is skipped. [total_weight] starts as the
    integer 0, which the first addition converts to 0.0. *)
Fixpoint weighted_loop (ms : models) (X_test : batch)
    (weighted_probs : list (list float)) (total_weight : float)
    : result (list (list float) * float) :=
  match ms with
  | [] => Ok (weighted_probs, total_weight)
  | (model_name, m) :: ms' =>
      let weight := weight_of model_name in
      if (weight =? 0)%float then
        weighted_loop ms' X_test weighted_probs total_weight
      else
        let! y_prob := model_score model_name m X_test in
        weighted_loop ms' X_test
          (weighted_probs ++ [map (fun p => p * weight)%float y_prob])
          (total_weight + weight)%float
  end.

(** [(ensemble_prob > 0.5).astype(int)] *)
Definition threshold (p : float) : Z := if (0.5 <? p)%float then 1 else 0.

Definition weighted_average_ensemble (ms : models) (X_test : batch)
    : result strategy_output :=
  let! st := weighted_loop ms X_test [] 0%float in
  let '(weighted_probs, total_weight) := st in
  match weighted_probs with
  | first :: rest =>
      if Tester.same_length (length first) rest then
        let ensemble_prob :=
          map (fun s => s / total_weight)%float
              (Tester.sum_axis0 PrimFloat.add first rest) in
        Ok (Tester.Arr (map threshold ensemble_prob), Some ensemble_prob)
      else Raise (ValueError "inhomogeneous shape")
  | [] => Ok (Tester.Arr (repeat 0 (length X_test)), None)
  end.

End Doubles.

(** ** The deployment orchestrator ([deploy-models.py]) *)

Module Deployer.
Import Py.

(** *** Data *)

(** One entry of [serving_config["models"]]. The name, version, path and
    metrics are copied from the registry information and are whatever
    values it holds. *)
Record resource_requirements := ResourceRequirements {
  cpu : string;
  memory : string;
  gpu : Z
}.

Record model_config := ModelConfig {
  mc_name : value;
  mc_version : value;
  mc_file_path : value;
  mc_endpoint : string;
  mc_health_endpoint : string;
  mc_performance_metrics : value;
  mc_resource_requirements : resource_requirements
}.

Record ensemble_config := EnsembleConfig {
  ec_enabled : bool;
  voting_strategy : string;
  weights : list (string * Q)
}.

Record auto_scaling := AutoScaling {
  as_enabled : bool;
  min_replicas : Z;
  max_replicas : Z;
  target_cpu_percent : Z;
  target_memory_percent : Z
}.

Record serving_settings := ServingSettings {
  batch_size : Z;
  timeout_ms : Z;
  max_concurrent_requests : Z;
  health_check_interval : Z;
  ss_auto_scaling : auto_scaling
}.

Record alerting := Alerting {
  accuracy_threshold : Q;
  latency_threshold_ms : Z;
  error_rate_threshold : Q;
  drift_threshold : Q
}.

Record monitoring := Monitoring {
  mo_enabled : bool;
  metrics : list string;
  mo_alerting : alerting
}.

Record rate_limiting := RateLimiting {
  requests_per_minute : Z;
  burst_size : Z
}.

Record security := Security {
  authentication_required : bool;
  se_rate_limiting : rate_limiting;
  input_validation : bool;
  output_sanitization : bool
}.

Record serving_config := ServingConfig {
  service_name : string;
  sc_version : string;
  sc_deployment_id : string;
  sc_models : list model_config;
  sc_ensemble_config : ensemble_config;
  sc_serving_config : serving_settings;
  sc_monitoring : monitoring;
  sc_security : security
}.

Record endpoint_info := EndpointInfo {
  ei_model : value;
  ei_endpoint : string;
  ei_health_endpoint : string
}.

Record manual_deployment := ManualDeployment {
  instructions : list string;
  model_files : list value;
  config_file : serving_config
}.

(** [deployment_result]; the keys [api_response] and [manual_deployment]
    are present only on the path that sets them. *)
Record deployment_result := DeploymentResult {
  dr_deployment_id : string;
  dr_status : string;
  dr_timestamp : string;
  dr_endpoints : list endpoint_info;
  dr_health_checks : list value;
  dr_api_response : option value;
  dr_manual_deployment : option manual_deployment
}.

Record test_entry := TestEntry {
  test : string;
  te_status : string;
  details : string
}.

Record test_summary := TestSummary {
  total_tests : nat;
  passed : nat;
  failed : nat;
  success_rate : Q
}.

Record test_results := TestResults {
  tr_timestamp : string;
  tests : list test_entry;
  summary : test_summary
}.

(** What [main] hands to [save_deployment_summary]: the results of
    [run_deployment_tests], or the stub built under [--skip-tests]. *)
Inductive test_outcome : Type :=
  | Tested (r : test_results)
  | Skipped (timestamp : string).

Record deployment_summary := DeploymentSummary {
  ds_experiment_id : string;
  deployment_timestamp : string;
  ds_deployment_result : deployment_result;
  ds_test_results : test_outcome;
  ds_status : string;
  next_steps : list string
}.

(** *** The outside world *)

(** A file-system entry. [Joblib size] is a blob that [joblib.load]
    accepts, [size] being the [len] of the loaded object when it has one;
    [Json v] is a document that [json.load] reads as [v], which is also
    what [json.dump] of [v] leaves on disk; [Opaque] is any other file. *)
Inductive file : Type :=
  | Dir
  | Joblib (size : option nat)
  | Json (v : value)
  | Opaque.

(** Bodies of the two POST requests. *)
Inductive request : Type :=
  | RegistryRequest (payload : value)
  | DeployRequest (deployment_config : serving_config)
                  (models : list model_config).

(** What a [requests] call does: it raises a [RequestException]
    (connection error, timeout), or it yields a response with a status
    code and a body; [json_body] is [None] when [response.json()] cannot
    decode the body, which is itself a [RequestException]. *)
Inductive http_outcome : Type :=
  | ConnectionFailed (what : string)
  | Response (status_code : Z) (json_body : option value).

(** The collaborators of the script: the HTTP peer, the clock (read as
    constant over one run), Python's formatting of a value inside an
    f-string, and the JSON document [json.dump] makes of a deployment
    summary. *)
Record externals := Externals {
  http_post : string -> request -> http_outcome;
  http_get : string -> http_outcome;
  now_isoformat : string;
  unix_time : Z;
  format_value : value -> string;
  json_of_summary : deployment_summary -> value
}.

Inductive event : Type :=
  | Posted (url : string) (body : request)
  | Got (url : string)
  | Wrote (path : string).

(** The state threaded through the script: the file system and the trace
    of requests sent and files written, oldest first. *)
Record world := World {
  fs : gmap string file;
  trace : list event
}.

Definition M (A : Type) : Type := world -> result A * world.

Definition ret {A} (a : A) : M A := fun w => (Ok a, w).

Definition raise {A} (e : exn) : M A := fun w => (Raise e, w).

Definition mbind {A B} (m : M A) (k : A -> M B) : M B :=
  fun w =>
    match m w with
    | (Ok a, w') => k a w'
    | (Raise e, w') => (Raise e, w')
    end.

Definition lift {A} (r : result A) : M A := fun w => (r, w).

Definition emit (e : event) : M unit :=
  fun w => (Ok tt, World (fs w) (trace w ++ [e])).

(** [try: body except RequestException: handler] *)
Definition try_except_request {A} (body : M A) (handler : exn -> M A) : M A :=
  fun w =>
    match body w with
    | (Raise e, w') =>
        if is_request_exception e then handler e w' else (Raise e, w')
    | r => r
    end.

(** [try: body except Exception: handler] *)
Definition try_except {A} (body : M A) (handler : exn -> M A) : M A :=
  fun w =>
    match body w with
    | (Raise e, w') => handler e w'
    | r => r
    end.

Notation "'do!' x ':=' m 'in' k" := (mbind m (fun x => k))
  (at level 10, x name, m at level 100, k at level 200,
   format "'[v' 'do!'  x  ':='  m  'in' '/' k ']'").

(** [Path(d) / f] for a directory [d] in the form pathlib prints and a
    relative file name [f]; [path.exists()]; and [open(path, 'w')]
    followed by [json.dump]: the file is created or replaced inside an
    existing directory. *)
Definition path_join (d f : string) : string := d ++ "/" ++ f.

Definition is_present (files : gmap string file) (p : string) : bool :=
  match files !! p with
  | Some _ => true
  | None => false
  end.

Definition path_exists (p : string) : M bool :=
  fun w => (Ok (is_present (fs w) p), w).

Definition write_json (dir name : string) (doc : value) : M unit :=
  fun w =>
    let path := path_join dir name in
    match fs w !! dir with
    | Some Dir =>
        match fs w !! path with
        | Some Dir => (Raise (IsADirectoryError path), w)
        | _ => (Ok tt, World (<[path := Json doc]> (fs w))
                             (trace w ++ [Wrote path]))
        end
    | Some _ => (Raise (NotADirectoryError path), w)
    | None => (Raise (FileNotFoundError path), w)
    end.

(** [open(path, 'r')] followed by [json.load]. *)
Definition read_json (path : string) : M value :=
  fun w =>
    match fs w !! path with
    | Some (Json v) => (Ok v, w)
    | Some Dir => (Raise (IsADirectoryError path), w)
    | Some _ => (Raise (ValueError "JSONDecodeError"), w)
    | None => (Raise (FileNotFoundError path), w)
    end.

(** [joblib.load(path)]: the [len] of the loaded object, when it has one. *)
Definition joblib_load (path : string) : M (option nat) :=
  fun w =>
    match fs w !! path with
    | Some (Joblib size) => (Ok size, w)
    | Some Dir => (Raise (IsADirectoryError path), w)
    | Some _ => (Raise (ValueError "unpickling"), w)
    | None => (Raise (FileNotFoundError path), w)
    end.

(** [requests.post] and [requests.get], and [response.json()]. *)
Definition post (ext : externals) (url : string) (body : request)
    : M (Z * option value) :=
  do! _ := emit (Posted url body) in
  match http_post ext url body with
  | ConnectionFailed what => raise (RequestException what)
  | Response status_code json_body => ret (status_code, json_body)
  end.

Definition get_url (ext : externals) (url : string) : M (Z * option value) :=
  do! _ := emit (Got url) in
  match http_get ext url with
  | ConnectionFailed what => raise (RequestException what)
  | Response status_code json_body => ret (status_code, json_body)
  end.

Definition response_json (response : Z * option value) : M value :=
  match snd response with
  | Some v => ret v
  | None => raise (RequestException "JSONDecodeError")
  end.

(** [str(e)] of a caught exception. *)
Definition exn_message (e : exn) : string :=
  match e with
  | KeyError s | AttributeError s | TypeError s | IndexError s
  | ValueError s | FileNotFoundError s | IsADirectoryError s
  | NotADirectoryError s | RequestException s | InferenceError s
  | ZeroDivisionError s => s
  end.

(** [for x in v]: a list yields its items, a dictionary its keys, a string
    its characters; nothing else in a JSON document is iterable. *)
Definition iterate (v : value) : result (list value) :=
  match v with
  | VList l => Ok l
  | VDict d => Ok (map (fun kv => VStr (fst kv)) d)
  | VStr s => Ok (map (fun c => VStr (String c EmptyString))
                      (String.list_ascii_of_string s))
  | _ => Raise (TypeError "not iterable")
  end.

(** *** [ModelDeployer] *)

Record deployer := ModelDeployer {
  models_dir : string;
  experiments_dir : string;
  mlops_base_url : string
}.

Definition load_experiment_metadata (self : deployer) (experiment_id : string)
    : M value :=
  let experiment_dir := path_join (experiments_dir self) experiment_id in
  let metadata_file := path_join experiment_dir "metadata.json" in
  do! found := path_exists metadata_file in
  if negb found then raise (FileNotFoundError metadata_file)
  else read_json metadata_file.

Definition required_files : list string :=
  [ "models.joblib"; "preprocessors.joblib"; "metadata.json";
    "deployment_config.json" ].

(** [self.models_dir.glob("*_v2.0.0.joblib")]: the names of the entries
    directly inside [dir] that end with the suffix. *)
Fixpoint strip_prefix (p s : string) : option string :=
  match p, s with
  | EmptyString, _ => Some s
  | String a p', String b s' =>
      if Ascii.eqb a b then strip_prefix p' s' else None
  | String _ _, EmptyString => None
  end.

Fixpoint has_slash (s : string) : bool :=
  match s with
  | EmptyString => false
  | String c s' => Ascii.eqb c "/"%char || has_slash s'
  end.

Definition ends_with (suffix s : string) : bool :=
  let n := String.length s in
  let k := String.length suffix in
  (k <=? n)%nat && String.eqb (substring (n - k) k s) suffix.

Definition glob_model_files (files : gmap string file) (dir : string)
    : list string :=
  omap (fun entry =>
          match strip_prefix (dir ++ "/") (fst entry) with
          | Some name =>
              if negb (has_slash name) && ends_with "_v2.0.0.joblib" name
              then Some name else None
          | None => None
          end)
       (map_to_list files).

(** [all(d.values())] *)
Definition all_values (d : gmap string bool) : bool :=
  forallb snd (map_to_list d).

Definition validate_models (self : deployer) (experiment_id : string)
    : M (gmap string bool) :=
  fun w =>
    let experiment_dir := path_join (experiments_dir self) experiment_id in
    let validation_results :=
      fold_left
        (fun acc file_name =>
           <[file_name :=
               is_present (fs w) (path_join experiment_dir file_name)]> acc)
        required_files (∅ : gmap string bool) in
    let validation_results :=
      fold_left (fun acc name => <[name := true]> acc)
                (glob_model_files (fs w) (models_dir self))
                validation_results in
    (Ok validation_results, w).

(** The catalogue of [register_models_with_registry] and the loop over it:
    a model whose file is absent is left out. *)
Definition model_names : list string :=
  [ "signature_detector"; "anomaly_detector"; "ensemble_rf"; "ensemble_lr";
    "ensemble_svm" ].

Definition model_file (self : deployer) (model_name : string) : string :=
  path_join (models_dir self) (model_name ++ "_v2.0.0.joblib").

Fixpoint prepare_models (ext : externals) (self : deployer)
    (evaluation_results : value) (names : list string) : M (list value) :=
  match names with
  | [] => ret []
  | model_name :: names' =>
      do! found := path_exists (model_file self model_name) in
      if found then
        do! performance_metrics :=
          lift (get evaluation_results model_name (VDict [])) in
        let model_info := VDict
          [ ("name", VStr model_name);
            ("version", VStr "2.0.0");
            ("type", VStr "threat_detection");
            ("framework", VStr "scikit-learn");
            ("file_path", VStr (model_file self model_name));
            ("stage", VStr "staging");
            ("performance_metrics", performance_metrics);
            ("created_at", VStr (now_isoformat ext));
            ("description",
             VStr ("Advanced threat detection model: " ++ model_name)) ] in
        do! more := prepare_models ext self evaluation_results names' in
        ret (model_info :: more)
      else prepare_models ext self evaluation_results names'
  end.

(** The candidate registry entry, as built before the request is sent. *)
Definition registry_payload_of (ext : externals) (self : deployer)
    (experiment_id : string) (metadata : value) : M value :=
  do! evaluation_results :=
    lift (get metadata "evaluation_results" (VDict [])) in
  do! models := prepare_models ext self evaluation_results model_names in
  let preprocessors_file :=
    path_join (models_dir self) "preprocessors_v2.0.0.joblib" in
  do! found := path_exists preprocessors_file in
  ret (VDict
         ([ ("experiment_id", VStr experiment_id);
            ("models", VList models);
            ("timestamp", VStr (now_isoformat ext)) ]
          ++ (if found
              then [ ("preprocessors",
                      VDict [ ("version", VStr "2.0.0");
                              ("file_path", VStr preprocessors_file);
                              ("created_at", VStr (now_isoformat ext)) ]) ]
              else []))).

(** [register_models_with_registry]. The [try] block either returns the
    decoded body of a 200 response ([Some]) or falls through ([None]); a
    [RequestException] falls through as well. *)
Definition register_models_with_registry (ext : externals) (self : deployer)
    (experiment_id : string) (metadata : value) : M value :=
  do! registry_payload := registry_payload_of ext self experiment_id metadata in
  do! returned :=
    try_except_request
      (do! response := post ext (mlops_base_url self ++ "/api/mlops/models")
                            (RegistryRequest registry_payload) in
       if fst response =? 200 then
         do! body := response_json response in
         ret (Some body)
       else ret None)
      (fun _ => ret None) in
  match returned with
  | Some body => ret body
  | None =>
      let experiment_dir := path_join (experiments_dir self) experiment_id in
      do! _ := write_json experiment_dir "model_registry_deployment.json"
                          registry_payload in
      ret registry_payload
  end.

(** [create_model_serving_config]: the literal configuration, then one
    model entry per item of [registry_info.get("models", [])]. *)
Definition ensemble_weights : list (string * Q) :=
  [ ("signature_detector", 0.3%Q);
    ("anomaly_detector", 0.2%Q);
    ("ensemble_rf", 0.5%Q) ].

Definition model_config_of (ext : externals) (model_info : value)
    : result model_config :=
  let! name := getitem model_info "name" in
  let! version := getitem model_info "version" in
  let! file_path := getitem model_info "file_path" in
  let! performance_metrics :=
    get model_info "performance_metrics" (VDict []) in
  Ok (ModelConfig name version file_path
        ("/predict/" ++ format_value ext name)
        ("/health/" ++ format_value ext name)
        performance_metrics
        (ResourceRequirements "500m" "1Gi" 0)).

Fixpoint model_configs_of (ext : externals) (model_infos : list value)
    : result (list model_config) :=
  match model_infos with
  | [] => Ok []
  | model_info :: rest =>
      let! model_config := model_config_of ext model_info in
      let! more := model_configs_of ext rest in
      Ok (model_config :: more)
  end.

Definition create_model_serving_config (ext : externals)
    (experiment_id : string) (registry_info : value) : result serving_config :=
  let deployment_id :=
    ("deploy-" ++ experiment_id ++ "-" ++ pretty (unix_time ext))%string in
  let! listed := get registry_info "models" (VList []) in
  let! model_infos := iterate listed in
  let! models := model_configs_of ext model_infos in
  Ok (ServingConfig "threat-detection-models" "2.0.0" deployment_id
        models
        (EnsembleConfig true "weighted_average" ensemble_weights)
        (ServingSettings 32 5000 100 30 (AutoScaling true 1 5 70 80))
        (Monitoring true
           [ "prediction_latency"; "prediction_accuracy"; "model_drift";
             "data_drift"; "resource_usage" ]
           (Alerting 0.8%Q 1000 0.05%Q 0.1%Q))
        (Security true (RateLimiting 1000 100) true true)).

(** [deploy_to_serving_infrastructure]. *)
Definition endpoint_of (self : deployer) (model : model_config)
    : endpoint_info :=
  EndpointInfo (mc_name model)
               (mlops_base_url self ++ mc_endpoint model)
               (mlops_base_url self ++ mc_health_endpoint model).

Definition manual_instructions : list string :=
  [ "1. Copy model files to serving infrastructure";
    "2. Load models using the provided configuration";
    "3. Start serving endpoints";
    "4. Configure monitoring and alerting";
    "5. Run health checks" ].

Definition set_status (r : deployment_result) (s : string)
    : deployment_result :=
  DeploymentResult (dr_deployment_id r) s (dr_timestamp r) (dr_endpoints r)
    (dr_health_checks r) (dr_api_response r) (dr_manual_deployment r).

Definition set_api_response (r : deployment_result) (v : value)
    : deployment_result :=
  DeploymentResult (dr_deployment_id r) (dr_status r) (dr_timestamp r)
    (dr_endpoints r) (dr_health_checks r) (Some v) (dr_manual_deployment r).

Definition set_manual_deployment (r : deployment_result)
    (m : manual_deployment) : deployment_result :=
  DeploymentResult (dr_deployment_id r) (dr_status r) (dr_timestamp r)
    (dr_endpoints r) (dr_health_checks r) (dr_api_response r) (Some m).

Definition append_endpoints (r : deployment_result)
    (es : list endpoint_info) : deployment_result :=
  DeploymentResult (dr_deployment_id r) (dr_status r) (dr_timestamp r)
    (dr_endpoints r ++ es) (dr_health_checks r) (dr_api_response r)
    (dr_manual_deployment r).

(** The [try] block of the deployment. The dictionary [deployment_result]
    ([current]) is updated in place, so the block yields it as it stands
    when the block is left: by [return] ([Ok true]), by falling off its
    end ([Ok false]), or by an exception. *)
Definition deploy_attempt (ext : externals) (self : deployer)
    (config : serving_config) (current : deployment_result)
    : world -> (result bool * deployment_result) * world :=
  fun w =>
    match post ext (mlops_base_url self ++ "/api/mlops/deploy")
               (DeployRequest config (sc_models config)) w with
    | (Raise e, w') => ((Raise e, current), w')
    | (Ok response, w') =>
        if fst response =? 200 then
          let current := set_status current "deployed" in
          match response_json response w' with
          | (Raise e, w'') => ((Raise e, current), w'')
          | (Ok body, w'') =>
              let current :=
                set_api_response current body in
              let current :=
                append_endpoints current
                  (map (endpoint_of self) (sc_models config)) in
              ((Ok true, current), w'')
          end
        else ((Ok false, current), w')
    end.

(** The statements after the [try]: the manual-deployment fallback. *)
Definition manual_fallback (self : deployer) (config : serving_config)
    (current : deployment_result) : deployment_result :=
  let current :=
    set_status current "configuration_ready" in
  let current :=
    set_manual_deployment current
      (ManualDeployment manual_instructions
         (map mc_file_path (sc_models config))
         config) in
  append_endpoints current
    (map (endpoint_of self) (sc_models config)).

Definition deploy_to_serving_infrastructure (ext : externals)
    (self : deployer) (config : serving_config) : M deployment_result :=
  fun w =>
    let current :=
      DeploymentResult (sc_deployment_id config) "pending"
        (now_isoformat ext) [] [] None None in
    match deploy_attempt ext self config current w with
    | ((Ok true, current), w') => (Ok current, w')
    | ((Ok false, current), w') =>
        (Ok (manual_fallback self config current), w')
    | ((Raise e, current), w') =>
        if is_request_exception e
        then (Ok (manual_fallback self config current), w')
        else (Raise e, w')
    end.

(** [run_deployment_tests]. Each of the two loading blocks appends
    exactly one entry to [test_results["tests"]], whichever way it ends. *)
Definition model_loading_test (self : deployer) : M test_entry :=
  try_except
    (let models_file :=
       path_join (path_join (experiments_dir self) "initial-training-20250614")
                 "models.joblib" in
     do! found := path_exists models_file in
     if found then
       do! models := joblib_load models_file in
       match models with
       | Some n =>
           ret (TestEntry "model_loading" "passed"
                  ("Successfully loaded " ++ pretty n ++ " models"))
       | None => raise (TypeError "object has no len()")
       end
     else ret (TestEntry "model_loading" "failed" "Model file not found"))
    (fun e =>
       ret (TestEntry "model_loading" "failed"
              ("Error loading models: " ++ exn_message e))).

Definition preprocessor_loading_test (self : deployer) : M test_entry :=
  try_except
    (let preprocessors_file :=
       path_join (models_dir self) "preprocessors_v2.0.0.joblib" in
     do! found := path_exists preprocessors_file in
     if found then
       do! preprocessors := joblib_load preprocessors_file in
       ret (TestEntry "preprocessor_loading" "passed"
              "Successfully loaded preprocessors")
     else ret (TestEntry "preprocessor_loading" "failed"
                 "Preprocessor file not found"))
    (fun e =>
       ret (TestEntry "preprocessor_loading" "failed"
              ("Error loading preprocessors: " ++ exn_message e))).

Definition endpoint_health_test (ext : externals) (info : endpoint_info)
    : M test_entry :=
  let health_url := ei_health_endpoint info in
  let name := ("endpoint_health_" ++ format_value ext (ei_model info))%string in
  try_except_request
    (do! response := get_url ext health_url in
     if fst response =? 200 then
       ret (TestEntry name "passed" ("Endpoint responding: " ++ health_url))
     else
       ret (TestEntry name "failed"
              ("Endpoint not responding: " ++ health_url)))
    (fun e =>
       ret (TestEntry name "failed" ("Connection error: " ++ exn_message e))).

Fixpoint endpoint_health_tests (ext : externals) (infos : list endpoint_info)
    : M (list test_entry) :=
  match infos with
  | [] => ret []
  | info :: infos' =>
      do! t := endpoint_health_test ext info in
      do! ts := endpoint_health_tests ext infos' in
      ret (t :: ts)
  end.

(** The summary of the entries. The success rate is the conditional
    expression [passed_tests / total_tests if total_tests > 0 else 0]: the
    division is evaluated only when the condition holds, and like any
    division it raises on a zero divisor. *)
Definition is_passed (t : test_entry) : bool :=
  String.eqb (te_status t) "passed".

Definition summarize (entries : list test_entry) : result test_summary :=
  let passed_tests := length (List.filter is_passed entries) in
  let total_tests := length entries in
  let! rate :=
    (if (0 <? total_tests)%nat
     then true_divide (Z.of_nat passed_tests) (Z.of_nat total_tests)
     else Ok 0%Q) in
  Ok (TestSummary total_tests passed_tests (total_tests - passed_tests) rate).

Definition run_deployment_tests (ext : externals) (self : deployer)
    (outcome : deployment_result) : M test_results :=
  do! loading := model_loading_test self in
  do! preprocessing := preprocessor_loading_test self in
  do! health :=
    (if String.eqb (dr_status outcome) "deployed"
     then endpoint_health_tests ext (dr_endpoints outcome)
     else ret []) in
  let entries := [loading; preprocessing] ++ health in
  do! totals := lift (summarize entries) in
  ret (TestResults (now_isoformat ext) entries totals).

(** [save_deployment_summary]. *)
Definition save_deployment_summary (ext : externals) (self : deployer)
    (experiment_id : string) (outcome : deployment_result)
    (tested : test_outcome) : M deployment_summary :=
  let experiment_dir := path_join (experiments_dir self) experiment_id in
  let deployed := String.eqb (dr_status outcome) "deployed" in
  let deployment_summary :=
    DeploymentSummary experiment_id (now_isoformat ext) outcome tested
      (if deployed then "deployed" else "ready_for_deployment")
      (if deployed
       then [ "Monitor model performance via MLOps dashboard";
              "Set up automated retraining pipelines";
              "Configure A/B testing for model improvements";
              "Review and update monitoring thresholds" ]
       else [ "Set up MLOps serving infrastructure";
              "Deploy models using provided configuration";
              "Configure monitoring and alerting";
              "Run deployment validation tests" ]) in
  do! _ := write_json experiment_dir "deployment_summary.json"
                      (json_of_summary ext deployment_summary) in
  ret deployment_summary.

(** *** The driver *)

Record arguments := Args {
  arg_experiment_id : string;
  arg_models_dir : string;
  arg_experiments_dir : string;
  arg_mlops_url : string;
  arg_skip_tests : bool
}.

(** The body of the [try] of [main]; its value is the exit code. *)
Definition main_body (ext : externals) (args : arguments) : M Z :=
  let self :=
    ModelDeployer (arg_models_dir args) (arg_experiments_dir args)
                  (arg_mlops_url args) in
  do! metadata := load_experiment_metadata self (arg_experiment_id args) in
  do! validation_results := validate_models self (arg_experiment_id args) in
  if negb (all_values validation_results) then ret 1
  else
    do! registry_info :=
      register_models_with_registry ext self (arg_experiment_id args)
                                    metadata in
    do! config :=
      lift (create_model_serving_config ext (arg_experiment_id args)
                                        registry_info) in
    do! outcome := deploy_to_serving_infrastructure ext self config in
    do! tested :=
      (if negb (arg_skip_tests args)
       then do! r := run_deployment_tests ext self outcome in ret (Tested r)
       else ret (Skipped (now_isoformat ext))) in
    do! _ := save_deployment_summary ext self (arg_experiment_id args)
                                     outcome tested in
    ret 0.

(** [main]: any exception is logged and turned into exit code 1. *)
Definition main (ext : externals) (args : arguments) (w : world) : Z * world :=
  match main_body ext args w with
  | (Ok code, w') => (code, w')
  | (Raise _, w') => (1, w')
  end.

End Deployer.

(** * Reference definitions and sample data *)

Module Reference.
Import Py Tester.

(** Rounding to the nearest integer with a half going up, as the
    specification words the majority vote. *)
Definition round_half_up (q : Q) : Z := Qfloor (q + (1 # 2))%Q.

(** The number of models voting 1 for sample [i]. *)
Definition votes_at (i : nat) (predictions : list (list Z)) : Z :=
  foldr (fun p acc => nth i p 0 + acc) 0 predictions.

Definition binary (y : list Z) : Prop := Forall (fun v => v = 0 \/ v = 1) y.

(** A vote is well formed when the model's inference returns one binary
    label per sample (the anomaly detector after its conversion). *)
Definition votes_binary (ms : models) (X_test : batch) : Prop :=
  Forall (fun nm => exists y, model_vote nm.1 nm.2 X_test = Ok y /\
                              length y = length X_test /\ binary y) ms.

(** The models that take part in the weighted average, in the words of the
    specification: those of weight greater than 0, each with its weight
    and its score. *)
Definition is_active (model_name : string) : bool :=
  negb (Qle_bool (weight_of model_name) 0).

Fixpoint active_scores (ms : models) (X_test : batch)
    : result (list (Q * list Q)) :=
  match ms with
  | [] => Ok []
  | (model_name, m) :: ms' =>
      if is_active model_name then
        let! score := model_score model_name m X_test in
        let! more := active_scores ms' X_test in
        Ok ((weight_of model_name, score) :: more)
      else active_scores ms' X_test
  end.

(** [y_prob * weight] *)
Definition scale (ws : Q * list Q) : list Q :=
  map (fun p => p * fst ws)%Q (snd ws).

Definition weighted_sum_at (i : nat) (scored : list (Q * list Q)) : Q :=
  foldr (fun ws acc => (fst ws * nth i (snd ws) 0 + acc)%Q) 0%Q scored.

Definition sum_of_weights (scored : list (Q * list Q)) : Q :=
  foldr (fun ws acc => (fst ws + acc)%Q) 0%Q scored.

End Reference.

Module Samples.
Import Py Tester.

(** An estimator without [predict_proba] that answers [y] on any batch,
    and one whose inference raises. *)
Definition constant_model (y : list Z) : model :=
  Model (fun _ => Ok y) None.

Definition failing_model (what : string) : model :=
  Model (fun _ => Raise (InferenceError what)) None.

(** An estimator with [predict_proba]. *)
Definition proba_model (y : list Z) (p : matrix) : model :=
  Model (fun _ => Ok y) (Some (fun _ => Ok p)).

Definition one_sample : batch := [[0%Q]].

Definition two_to_one : models :=
  [ ("signature_detector", constant_model [1]);
    ("ensemble_rf", constant_model [1]);
    ("ensemble_lr", constant_model [0]) ].

Definition tied : models :=
  [ ("signature_detector", constant_model [1]);
    ("ensemble_rf", constant_model [0]) ].

(** The primary learner alone votes 1: the weighted score is exactly 0.5.
    [ensemble_lr] has weight 0 and is never asked. *)
Definition boundary : models :=
  [ ("ensemble_rf", proba_model [1] (Matrix 2 [[0%Q; 1%Q]]));
    ("signature_detector", constant_model [0]);
    ("anomaly_detector", constant_model [1]);
    ("ensemble_lr", failing_model "never called") ].

Definition one_broken : models :=
  [ ("signature_detector", failing_model "shape mismatch");
    ("ensemble_rf", constant_model [1]) ].

(** A primary learner fitted on labels of one class only: its
    [predict_proba] has a single column. *)
Definition single_class : model := proba_model [1] (Matrix 1 [[1%Q]]).

Definition single_column : models := [ ("ensemble_rf", single_class) ].

End Samples.

Module DoublesReference.
Import Py Doubles.
Import PrimFloat.

(** The models that take part: those of weight greater than 0, each with
    its weight and its score. *)
Definition is_active (model_name : string) : bool :=
  (0 <? weight_of model_name)%float.

Fixpoint active_scores (ms : models) (X_test : batch)
    : result (list (float * list float)) :=
  match ms with
  | [] => Ok []
  | (model_name, m) :: ms' =>
      if is_active model_name then
        let! score := model_score model_name m X_test in
        let! more := active_scores ms' X_test in
        Ok ((weight_of model_name, score) :: more)
      else active_scores ms' X_test
  end.

(** [y_prob * weight] *)
Definition scale (ws : float * list float) : list float :=
  map (fun p => p * fst ws)%float (snd ws).

(** The weight-scaled score of sample [i]. *)
Definition scaled_at (i : nat) (ws : float * list float) : float :=
  (nth i (snd ws) 0 * fst ws)%float.

(** The scaled scores of sample [i] added up in the order of the models,
    and the weights added up in the same order. *)
Definition weighted_sum_at (i : nat) (scored : list (float * list float))
    : float :=
  match scored with
  | [] => 0%float
  | ws :: rest =>
      fold_left (fun acc ws' => acc + scaled_at i ws')%float rest
                (scaled_at i ws)
  end.

Definition sum_of_weights (scored : list (float * list float)) : float :=
  fold_left (fun total ws => total + fst ws)%float scored 0%float.

End DoublesReference.

Module DoublesSamples.
Import Py Doubles.
Import PrimFloat.

Definition constant_model (y : list Z) : model :=
  Model (fun _ => Ok y) None.

Definition failing_model (what : string) : model :=
  Model (fun _ => Raise (InferenceError what)) None.

Definition proba_model (y : list Z) (p : matrix) : model :=
  Model (fun _ => Ok y) (Some (fun _ => Ok p)).

(** The primary learner alone votes 1. [ensemble_lr] has weight 0 and is
    never asked. *)
Definition boundary : models :=
  [ ("ensemble_rf", proba_model [1] (Matrix 2 [[0%float; 1%float]]));
    ("signature_detector", constant_model [0]);
    ("anomaly_detector", constant_model [1]);
    ("ensemble_lr", failing_model "never called") ].

(** The signature detector votes 0 and three models outside the weight
    table, of weight 0.1 each, vote 1: the scaled votes and the weights
    are both three tenths in exact arithmetic. *)
Definition near_tie : models :=
  [ ("signature_detector", constant_model [0]);
    ("detector_a", constant_model [1]);
    ("detector_b", constant_model [1]);
    ("detector_c", constant_model [1]) ].

End DoublesSamples.

Module DeployReference.
Import Py Deployer.

(** The invariant of the specification: every model named by the ensemble
    policy has an entry in the model list. *)
Definition ensemble_covered (config : serving_config) : Prop :=
  forall model_name,
    In model_name (map fst (weights (sc_ensemble_config config))) ->
    In (VStr model_name) (map mc_name (sc_models config)).

(** A request is accepted when the peer answers 200 with a body that
    [response.json()] decodes; anything else (connection error, timeout,
    another status, an undecodable body) is a failure. *)
Definition accepted (o : http_outcome) : option value :=
  match o with
  | Response status_code (Some body) =>
      if status_code =? 200 then Some body else None
  | _ => None
  end.

(** The manual-deployment package for [config], as the specification
    describes the result of a failed deployment. *)
Definition configuration_ready (self : deployer) (config : serving_config)
    (r : deployment_result) : Prop :=
  dr_status r = "configuration_ready" /\
  (exists package,
     dr_manual_deployment r = Some package /\
     instructions package = manual_instructions /\
     instructions package <> [] /\
     model_files package = map mc_file_path (sc_models config) /\
     config_file package = config) /\
  dr_endpoints r = map (endpoint_of self) (sc_models config) /\
  length (dr_endpoints r) = length (sc_models config).

(** The summary in the words of the specification: the success rate is
    the passed checks divided by all checks, and 0 when no check ran. *)
Definition success_rate_of (passed_tests total_tests : nat) : Q :=
  match total_tests with
  | O => 0%Q
  | S _ => (inject_Z (Z.of_nat passed_tests)
            / inject_Z (Z.of_nat total_tests))%Q
  end.

Definition summary_of (entries : list test_entry) : test_summary :=
  let passed_tests := length (List.filter is_passed entries) in
  TestSummary (length entries) passed_tests (length entries - passed_tests)
              (success_rate_of passed_tests (length entries)).

(** The paths the registration and the validation harness use. *)
Definition experiment_dir (self : deployer) (experiment_id : string) : string :=
  path_join (experiments_dir self) experiment_id.

Definition registry_file (self : deployer) (experiment_id : string) : string :=
  path_join (experiment_dir self experiment_id)
            "model_registry_deployment.json".

Definition registry_url (self : deployer) : string :=
  mlops_base_url self ++ "/api/mlops/models".

Definition deploy_url (self : deployer) : string :=
  mlops_base_url self ++ "/api/mlops/deploy".

Definition fixed_models_file (self : deployer) : string :=
  path_join (path_join (experiments_dir self) "initial-training-20250614")
            "models.joblib".

(** The entry of the model-loading check, by what is found at the fixed
    path. *)
Definition model_loading_entry (path : string) (found : option file)
    : test_entry :=
  match found with
  | None => TestEntry "model_loading" "failed" "Model file not found"
  | Some (Joblib (Some n)) =>
      TestEntry "model_loading" "passed"
        ("Successfully loaded " ++ pretty n ++ " models")
  | Some (Joblib None) =>
      TestEntry "model_loading" "failed"
        "Error loading models: object has no len()"
  | Some Dir =>
      TestEntry "model_loading" "failed"
        ("Error loading models: " ++ path)
  | Some _ =>
      TestEntry "model_loading" "failed" "Error loading models: unpickling"
  end.

End DeployReference.

Module DeploySamples.
Import Py Deployer.

(** Formatting of the values the samples use. *)
Definition format_plain (v : value) : string :=
  match v with
  | VStr s => s
  | VInt z => pretty z
  | VNone => "None"
  | VBool true => "True"
  | VBool false => "False"
  | _ => ""
  end.

(** An abridged JSON encoding of a summary. *)
Definition abridged (s : deployment_summary) : value :=
  VDict [ ("experiment_id", VStr (ds_experiment_id s));
          ("status", VStr (ds_status s));
          ("next_steps", VList (map VStr (next_steps s))) ].

(** No peer answers. *)
Definition offline : externals :=
  Externals (fun _ _ => ConnectionFailed "connection refused")
            (fun _ => ConnectionFailed "connection refused")
            "2025-06-14T12:00:00" 1749902400 format_plain abridged.

(** A peer that accepts every request, echoing a registry payload. *)
Definition online : externals :=
  Externals (fun _ body =>
               match body with
               | RegistryRequest payload => Response 200 (Some payload)
               | DeployRequest _ _ => Response 200 (Some (VDict []))
               end)
            (fun _ => Response 200 None)
            "2025-06-14T12:00:00" 1749902400 format_plain abridged.

Definition local : deployer :=
  ModelDeployer "models" "experiments" "http://localhost:3007".

(** An experiment directory and a models directory with nothing inside. *)
Definition bare : world :=
  World (list_to_map [ ("experiments/exp1", Dir); ("models", Dir) ]) [].

Definition sound_entries : list (string * value) :=
  [ ("evaluation_results",
     VDict [ ("signature_detector", VDict [ ("accuracy", VFloat 0.95%Q) ]) ]) ].

Definition sound_metadata : value := VDict sound_entries.

(** Registry information with one model. *)
Definition one_registered : value :=
  VDict [ ("experiment_id", VStr "exp1");
          ("models",
           VList [ VDict [ ("name", VStr "signature_detector");
                           ("version", VStr "2.0.0");
                           ("file_path",
                            VStr "models/signature_detector_v2.0.0.joblib") ] ]) ].

(** Metadata whose evaluation results are [null]. *)
Definition null_results : value := VDict [ ("evaluation_results", VNone) ].

(** An experiment with its four required artifacts, and the signature
    detector among the model files. *)
Definition complete : world :=
  World (list_to_map
           [ ("experiments/exp1", Dir);
             ("experiments/exp1/models.joblib", Joblib (Some 5%nat));
             ("experiments/exp1/preprocessors.joblib", Joblib (Some 2%nat));
             ("experiments/exp1/metadata.json", Json sound_metadata);
             ("experiments/exp1/deployment_config.json", Json (VDict []));
             ("models", Dir);
             ("models/signature_detector_v2.0.0.joblib", Joblib None) ])
        [].

(** The same experiment without its deployment configuration. *)
Definition incomplete : world :=
  World (delete "experiments/exp1/deployment_config.json" (fs complete)) [].

Definition exp1 : arguments :=
  Args "exp1" "models" "experiments" "http://localhost:3007" false.

End DeploySamples.

(** ** Individual tests, load tests and the report
       ([test-threat-detection.py]) *)

Module TesterReport.
Import Py Tester.

Section Report.
Context {report load_report : Type}.

(** The metrics of one model's predictions (accuracy, classification
    report, confusion matrix, ROC AUC, timing and throughput) come from
    scikit-learn and the clock: [evaluate_model] stands for their
    computation and may raise like it; [accuracy] and [prediction_time]
    read the entries of those names in a successful result. *)
Variable evaluate_model : list Z -> option (list Q) -> list Z -> result report.
Variable accuracy : report -> Q.
Variable prediction_time : report -> Q.

(** The timing of one model on one batch of the load test, and numpy's
    draw of [size] distinct indices below [n]. *)
Variable measure : list Z -> list Z -> nat -> result load_report.
Variable choice : nat -> nat -> list nat.

(** The [y_prob] of [test_individual_models]. *)
Definition positive_probability (m : model) (X_test : batch)
    : result (option (list Q)) :=
  match predict_proba m with
  | Some proba =>
      let! y_prob := proba X_test in
      if (1 <? ncols y_prob)%nat then Ok (Some (column1 y_prob))
      else Ok (Some (flatten y_prob))
  | None => Ok None
  end.

(** The body of the loop of [test_individual_models]: the [try] block and
    its [except Exception] handler. *)
Definition test_model (model_name : string) (m : model) (X_test : batch)
    (y_test : list Z) : strategy_result :=
  match (let! y_prob := positive_probability m X_test in
         let! y_pred := model_vote model_name m X_test in
         evaluate_model y_pred y_prob y_test) with
  | Ok r => Success r
  | Raise e => Error e
  end.

Definition test_individual_models (ms : models) (X_test : batch)
    (y_test : list Z) : list (string * strategy_result) :=
  map (fun nm => (fst nm, test_model (fst nm) (snd nm) X_test y_test)) ms.

(** [X_test[indices]] *)
Fixpoint take_indices {A} (l : list A) (indices : list nat)
    : result (list A) :=
  match indices with
  | [] => Ok []
  | i :: indices' =>
      match l !! i with
      | Some x => let! xs := take_indices l indices' in Ok (x :: xs)
      | None => Raise (IndexError "index out of bounds")
      end
  end.

(** One model on one batch of [test_performance_under_load]. *)
Definition load_test_model (model_name : string) (m : model)
    (X_batch : batch) (y_batch : list Z) (batch_size : nat)
    : string * result load_report :=
  (model_name,
   let! y_pred := model_vote model_name m X_batch in
   measure y_pred y_batch batch_size).

Definition batch_sizes : list nat := [1; 10; 50; 100; 500; 1000]%nat.

Fixpoint load_test_batches (ms : models) (X_test : batch) (y_test : list Z)
    (sizes : list nat)
    : result (list (string * list (string * result load_report))) :=
  match sizes with
  | [] => Ok []
  | batch_size :: sizes' =>
      if (length X_test <? batch_size)%nat then
        load_test_batches ms X_test y_test sizes'
      else
        let indices := choice (length X_test) batch_size in
        let! X_batch := take_indices X_test indices in
        let! y_batch := take_indices y_test indices in
        let batch_results :=
          map (fun nm =>
                 load_test_model (fst nm) (snd nm) X_batch y_batch batch_size)
              ms in
        let! more := load_test_batches ms X_test y_test sizes' in
        Ok ((("batch_size_" ++ pretty batch_size)%string, batch_results)
            :: more)
  end.

Definition test_performance_under_load (ms : models) (X_test : batch)
    (y_test : list Z)
    : result (list (string * list (string * result load_report))) :=
  load_test_batches ms X_test y_test batch_sizes.

(** [(name, results.get("accuracy", 0))] for the successful entries. *)
Definition successes (results : list (string * strategy_result))
    : list (string * report) :=
  omap (fun nr => match snd nr with
                  | Success r => Some (fst nr, r)
                  | Error _ => None
                  end) results.

(** [max(pairs, key=lambda x: x[1], default=("none", 0))]: the first pair
    of greatest accuracy. *)
Definition max_by_accuracy (pairs : list (string * Q)) : string * Q :=
  match pairs with
  | [] => ("none", 0%Q)
  | first :: rest =>
      fold_left (fun best x => if Qle_bool (snd x) (snd best) then best else x)
                rest first
  end.

Definition best_of (results : list (string * strategy_result)) : string * Q :=
  max_by_accuracy
    (map (fun nr => (fst nr, accuracy (snd nr))) (successes results)).

(** [np.mean(values)] of a non-empty list and [max(values)]. *)
Definition mean (values : list Q) : Q :=
  (fold_left Qplus values 0 / inject_Z (Z.of_nat (length values)))%Q.

Definition maximum (first : Q) (rest : list Q) : Q :=
  fold_left (fun best x => if Qle_bool x best then best else x) rest first.

Definition single_model_advice : string :=
  "Individual models perform well, consider single model deployment".

Definition model_recommendations
    (individual_results : list (string * strategy_result)) : list string :=
  omap (fun nr =>
          match snd nr with
          | Error _ => Some ("Fix deployment issues for " ++ fst nr)%string
          | Success r =>
              if Qle_bool 0.8 (accuracy r) then None
              else Some ("Retrain or replace " ++ fst nr
                         ++ " for better accuracy")%string
          end) individual_results.

Definition generate_recommendations
    (individual_results ensemble_results : list (string * strategy_result))
    : list string :=
  let successful_models := successes individual_results in
  (match map (fun nr => accuracy (snd nr)) successful_models with
   | [] => []
   | first :: rest =>
       let individual_accuracies := first :: rest in
       let avg_accuracy := mean individual_accuracies in
       let avg_prediction_time :=
         mean (map (fun nr => prediction_time (snd nr)) successful_models) in
       let ensemble_accuracies :=
         map (fun nr => accuracy (snd nr)) (successes ensemble_results) in
       (if Qle_bool 0.85 avg_accuracy then []
        else [ "Consider retraining models with more diverse data";
               "Implement feature engineering to improve model performance" ])
       ++ (if Qle_bool avg_prediction_time 1.0 then []
           else [ "Optimize model inference for better latency";
                  "Consider model quantization or pruning" ])
       ++ (match ensemble_accuracies with
           | e :: es =>
               if Qle_bool (maximum e es) (maximum first rest)
               then [ single_model_advice ]
               else [ "Deploy ensemble model for best performance" ]
           | [] => [ single_model_advice ]
           end)
   end)
  ++ model_recommendations individual_results.

Record overall_performance := OverallPerformance {
  best_individual_model : string * Q;
  best_ensemble_strategy : string * Q;
  average_individual_accuracy : Q;
  average_prediction_time : Q;
  models_tested : nat;
  successful_tests : nat
}.

Record performance_summary (load : Type) := PerformanceSummary {
  test_timestamp : string;
  ps_experiment_id : string;
  overall : overall_performance;
  individual_model_results : list (string * @strategy_result report);
  ps_ensemble_results : list (string * @strategy_result report);
  load_test_results : load;
  recommendations : list string
}.

Definition generate_performance_report {load : Type} (now : string)
    (individual_results ensemble_results : list (string * strategy_result))
    (load_results : load) (experiment_id : string) : performance_summary load :=
  let best_individual := best_of individual_results in
  let best_ensemble := best_of ensemble_results in
  let successful_individual := successes individual_results in
  let avg_accuracy :=
    match successful_individual with
    | [] => 0%Q
    | _ => mean (map (fun nr => accuracy (snd nr)) successful_individual)
    end in
  let avg_prediction_time :=
    match successful_individual with
    | [] => 0%Q
    | _ => mean (map (fun nr => prediction_time (snd nr)) successful_individual)
    end in
  PerformanceSummary load now experiment_id
    (OverallPerformance best_individual best_ensemble avg_accuracy
       avg_prediction_time (length individual_results)
       (length successful_individual))
    individual_results ensemble_results load_results
    (generate_recommendations individual_results ensemble_results).

End Report.

End TesterReport.

Module ReportSamples.
Import Py Tester TesterReport.

(** A report reduced to its accuracy and its prediction time. *)
Definition timed : Type := Q * Q.

Definition all_failed : list (string * @strategy_result timed) :=
  [ ("signature_detector", Error (InferenceError "shape mismatch"));
    ("ensemble_rf", Error (InferenceError "not fitted")) ].

Definition one_passed : list (string * @strategy_result timed) :=
  [ ("signature_detector", Success (0.7%Q, 0.1%Q)) ].

Definition vote_passed : list (string * @strategy_result timed) :=
  [ ("majority_vote", Success (0.9%Q, 0.1%Q)) ].

(** A draw that takes the first indices, and a measure that only records
    the batch size. *)
Definition first_indices (n size : nat) : list nat := seq 0 (Nat.min size n).

Definition size_only (y_pred y_batch : list Z) (size : nat) : result nat :=
  Ok size.

Definition twelve_samples : batch := repeat [0%Q] 12.

Definition twelve_labels : list Z := repeat 0 12.

End ReportSamples.

Module DeployMore.
Import Py Deployer DeployReference DeploySamples.

Definition summary_file (self : deployer) (experiment_id : string) : string :=
  path_join (experiment_dir self experiment_id) "deployment_summary.json".

Definition metadata_file (self : deployer) (experiment_id : string) : string :=
  path_join (experiment_dir self experiment_id) "metadata.json".

Definition deployer_of (args : arguments) : deployer :=
  ModelDeployer (arg_models_dir args) (arg_experiments_dir args)
                (arg_mlops_url args).

Definition is_get (e : event) : bool :=
  match e with Got _ => true | _ => false end.

Definition pending_result : deployment_result :=
  DeploymentResult "deploy-exp1-1749902400" "pending" "2025-06-14T12:00:00"
                   [] [] None None.

(** The components of a path: the pieces between its slashes. *)
Fixpoint components (path : string) : list string :=
  match path with
  | EmptyString => [""]
  | String c rest =>
      if Ascii.eqb c "/" then "" :: components rest
      else match components rest with
           | first :: others => String c first :: others
           | [] => [String c ""]
           end
  end.

(** A directory written the way pathlib prints it: its components are
    neither empty nor ".", apart from the empty first component of an
    absolute path; in particular there is no leading "./" and no doubled
    or trailing slash, and the directory is neither "" nor "/". For such
    a directory [d] and a file name [f] without a slash,
    [str(Path(d) / f)] is [d], a slash and [f]. *)
Definition proper_component (c : string) : bool :=
  negb (String.eqb c "") && negb (String.eqb c ".").

Definition pathlib_normal (d : string) : bool :=
  match components d with
  | "" :: (_ :: _) as rest => forallb proper_component rest
  | parts => forallb proper_component parts
  end.

(** What the registration records for a catalogue model whose file
    exists. *)
Definition catalogue_entry (self : deployer) (evaluation_results : value)
    (info : value) (model_name : string) : Prop :=
  getitem info "name" = Ok (VStr model_name) /\
  getitem info "version" = Ok (VStr "2.0.0") /\
  getitem info "file_path" = Ok (VStr (model_file self model_name)) /\
  getitem info "stage" = Ok (VStr "staging") /\
  exists metrics,
    get evaluation_results model_name (VDict []) = Ok metrics /\
    getitem info "performance_metrics" = Ok metrics.

Definition present_models (self : deployer) (w : world) : list string :=
  List.filter (fun n => is_present (fs w) (model_file self n)) model_names.

(** The serving entry of a catalogue model, as the synthesis formats
    it. *)
Definition serves (ext : externals) (self : deployer)
    (entry : model_config) (model_name : string) : Prop :=
  mc_name entry = VStr model_name /\
  mc_version entry = VStr "2.0.0" /\
  mc_file_path entry = VStr (model_file self model_name) /\
  mc_endpoint entry
  = ("/predict/" ++ format_value ext (VStr model_name))%string /\
  mc_health_endpoint entry
  = ("/health/" ++ format_value ext (VStr model_name))%string.

(** The serving entry of a catalogue model, with its endpoints spelled
    out. *)
Definition serves_model (self : deployer) (entry : model_config)
    (model_name : string) : Prop :=
  mc_name entry = VStr model_name /\
  mc_version entry = VStr "2.0.0" /\
  mc_file_path entry
  = VStr (models_dir self ++ "/" ++ model_name ++ "_v2.0.0.joblib")%string /\
  mc_endpoint entry = ("/predict/" ++ model_name)%string /\
  mc_health_endpoint entry = ("/health/" ++ model_name)%string.

(** The candidate entry of the sample experiment. *)
Definition complete_candidate : value :=
  VDict
    [ ("experiment_id", VStr "exp1");
      ("models",
       VList
         [ VDict
             [ ("name", VStr "signature_detector");
               ("version", VStr "2.0.0");
               ("type", VStr "threat_detection");
               ("framework", VStr "scikit-learn");
               ("file_path", VStr "models/signature_detector_v2.0.0.joblib");
               ("stage", VStr "staging");
               ("performance_metrics", VDict [ ("accuracy", VFloat 0.95%Q) ]);
               ("created_at", VStr "2025-06-14T12:00:00");
               ("description",
                VStr "Advanced threat detection model: signature_detector") ] ]);
      ("timestamp", VStr "2025-06-14T12:00:00") ].

(** A computation that sends no GET request, however it ends. *)
Definition sends_no_get {A} (m : M A) : Prop :=
  forall w, exists events,
    trace (snd (m w)) = trace w ++ events /\
    forallb (fun e => negb (is_get e)) events = true.

Definition exp1_skipping : arguments :=
  Args "exp1" "models" "experiments" "http://localhost:3007" true.

End DeployMore.

(** * Properties of the ensemble engine *)

Module TesterProps.
Import Py Tester Reference Samples.

(** ** Majority vote *)

Lemma round_half_even_ratio (s k : Z) :
  0 <= s <= k -> 0 < k ->
  round_half_even (inject_Z s / inject_Z k) = if k <? 2 * s then 1 else 0.
Proof.
  intros Hs Hk. destruct k as [|p|p]; try lia.
  unfold round_half_even, Qdiv, Qmult, Qinv, inject_Z; cbn [Qnum Qden].
  rewrite Z.mul_1_r. change (Z.pos (1 * p)) with (Z.pos p).
  destruct (Z.eq_dec s (Z.pos p)) as [->|Hne].
  - rewrite Z.div_same, Z.mod_same by lia.
    replace (2 * 0 <? Z.pos p) with true by (symmetry; apply Z.ltb_lt; lia).
    replace (Z.pos p <? 2 * Z.pos p) with true by (symmetry; apply Z.ltb_lt; lia).
    reflexivity.
  - rewrite Z.div_small, Z.mod_small by lia.
    destruct (2 * s <? Z.pos p) eqn:E1; destruct (Z.pos p <? 2 * s) eqn:E2;
      try reflexivity.
    apply Z.ltb_lt in E1. apply Z.ltb_lt in E2. lia.
Qed.

Lemma same_length_Forall {A} (n : nat) (l : list (list A)) :
  same_length n l = true <-> Forall (fun r => length r = n) l.
Proof.
  unfold same_length. rewrite forallb_forall, Forall_forall.
  split; intros H r Hr.
  - apply Nat.eqb_eq, H, list_elem_of_In, Hr.
  - apply Nat.eqb_eq, H, list_elem_of_In, Hr.
Qed.

Lemma sum_axis0_length {A} (add : A -> A -> A) (n : nat) rest : forall first,
  length first = n -> Forall (fun r => length r = n) rest ->
  length (sum_axis0 add first rest) = n.
Proof.
  induction rest as [|r rest IH]; intros first Hf Hr; [exact Hf|].
  apply Forall_cons in Hr as [Hr1 Hr2]. cbn. apply IH; [|exact Hr2].
  unfold add_rows. rewrite length_zip_with. lia.
Qed.

Lemma lookup_nth {A} (l : list A) (i : nat) (d : A) :
  (i < length l)%nat -> l !! i = Some (nth i l d).
Proof.
  intros H. destruct (lookup_lt_is_Some_2 l i H) as [x Hx].
  rewrite Hx. f_equal. symmetry. apply nth_lookup_Some with (d := d) in Hx.
  exact Hx.
Qed.

Lemma sum_axis0_votes (n i : nat) rest : forall first,
  length first = n -> Forall (fun r => length r = n) rest -> (i < n)%nat ->
  sum_axis0 Z.add first rest !! i = Some (votes_at i (first :: rest)).
Proof.
  induction rest as [|r rest IH]; intros first Hf Hr Hi.
  - cbn. rewrite Z.add_0_r. apply lookup_nth. lia.
  - apply Forall_cons in Hr as [Hr1 Hr2]. cbn [sum_axis0 fold_left].
    change (fold_left (add_rows Z.add) rest (add_rows Z.add first r))
      with (sum_axis0 Z.add (add_rows Z.add first r) rest).
    rewrite IH; [|unfold add_rows; rewrite length_zip_with; lia|exact Hr2|exact Hi].
    f_equal. cbn.
    assert (Hz : add_rows Z.add first r !! i = Some (nth i first 0 + nth i r 0)).
    { unfold add_rows. rewrite lookup_zip_with.
      rewrite (lookup_nth first i 0), (lookup_nth r i 0) by lia. reflexivity. }
    apply nth_lookup_Some with (d := 0) in Hz. rewrite Hz. lia.
Qed.

Lemma votes_at_bounds (i : nat) (predictions : list (list Z)) :
  Forall binary predictions ->
  0 <= votes_at i predictions <= Z.of_nat (length predictions).
Proof.
  induction 1 as [|p ps Hp _ IH]; cbn [votes_at foldr length]; [lia|].
  fold (votes_at i ps).
  assert (0 <= nth i p 0 <= 1); [|lia].
  destruct (nth_in_or_default i p 0) as [Hin| ->]; [|lia].
  unfold binary in Hp. rewrite List.Forall_forall in Hp.
  destruct (Hp _ Hin); lia.
Qed.

Lemma collect_predictions_ok (X_test : batch) (P : list Z -> Prop) ms :
  Forall (fun nm => exists y, model_vote nm.1 nm.2 X_test = Ok y /\ P y) ms ->
  exists predictions,
    collect_predictions ms X_test = Ok predictions /\
    length predictions = length ms /\ Forall P predictions.
Proof.
  induction 1 as [|[name m] ms (y & Hy & HP) _ (ps & Hps & Hlen & HF)].
  - exists []. repeat split. constructor.
  - exists (y :: ps). cbn in *. rewrite Hy. cbn. rewrite Hps. cbn.
    repeat split; [congruence|constructor; assumption].
Qed.

Ltac solve_binary :=
  unfold binary;
  repeat first [apply List.Forall_nil | apply List.Forall_cons; [lia|]].

(** C2 (amended): over a non-empty collection of models with
    binary per-sample predictions, the majority vote returns, per sample,
    the mean of the predictions rounded to the nearest integer with a half
    going to the even neighbour; the label is 1 exactly when strictly more
    than half of the models predict 1, so a tie (mean 0.5) gives label 0. *)
Theorem majority_vote_strict_majority (ms : models) (X_test : batch) :
  ms <> [] -> votes_binary ms X_test ->
  exists predictions out,
    collect_predictions ms X_test = Ok predictions /\
    majority_vote_ensemble ms X_test = Ok (Arr out, None) /\
    length out = length X_test /\
    forall i, (i < length X_test)%nat ->
      out !! i = Some (round_half_even
                         (inject_Z (votes_at i predictions)
                          / inject_Z (Z.of_nat (length ms)))) /\
      out !! i = Some (if Z.of_nat (length ms) <? 2 * votes_at i predictions
                       then 1 else 0).
Proof.
  intros Hne Hv.
  destruct (collect_predictions_ok X_test
              (fun y => length y = length X_test /\ binary y) ms)
    as (ps & Hps & Hlen & HF).
  { eapply Forall_impl; [exact Hv|]. intros nm (y & ? & ? & ?). eauto. }
  destruct ps as [|first rest]; [destruct ms; [congruence|discriminate]|].
  assert (Hl : Forall (fun r => length r = length X_test) (first :: rest))
    by (eapply Forall_impl; [exact HF|]; intros ? []; assumption).
  assert (Hb : Forall binary (first :: rest))
    by (eapply Forall_impl; [exact HF|]; intros ? []; assumption).
  pose proof Hl as Hl'. apply Forall_cons in Hl' as [Hf Hr].
  eexists (first :: rest), _. split; [exact Hps|].
  unfold majority_vote_ensemble. rewrite Hps. cbn [bind mean_round].
  rewrite Hf. rewrite (proj2 (same_length_Forall _ _) Hr). cbn [bind].
  split; [reflexivity|]. split.
  { rewrite length_map.
    apply sum_axis0_length with (n := length X_test); assumption. }
  intros i Hi. rewrite list_lookup_fmap.
  rewrite (sum_axis0_votes (length X_test)) by assumption.
  cbn [fmap option_fmap option_map].
  rewrite <- Hlen. split; [reflexivity|]. f_equal.
  apply round_half_even_ratio; [apply votes_at_bounds, Hb|cbn [length]; lia].
Qed.

Lemma majority_vote_strict_majority_witness :
  exists predictions out,
    collect_predictions two_to_one one_sample = Ok predictions /\
    majority_vote_ensemble two_to_one one_sample = Ok (Arr out, None) /\
    length out = length one_sample /\
    forall i, (i < length one_sample)%nat ->
      out !! i = Some (round_half_even
                         (inject_Z (votes_at i predictions)
                          / inject_Z (Z.of_nat (length two_to_one)))) /\
      out !! i = Some (if Z.of_nat (length two_to_one) <? 2 * votes_at i predictions
                       then 1 else 0).
Proof.
  apply (majority_vote_strict_majority two_to_one one_sample).
  - discriminate.
  - unfold votes_binary, two_to_one.
    repeat (apply List.Forall_cons;
            [eexists; split; [reflexivity|split; [reflexivity|solve_binary]]|]).
    apply List.Forall_nil.
Defined.

(** Two votes for 1 against one for 0 give label 1. *)
Example majority_vote_two_to_one :
  majority_vote_ensemble two_to_one one_sample = Ok (Arr [1], None).
Proof. reflexivity. Qed.

(** C2 (counterexample): the claim as worded fails on a tie: two models voting
    1 and 0 have mean 0.5, which the specification rounds up to label 1,
    and the code returns label 0. *)
Lemma majority_vote_tie_is_not_positive :
  collect_predictions tied one_sample = Ok [[1]; [0]] /\
  map round_half_up [(1 # 2)%Q] = [1] /\
  majority_vote_ensemble tied one_sample = Ok (Arr [0], None) /\
  majority_vote_ensemble tied one_sample <> Ok (Arr [1], None).
Proof. repeat split; try reflexivity. discriminate. Qed.

(** ** Weighted average *)

Lemma weight_zero_inactive (model_name : string) :
  Qeq_bool (weight_of model_name) 0 = negb (is_active model_name).
Proof.
  unfold is_active, weight_of, weights. cbn [assoc].
  repeat match goal with |- context [String.eqb ?a ?b] =>
    destruct (String.eqb a b) end; reflexivity.
Qed.






(** ** Best model *)

(** The best-model strategy takes [ensemble_rf], or [signature_detector]
    when [ensemble_rf] is absent, and returns that model's own
    prediction, with column 1 of its [predict_proba] when the method
    exists and its output has at least two columns; with neither model
    present it returns a vector of zeros, one per sample, and no
    probability. *)
Lemma best_model_fixed_order (ms : models) (X_test : batch) :
  (forall m, assoc "ensemble_rf" ms = Some m -> best_model ms = Some m) /\
  (forall m, assoc "ensemble_rf" ms = None ->
             assoc "signature_detector" ms = Some m -> best_model ms = Some m) /\
  (forall m y, best_model ms = Some m -> predict m X_test = Ok y ->
     predict_proba m = None ->
     best_model_ensemble ms X_test = Ok (Arr y, None)) /\
  (forall m y proba p, best_model ms = Some m -> predict m X_test = Ok y ->
     predict_proba m = Some proba -> proba X_test = Ok p -> (1 < ncols p)%nat ->
     best_model_ensemble ms X_test = Ok (Arr y, Some (column1 p))) /\
  (assoc "ensemble_rf" ms = None -> assoc "signature_detector" ms = None ->
     exists zeros,
       best_model_ensemble ms X_test = Ok (Arr zeros, None) /\
       length zeros = length X_test /\ Forall (fun v => v = 0) zeros).
Proof.
  unfold best_model_ensemble, best_model. repeat split.
  - intros m ->. reflexivity.
  - intros m -> ->. reflexivity.
  - intros m y -> -> ->. reflexivity.
  - intros m y proba p -> -> -> Hp Hc. cbn [bind]. rewrite Hp. cbn [bind].
    apply Nat.ltb_lt in Hc. rewrite Hc. reflexivity.
  - intros -> ->. exists (repeat 0 (length X_test)).
    split; [reflexivity|]. split; [apply repeat_length|].
    apply Forall_forall. intros v Hv. apply list_elem_of_In in Hv.
    eapply repeat_spec, Hv.
Qed.

(** C7 (defect): the probability is taken as column 1 of
    [predict_proba] without looking at the number of columns. For a
    selected model whose [predict_proba] has a single column the
    strategy returns neither the model's prediction nor a probability:
    the indexing raises [IndexError], although the model is present, its
    prediction succeeds and [predict_proba] is available. The weighted
    average reads the same output through its guard and scores the model
    by the flattened column. *)
Theorem best_model_single_column_raises :
  best_model single_column = Some single_class /\
  predict single_class one_sample = Ok [1] /\
  (exists proba,
     predict_proba single_class = Some proba /\
     proba one_sample = Ok (Matrix 1 [[1%Q]])) /\
  best_model_ensemble single_column one_sample
  = Raise (IndexError "index 1 is out of bounds for axis 1") /\
  model_score "ensemble_rf" single_class one_sample = Ok [1%Q].
Proof.
  split; [reflexivity|]. split; [reflexivity|]. split.
  - eexists. split; reflexivity.
  - split; reflexivity.
Qed.

(** ** Failures of a single model *)

Lemma collect_predictions_raise (X_test : batch) (e : exn) before name m after :
  Forall (fun nm => is_ok (model_vote nm.1 nm.2 X_test) = true) before ->
  model_vote name m X_test = Raise e ->
  collect_predictions (before ++ (name, m) :: after) X_test = Raise e.
Proof.
  intros Hb Hm. induction Hb as [|[n0 m0] before H0 _ IH]; cbn.
  - rewrite Hm. reflexivity.
  - cbn in H0. destruct (model_vote n0 m0 X_test); [|discriminate].
    cbn. rewrite IH. reflexivity.
Qed.

Lemma weighted_loop_raise (X_test : batch) (e : exn) before name m after :
  Forall (fun nm => is_active nm.1 = true ->
                    is_ok (model_score nm.1 nm.2 X_test) = true) before ->
  is_active name = true -> model_score name m X_test = Raise e ->
  forall acc total,
    weighted_loop (before ++ (name, m) :: after) X_test acc total = Raise e.
Proof.
  intros Hb Ha Hm. induction Hb as [|[n0 m0] before H0 _ IH]; intros acc total; cbn.
  - rewrite weight_zero_inactive, Ha. cbn. rewrite Hm. reflexivity.
  - rewrite weight_zero_inactive. cbn in H0.
    destruct (is_active n0); cbn; [|apply IH].
    destruct (model_score n0 m0 X_test); [|discriminate H0; reflexivity].
    cbn. apply IH.
Qed.

Section Failures.
Context {report : Type}.
Variable evaluate : strategy_output -> list Z -> result report.

(** C6 (amended): no strategy catches a failure of a model's inference.
    The first model whose inference raises ends the strategy with that
    exception: any model in the majority vote, any model of non-zero
    weight in the weighted average, the selected model in the
    best-model strategy. [test_ensemble_performance] catches the
    exception per strategy, records it as that strategy's error, and
    still reports on all three strategies. *)
Theorem model_failure_aborts_strategy (X_test : batch) (y_test : list Z)
    (e : exn) :
  (forall before name m after,
     Forall (fun nm => is_ok (model_vote nm.1 nm.2 X_test) = true) before ->
     model_vote name m X_test = Raise e ->
     majority_vote_ensemble (before ++ (name, m) :: after) X_test = Raise e) /\
  (forall before name m after,
     Forall (fun nm => is_active nm.1 = true ->
                       is_ok (model_score nm.1 nm.2 X_test) = true) before ->
     is_active name = true -> model_score name m X_test = Raise e ->
     weighted_average_ensemble (before ++ (name, m) :: after) X_test
     = Raise e) /\
  (forall ms m, best_model ms = Some m -> predict m X_test = Raise e ->
     best_model_ensemble ms X_test = Raise e) /\
  (forall ms strategy_name strategy_func,
     In (strategy_name, strategy_func) ensemble_strategies ->
     strategy_func ms X_test = Raise e ->
     assoc strategy_name (test_ensemble_performance evaluate ms X_test y_test)
     = Some (Error e)) /\
  (forall ms,
     map fst (test_ensemble_performance evaluate ms X_test y_test)
     = ["majority_vote"; "weighted_average"; "best_model"]).
Proof.
  repeat split.
  - intros before name m after Hb Hm. unfold majority_vote_ensemble.
    rewrite (collect_predictions_raise X_test e) by assumption. reflexivity.
  - intros before name m after Hb Ha Hm. unfold weighted_average_ensemble.
    rewrite (weighted_loop_raise X_test e) by assumption. reflexivity.
  - intros ms m Hbest Hp. unfold best_model_ensemble. rewrite Hbest, Hp.
    reflexivity.
  - intros ms name f Hin Hf.
    unfold test_ensemble_performance, ensemble_strategies in *.
    cbn in Hin. destruct Hin as [H|[H|[H|[]]]]; injection H as <- <-;
      cbn; unfold run_strategy; rewrite Hf; reflexivity.
Qed.
End Failures.

(** C6 (counterexample): with one failing and one working model the
    majority vote and the weighted average end with the failing model's
    exception; the working model's output yields no result, and the
    strategy is recorded as an error. *)
Lemma one_model_failure_fails_the_vote :
  model_vote "signature_detector" (failing_model "shape mismatch") one_sample
    = Raise (InferenceError "shape mismatch") /\
  model_vote "ensemble_rf" (constant_model [1]) one_sample = Ok [1] /\
  majority_vote_ensemble one_broken one_sample
    = Raise (InferenceError "shape mismatch") /\
  weighted_average_ensemble one_broken one_sample
    = Raise (InferenceError "shape mismatch") /\
  assoc "majority_vote"
    (test_ensemble_performance (fun _ _ => Ok tt) one_broken one_sample [1])
    = Some (Error (InferenceError "shape mismatch")).
Proof. repeat split. Qed.

End TesterProps.

(** * The weighted average in binary64 arithmetic *)

Module DoublesProps.
Import Py Tester.
Import Doubles DoublesReference DoublesSamples.
Import TesterProps.
Import PrimFloat.

(** The loop skips a model exactly when its weight is not positive. *)
Lemma skipped_iff_inactive (model_name : string) :
  (weight_of model_name =? 0)%float = negb (is_active model_name).
Proof.
  unfold is_active, weight_of, weights. cbn [assoc].
  repeat match goal with |- context [String.eqb ?a ?b] =>
    destruct (String.eqb a b) end; reflexivity.
Qed.

Lemma weighted_loop_scored (X_test : batch) ms : forall scored acc total,
  active_scores ms X_test = Ok scored ->
  weighted_loop ms X_test acc total =
    Ok (acc ++ map scale scored,
        fold_left (fun t ws => t + fst ws)%float scored total).
Proof.
  induction ms as [|[name m] ms IH]; intros scored acc total H;
    cbn [weighted_loop active_scores] in *.
  - injection H as <-. cbn. rewrite app_nil_r. reflexivity.
  - rewrite skipped_iff_inactive. destruct (is_active name); cbn [negb] in *.
    + destruct (model_score name m X_test) as [score|e]; [|discriminate].
      cbn [bind] in *.
      destruct (active_scores ms X_test) as [more|e]; [|discriminate].
      cbn [bind] in H. injection H as <-. rewrite (IH more) by reflexivity.
      cbn [map fold_left fst snd]. unfold scale at 2. cbn [fst snd].
      rewrite <- app_assoc. reflexivity.
    + apply IH, H.
Qed.

Lemma sum_axis0_lookup {A} (add : A -> A -> A) (d : A) (n i : nat) rest :
  forall first,
  length first = n -> Forall (fun r => length r = n) rest -> (i < n)%nat ->
  sum_axis0 add first rest !! i
  = Some (fold_left (fun acc r => add acc (nth i r d)) rest (nth i first d)).
Proof.
  induction rest as [|r rest IH]; intros first Hf Hr Hi.
  - cbn. apply lookup_nth. lia.
  - apply Forall_cons in Hr as [Hr1 Hr2]. cbn [sum_axis0 fold_left].
    fold (sum_axis0 add (add_rows add first r) rest).
    rewrite IH; [|unfold add_rows; rewrite length_zip_with; lia|exact Hr2|exact Hi].
    assert (Hz : add_rows add first r !! i
                 = Some (add (nth i first d) (nth i r d))).
    { unfold add_rows. rewrite lookup_zip_with.
      rewrite (lookup_nth first i d), (lookup_nth r i d) by lia. reflexivity. }
    apply nth_lookup_Some with (d := d) in Hz. rewrite Hz. reflexivity.
Qed.

Lemma scaled_rows_fold (n i : nat) (rest : list (float * list float)) :
  Forall (fun ws => length (snd ws) = n) rest -> (i < n)%nat ->
  forall start,
  fold_left (fun acc r => acc + nth i r 0)%float (map scale rest) start
  = fold_left (fun acc ws => acc + scaled_at i ws)%float rest start.
Proof.
  intros H Hi. induction H as [|[w s] rest Hs _ IH]; intros start;
    cbn [map fold_left fst snd]; [reflexivity|].
  rewrite IH. cbn in Hs. unfold scaled_at at 2, scale. cbn [fst snd].
  assert (Hz : map (fun p => p * w)%float s !! i = Some (nth i s 0 * w)%float).
  { rewrite list_lookup_fmap, (lookup_nth s i 0%float) by lia. reflexivity. }
  apply nth_lookup_Some with (d := 0%float) in Hz. rewrite Hz. reflexivity.
Qed.

Lemma inactive_scores (X_test : batch) ms :
  Forall (fun nm => is_active nm.1 = false) ms ->
  active_scores ms X_test = Ok [].
Proof.
  induction 1 as [|[name m] ms H _ IH]; cbn; [reflexivity|].
  cbn in H. rewrite H. exact IH.
Qed.

(** C4: the weighted average combines exactly the models whose weight
    ([weights.get(name, 0.1)]) is greater than 0: the loop skips a model
    exactly when its weight is not. The anomaly detector's output -1
    scores 1 and any other output 0, and a model without [predict_proba]
    scores its own labels. For every sample the scores, each multiplied
    by its weight, are added up in the order of the models and divided
    by the sum of the active weights, added up in the same order; the
    label is 1 when this quotient is greater than 0.5 and 0 otherwise,
    so a quotient of exactly 0.5 gives 0. With no model of positive
    weight the result is the all-zero prediction without probability.
    All operations are those of binary64 arithmetic. [scored] is the
    list of the active models' weights and scores, all inferences
    having succeeded; there are fewer than eight of them, so that the
    rows are added in order. *)
Theorem weighted_average_normalised (ms : models) (X_test : batch)
    (scored : list (float * list float)) :
  active_scores ms X_test = Ok scored ->
  Forall (fun ws => length (snd ws) = length X_test) scored ->
  (length scored < 8)%nat ->
  (forall model_name,
     (weight_of model_name =? 0)%float = false
     <-> (0 <? weight_of model_name)%float = true) /\
  (forall m raw, predict m X_test = Ok raw ->
     model_score "anomaly_detector" m X_test
     = Ok (map (fun v => if v =? -1 then 1%float else 0%float) raw)) /\
  (forall model_name m y,
     model_name <> "anomaly_detector" -> predict_proba m = None ->
     predict m X_test = Ok y ->
     model_score model_name m X_test = Ok (map float_of_int y)) /\
  (float_of_int 0 = 0%float /\ float_of_int 1 = 1%float) /\
  (forall p, threshold p = 1 <-> (0.5 <? p)%float = true) /\
  (forall p, threshold p = 0 <-> (0.5 <? p)%float = false) /\
  threshold 0.5 = 0 /\
  (forall ms', Forall (fun nm => (0 <? weight_of nm.1)%float = false) ms' ->
     weighted_average_ensemble ms' X_test
     = Ok (Arr (repeat 0 (length X_test)), None)) /\
  match scored with
  | [] => weighted_average_ensemble ms X_test
          = Ok (Arr (repeat 0 (length X_test)), None)
  | _ :: _ =>
      exists probs,
        weighted_average_ensemble ms X_test
        = Ok (Arr (map threshold probs), Some probs) /\
        length probs = length X_test /\
        forall i, (i < length X_test)%nat ->
          probs !! i
          = Some (weighted_sum_at i scored / sum_of_weights scored)%float
  end.
Proof.
  intros Hs Hl _. split.
  { intros name. rewrite skipped_iff_inactive. unfold is_active.
    destruct (0 <? weight_of name)%float; split; intros H;
      first [reflexivity|discriminate H]. }
  split.
  { intros m raw Hp. unfold model_score. cbn.
    destruct (predict_proba m); rewrite Hp; reflexivity. }
  split.
  { intros name m y Hn Hnone Hp. unfold model_score. rewrite Hnone.
    apply String.eqb_neq in Hn. rewrite Hn, Hp. reflexivity. }
  split; [split; reflexivity|]. split.
  { intros p. unfold threshold. destruct (0.5 <? p)%float; split; intros H;
      first [reflexivity|discriminate H]. }
  split.
  { intros p. unfold threshold. destruct (0.5 <? p)%float; split; intros H;
      first [reflexivity|discriminate H]. }
  split; [reflexivity|]. split.
  { intros ms' Hin. unfold weighted_average_ensemble.
    rewrite (weighted_loop_scored X_test ms' [] [] 0%float)
      by (apply inactive_scores, Hin).
    reflexivity. }
  unfold weighted_average_ensemble.
  rewrite (weighted_loop_scored X_test ms scored [] 0%float Hs). cbn [bind app].
  destruct scored as [|ws scored]; [reflexivity|].
  cbn [map]. apply Forall_cons in Hl as [Hl1 Hl2].
  assert (Hf : length (scale ws) = length X_test)
    by (unfold scale; rewrite length_map; exact Hl1).
  assert (Hr : Forall (fun r => length r = length X_test) (map scale scored)).
  { apply Forall_fmap. eapply Forall_impl; [exact Hl2|].
    intros ws' H. cbn. unfold scale. rewrite length_map. exact H. }
  rewrite Hf, (proj2 (same_length_Forall _ _) Hr).
  eexists. split; [reflexivity|]. split.
  { rewrite length_map.
    apply sum_axis0_length with (n := length X_test); assumption. }
  intros i Hi. rewrite list_lookup_fmap.
  rewrite (sum_axis0_lookup PrimFloat.add 0%float (length X_test) i
             (map scale scored) (scale ws) Hf Hr Hi).
  cbn [fmap option_fmap option_map]. f_equal. f_equal.
  rewrite (scaled_rows_fold (length X_test)) by assumption.
  cbn [weighted_sum_at]. f_equal.
  assert (Hz : scale ws !! i = Some (nth i (snd ws) 0 * fst ws)%float).
  { unfold scale.
    rewrite list_lookup_fmap, (lookup_nth (snd ws) i 0%float) by lia.
    reflexivity. }
  apply nth_lookup_Some with (d := 0%float) in Hz. exact Hz.
Qed.

Lemma weighted_average_normalised_witness :
  exists probs,
    weighted_average_ensemble boundary Samples.one_sample
    = Ok (Arr (map threshold probs), Some probs) /\
    length probs = length Samples.one_sample /\
    forall i, (i < length Samples.one_sample)%nat ->
      probs !! i
      = Some (weighted_sum_at i [ (0.5, [1]); (0.3, [0]); (0.2, [0]) ]
              / sum_of_weights [ (0.5, [1]); (0.3, [0]); (0.2, [0]) ])%float.
Proof.
  apply (weighted_average_normalised boundary Samples.one_sample
           [ (0.5%float, [1%float]); (0.3%float, [0%float]);
             (0.2%float, [0%float]) ]).
  - reflexivity.
  - repeat (apply List.Forall_cons; [reflexivity|]). apply List.Forall_nil.
  - cbn. lia.
Defined.

(** On that input the score is exactly 0.5 and the label is 0. *)
Example weighted_average_boundary :
  weighted_average_ensemble boundary Samples.one_sample
  = Ok (Arr [0], Some [0.5%float]).
Proof. reflexivity. Qed.

(** The score is the rounded quotient of the rounded sums: three votes
    of weight 0.1 against one of weight 0.3 add up to
    0.30000000000000004 over 0.6, a score just above 0.5, and the label
    is 1. *)
Example weighted_average_rounding :
  weighted_average_ensemble near_tie Samples.one_sample
  = Ok (Arr [1], Some [0.5000000000000001%float]) /\
  (0.5 <? 0.5000000000000001)%float = true.
Proof. split; reflexivity. Qed.

End DoublesProps.

(** * Properties of the deployment orchestrator *)

Module DeployerProps.
Import Py Deployer DeployReference DeploySamples.

(** ** Serving configuration *)

Lemma model_configs_of_names (ext : externals) infos : forall configs,
  model_configs_of ext infos = Ok configs ->
  Forall2 (fun info config => getitem info "name" = Ok (mc_name config))
          infos configs.
Proof.
  induction infos as [|info infos IH]; intros configs H; cbn in H.
  - injection H as <-. constructor.
  - unfold model_config_of in H.
    destruct (getitem info "name") as [name|] eqn:Hn; [|discriminate].
    destruct (getitem info "version"); [|discriminate].
    destruct (getitem info "file_path"); [|discriminate].
    destruct (get info "performance_metrics" (VDict [])); [|discriminate].
    cbn in H. destruct (model_configs_of ext infos) as [more|]; [|discriminate].
    cbn in H. injection H as <-. constructor; [exact Hn|]. apply IH. reflexivity.
Qed.

(** The synthesis raises only what the dictionary accesses raise. *)
Lemma create_config_errors (ext : externals) (experiment_id : string)
    (registry_info : value) (e : exn) :
  create_model_serving_config ext experiment_id registry_info = Raise e ->
  (exists what, e = AttributeError what) \/
  (exists what, e = TypeError what) \/
  (exists key, e = KeyError key).
Proof.
  assert (Hget : forall v k d e', get v k d = Raise e' ->
                                  exists what, e' = AttributeError what).
  { intros v k d e' H. destruct v; cbn in H; try discriminate;
      injection H as <-; eauto. }
  assert (Hitem : forall v k e', getitem v k = Raise e' ->
            (exists what, e' = TypeError what) \/ (exists key, e' = KeyError key)).
  { intros v k e' H. destruct v; cbn in H;
      try (injection H as <-; left; eauto).
    destruct (assoc k d); [discriminate|]. injection H as <-. right. eauto. }
  assert (Hconfigs : forall infos, model_configs_of ext infos = Raise e ->
            (exists what, e = AttributeError what) \/
            (exists what, e = TypeError what) \/ (exists key, e = KeyError key)).
  { induction infos as [|info infos IH]; cbn; [discriminate|].
    unfold model_config_of.
    destruct (getitem info "name") eqn:E1; cbn;
      [|intros H; injection H as <-; right; eapply Hitem, E1].
    destruct (getitem info "version") eqn:E2; cbn;
      [|intros H; injection H as <-; right; eapply Hitem, E2].
    destruct (getitem info "file_path") eqn:E3; cbn;
      [|intros H; injection H as <-; right; eapply Hitem, E3].
    destruct (get info "performance_metrics" (VDict [])) eqn:E4; cbn;
      [|intros H; injection H as <-; left; eapply Hget, E4].
    destruct (model_configs_of ext infos); cbn; [discriminate|].
    intros H. injection H as <-. apply IH. reflexivity. }
  unfold create_model_serving_config.
  destruct (get registry_info "models" (VList [])) as [listed|] eqn:E1; cbn;
    [|intros H; injection H as <-; left; eapply Hget, E1].
  destruct (iterate listed) as [infos|] eqn:E2; cbn.
  - destruct (model_configs_of ext infos) eqn:E3; cbn; [discriminate|].
    intros H. injection H as <-. apply Hconfigs with infos, E3.
  - intros H. injection H as <-. right. left.
    destruct listed; cbn in E2; try discriminate; injection E2 as <-; eauto.
Qed.

(** C1 (amended): a returned serving configuration always carries the
    three fixed ensemble weights and one model entry per item of the
    registry information's model list, in order and under that item's
    name; no check relates the two, so the ensemble names all have an
    entry exactly when the three names occur in the model list. *)
Theorem serving_config_contents (ext : externals) (experiment_id : string)
    (registry_info : value) (config : serving_config) :
  create_model_serving_config ext experiment_id registry_info = Ok config ->
  weights (sc_ensemble_config config)
  = [ ("signature_detector", 0.3%Q); ("anomaly_detector", 0.2%Q);
      ("ensemble_rf", 0.5%Q) ] /\
  (exists listed infos,
     get registry_info "models" (VList []) = Ok listed /\
     iterate listed = Ok infos /\
     Forall2 (fun info entry => getitem info "name" = Ok (mc_name entry))
             infos (sc_models config)) /\
  (ensemble_covered config <->
   Forall (fun model_name =>
             In (VStr model_name) (map mc_name (sc_models config)))
          [ "signature_detector"; "anomaly_detector"; "ensemble_rf" ]).
Proof.
  unfold create_model_serving_config. intros H.
  destruct (get registry_info "models" (VList [])) as [listed|] eqn:Hg;
    [|discriminate].
  cbn [bind] in H. destruct (iterate listed) as [infos|] eqn:Hi; [|discriminate].
  cbn [bind] in H.
  destruct (model_configs_of ext infos) as [configs|] eqn:Hc; [|discriminate].
  cbn [bind] in H. injection H as <-. cbn.
  split; [reflexivity|]. split.
  - exists listed, infos. split; [reflexivity|]. split; [exact Hi|].
    apply (model_configs_of_names ext), Hc.
  - unfold ensemble_covered. cbn. rewrite List.Forall_forall. cbn. reflexivity.
Qed.

Lemma serving_config_contents_witness :
  exists config,
    create_model_serving_config offline "exp1" one_registered = Ok config /\
    weights (sc_ensemble_config config)
    = [ ("signature_detector", 0.3%Q); ("anomaly_detector", 0.2%Q);
        ("ensemble_rf", 0.5%Q) ] /\
    (exists listed infos,
       get one_registered "models" (VList []) = Ok listed /\
       iterate listed = Ok infos /\
       Forall2 (fun info entry => getitem info "name" = Ok (mc_name entry))
               infos (sc_models config)) /\
    (ensemble_covered config <->
     Forall (fun model_name =>
               In (VStr model_name) (map mc_name (sc_models config)))
            [ "signature_detector"; "anomaly_detector"; "ensemble_rf" ]).
Proof.
  eexists. split; [reflexivity|].
  apply (serving_config_contents offline "exp1" one_registered). reflexivity.
Defined.

(** C1 (counterexample): registry information without models yields a
    configuration, returned normally, whose ensemble policy names models
    that have no entry. *)
Lemma ensemble_names_without_entries :
  exists config,
    create_model_serving_config offline "exp1" (VDict []) = Ok config /\
    sc_models config = [] /\
    In "signature_detector" (map fst (weights (sc_ensemble_config config))) /\
    ~ ensemble_covered config.
Proof.
  eexists. split; [reflexivity|]. split; [reflexivity|]. split; [cbn; auto|].
  intros H. apply (H "signature_detector"). cbn. auto.
Qed.

(** ** Registration *)

Lemma prepare_models_dict (ext : externals) (self : deployer)
    (d : list (string * value)) (w : world) names :
  exists prepared,
    prepare_models ext self (VDict d) names w = (Ok prepared, w) /\
    Forall2 (fun info model_name => getitem info "name" = Ok (VStr model_name))
            prepared
            (List.filter (fun n => is_present (fs w) (model_file self n)) names).
Proof.
  induction names as [|name names (prepared & IH & Hn)]; cbn [prepare_models].
  - exists []. split; [reflexivity|constructor].
  - unfold mbind at 1, path_exists. cbn [List.filter].
    destruct (is_present (fs w) (model_file self name)).
    + unfold mbind at 1, lift. cbn [get]. unfold mbind at 1. rewrite IH.
      eexists. split; [reflexivity|]. constructor; [reflexivity|exact Hn].
    + exists prepared. split; assumption.
Qed.

Lemma register_with_candidate (ext : externals) (self : deployer)
    (experiment_id : string) (metadata candidate : value) (w : world) :
  registry_payload_of ext self experiment_id metadata w = (Ok candidate, w) ->
  fs w !! experiment_dir self experiment_id = Some Dir ->
  fs w !! registry_file self experiment_id <> Some Dir ->
  register_models_with_registry ext self experiment_id metadata w
  = let sent := Posted (registry_url self) (RegistryRequest candidate) in
    match accepted (http_post ext (registry_url self)
                              (RegistryRequest candidate)) with
    | Some body => (Ok body, World (fs w) (trace w ++ [sent]))
    | None =>
        (Ok candidate,
         World (<[registry_file self experiment_id := Json candidate]> (fs w))
               (trace w ++ [sent; Wrote (registry_file self experiment_id)]))
    end.
Proof.
  intros Hpay Hdir Hfile.
  unfold register_models_with_registry. unfold mbind at 1. rewrite Hpay.
  unfold try_except_request, post, response_json, emit, write_json, mbind, ret,
    raise, accepted, registry_url.
  fold (experiment_dir self experiment_id).
  fold (registry_file self experiment_id).
  destruct (http_post ext _ _) as [what|code [body|]]; cbv beta iota zeta;
    cbn [is_request_exception fst snd trace fs];
    [|destruct (code =? 200); cbv beta iota;
      cbn [is_request_exception fst snd trace fs]..];
    try reflexivity; rewrite Hdir;
    destruct (fs w !! registry_file self experiment_id) as [[]|];
    try congruence; rewrite <- app_assoc; reflexivity.
Qed.

(** C3 (amended): with metadata whose evaluation results are a
    dictionary (or absent) and an existing experiment directory, the
    registration always returns. The candidate lists the catalogue models
    whose file exists, possibly none. A 200 response with a decodable
    body is returned as it is (remote); on a connection error, a timeout,
    another status or an undecodable body the candidate is written to the
    experiment directory and returned (local fallback). *)
Theorem register_returns_entry (ext : externals) (self : deployer)
    (experiment_id : string) (d : list (string * value)) (w : world) :
  (assoc "evaluation_results" d = None \/
   exists results, assoc "evaluation_results" d = Some (VDict results)) ->
  fs w !! experiment_dir self experiment_id = Some Dir ->
  fs w !! registry_file self experiment_id <> Some Dir ->
  exists candidate prepared,
    registry_payload_of ext self experiment_id (VDict d) w = (Ok candidate, w) /\
    getitem candidate "models" = Ok (VList prepared) /\
    Forall2 (fun info model_name => getitem info "name" = Ok (VStr model_name))
            prepared
            (List.filter (fun n => is_present (fs w) (model_file self n))
                         model_names) /\
    let sent := Posted (registry_url self) (RegistryRequest candidate) in
    match accepted (http_post ext (registry_url self)
                              (RegistryRequest candidate)) with
    | Some body =>
        register_models_with_registry ext self experiment_id (VDict d) w
        = (Ok body, World (fs w) (trace w ++ [sent]))
    | None =>
        register_models_with_registry ext self experiment_id (VDict d) w
        = (Ok candidate,
           World (<[registry_file self experiment_id := Json candidate]> (fs w))
                 (trace w ++ [sent; Wrote (registry_file self experiment_id)]))
    end.
Proof.
  intros Hres Hdir Hfile.
  assert (Hev : exists results,
             get (VDict d) "evaluation_results" (VDict []) = Ok (VDict results)).
  { cbn. destruct Hres as [-> | [results ->]]; eauto. }
  destruct Hev as [results Hev].
  destruct (prepare_models_dict ext self results w model_names)
    as (prepared & Hprep & Hnames).
  assert (Hpay : exists candidate,
             registry_payload_of ext self experiment_id (VDict d) w
             = (Ok candidate, w) /\
             getitem candidate "models" = Ok (VList prepared)).
  { unfold registry_payload_of. unfold mbind at 1, lift. rewrite Hev.
    unfold mbind at 1. rewrite Hprep. unfold mbind, path_exists, ret.
    eexists. split; reflexivity. }
  destruct Hpay as (candidate & Hpay & Hmodels).
  exists candidate, prepared. split; [exact Hpay|]. split; [exact Hmodels|].
  split; [exact Hnames|]. cbv zeta.
  rewrite (register_with_candidate ext self experiment_id (VDict d) candidate w)
    by assumption.
  cbv zeta. destruct (accepted _); reflexivity.
Qed.

Lemma register_returns_entry_witness :
  exists candidate prepared,
    registry_payload_of offline local "exp1" (VDict sound_entries) complete
    = (Ok candidate, complete) /\
    getitem candidate "models" = Ok (VList prepared) /\
    Forall2 (fun info model_name => getitem info "name" = Ok (VStr model_name))
            prepared
            (List.filter (fun n => is_present (fs complete) (model_file local n))
                         model_names) /\
    let sent := Posted (registry_url local) (RegistryRequest candidate) in
    match accepted (http_post offline (registry_url local)
                              (RegistryRequest candidate)) with
    | Some body =>
        register_models_with_registry offline local "exp1"
          (VDict sound_entries) complete
        = (Ok body, World (fs complete) (trace complete ++ [sent]))
    | None =>
        register_models_with_registry offline local "exp1"
          (VDict sound_entries) complete
        = (Ok candidate,
           World (<[registry_file local "exp1" := Json candidate]> (fs complete))
                 (trace complete ++ [sent; Wrote (registry_file local "exp1")]))
    end.
Proof.
  apply (register_returns_entry offline local "exp1" sound_entries complete).
  - right. eexists. reflexivity.
  - reflexivity.
  - intros H. vm_compute in H. discriminate H.
Defined.

(** C3 (counterexample): the registration does not raise when no model
    artifact exists (it returns a candidate with an empty model list),
    and it does raise, the registry being unreachable, when the model
    artifacts exist and the metadata's evaluation results are [null]. *)
Lemma registration_raises_apart_from_artifacts :
  List.filter (fun n => is_present (fs bare) (model_file local n)) model_names
  = [] /\
  fst (register_models_with_registry offline local "exp1" (VDict []) bare)
  = Ok (VDict [ ("experiment_id", VStr "exp1"); ("models", VList []);
                ("timestamp", VStr "2025-06-14T12:00:00") ]) /\
  is_present (fs complete) (model_file local "signature_detector") = true /\
  register_models_with_registry offline local "exp1" null_results complete
  = (Raise (AttributeError "get"), complete).
Proof. repeat split; vm_compute; reflexivity. Qed.

(** ** Deployment *)

Lemma manual_fallback_ready (self : deployer) (config : serving_config)
    (current : deployment_result) :
  dr_endpoints current = [] ->
  configuration_ready self config (manual_fallback self config current).
Proof.
  intros He. unfold configuration_ready, manual_fallback. cbn. rewrite He. cbn.
  split; [reflexivity|]. split.
  - eexists. split; [reflexivity|]. cbn. repeat split. discriminate.
  - split; [reflexivity|]. apply length_map.
Qed.

(** C5: the deployment always returns a result. When the POST fails
    (connection error or timeout, a status other than 200, or a 200 whose
    body cannot be decoded) the status is "configuration_ready", the
    manual-deployment instructions are the fixed non-empty list, the
    model files are the paths of all the models, and there is one
    endpoint entry per model of the configuration. *)
Theorem deploy_always_returns (ext : externals) (self : deployer)
    (config : serving_config) (w : world) :
  exists r,
    deploy_to_serving_infrastructure ext self config w
    = (Ok r, World (fs w)
                   (trace w ++ [Posted (deploy_url self)
                                       (DeployRequest config (sc_models config))])) /\
    dr_deployment_id r = sc_deployment_id config /\
    length (dr_endpoints r) = length (sc_models config) /\
    match http_post ext (deploy_url self)
                    (DeployRequest config (sc_models config)) with
    | ConnectionFailed _ => configuration_ready self config r
    | Response status_code json_body =>
        if status_code =? 200 then
          match json_body with
          | Some body => dr_status r = "deployed" /\
                         dr_api_response r = Some body /\
                         dr_manual_deployment r = None
          | None => configuration_ready self config r
          end
        else configuration_ready self config r
    end.
Proof.
  unfold deploy_to_serving_infrastructure, deploy_attempt, post, mbind, emit,
    deploy_url, raise, ret.
  destruct (http_post ext _ _) as [what|code [body|]]; cbn.
  - eexists. split; [reflexivity|]. cbn. split; [reflexivity|].
    split; [apply length_map|]. apply manual_fallback_ready. reflexivity.
  - destruct (code =? 200); cbn.
    + eexists. split; [reflexivity|]. cbn. split; [reflexivity|].
      split; [apply length_map|]. repeat split.
    + eexists. split; [reflexivity|]. cbn. split; [reflexivity|].
      split; [apply length_map|]. apply manual_fallback_ready. reflexivity.
  - destruct (code =? 200); cbn.
    + eexists. split; [reflexivity|]. cbn. split; [reflexivity|].
      split; [apply length_map|]. apply manual_fallback_ready. reflexivity.
    + eexists. split; [reflexivity|]. cbn. split; [reflexivity|].
      split; [apply length_map|]. apply manual_fallback_ready. reflexivity.
Qed.

(** ** Validation harness *)

Lemma model_loading_test_entry (self : deployer) (w : world) :
  model_loading_test self w
  = (Ok (model_loading_entry (fixed_models_file self)
                             (fs w !! fixed_models_file self)), w).
Proof.
  unfold model_loading_test, try_except, mbind, path_exists, joblib_load,
    fixed_models_file, model_loading_entry, is_present, ret, raise.
  destruct (fs w !! _) as [[|[n|]| |]|] eqn:E; cbv beta iota; rewrite ?E;
    reflexivity.
Qed.

Lemma preprocessor_loading_test_total (self : deployer) (w : world) :
  exists t, preprocessor_loading_test self w = (Ok t, w).
Proof.
  unfold preprocessor_loading_test, try_except, mbind, path_exists, joblib_load,
    is_present, ret, raise.
  destruct (fs w !! _) as [[|[n|]| |]|] eqn:E; cbv beta iota; rewrite ?E;
    eexists; reflexivity.
Qed.

Lemma endpoint_health_test_total (ext : externals) (info : endpoint_info)
    (w : world) :
  exists t, endpoint_health_test ext info w
            = (Ok t, World (fs w) (trace w ++ [Got (ei_health_endpoint info)])).
Proof.
  unfold endpoint_health_test, try_except_request, get_url, mbind, emit, ret,
    raise.
  destruct (http_get ext _) as [what|code body]; cbn.
  - eexists. reflexivity.
  - destruct (code =? 200); eexists; reflexivity.
Qed.

Lemma endpoint_health_tests_total (ext : externals) infos : forall w,
  exists ts w', endpoint_health_tests ext infos w = (Ok ts, w') /\ fs w' = fs w.
Proof.
  induction infos as [|info infos IH]; intros w; cbn.
  - exists [], w. split; reflexivity.
  - unfold mbind at 1.
    destruct (endpoint_health_test_total ext info w) as (t & ->).
    unfold mbind at 1.
    destruct (IH (World (fs w) (trace w ++ [Got (ei_health_endpoint info)])))
      as (ts & w' & -> & Hfs).
    exists (t :: ts), w'. split; [reflexivity|exact Hfs].
Qed.

(** The guard of the success rate keeps the division away from a zero
    divisor: the summary is always computed, and it is the summary of the
    specification. *)
Lemma summarize_returns (entries : list test_entry) :
  summarize entries = Ok (summary_of entries).
Proof.
  unfold summarize, summary_of, success_rate_of, true_divide.
  destruct (length entries) as [|n] eqn:E; [reflexivity|].
  cbn [Nat.ltb Nat.leb bind].
  destruct (Z.of_nat (S n) =? 0) eqn:Hz; [|reflexivity].
  apply Z.eqb_eq in Hz. lia.
Qed.

Lemma run_deployment_tests_total (ext : externals) (self : deployer)
    (outcome : deployment_result) (w : world) :
  exists r w' rest,
    run_deployment_tests ext self outcome w = (Ok r, w') /\
    fs w' = fs w /\
    tests r = model_loading_entry (fixed_models_file self)
                                  (fs w !! fixed_models_file self) :: rest /\
    summarize (tests r) = Ok (summary r) /\
    (2 <= length (tests r))%nat.
Proof.
  unfold run_deployment_tests. unfold mbind at 1.
  rewrite model_loading_test_entry. unfold mbind at 1.
  destruct (preprocessor_loading_test_total self w) as (t2 & ->).
  unfold mbind at 1.
  destruct (String.eqb (dr_status outcome) "deployed").
  - destruct (endpoint_health_tests_total ext (dr_endpoints outcome) w)
      as (ts & w' & -> & Hfs).
    unfold mbind, lift, ret. rewrite summarize_returns.
    eexists _, w', _. split; [reflexivity|]. split; [exact Hfs|].
    split; [reflexivity|]. cbn [tests summary].
    split; [apply summarize_returns|cbn; lia].
  - unfold mbind, lift, ret. rewrite summarize_returns.
    eexists _, w, _. split; [reflexivity|]. split; [reflexivity|].
    split; [reflexivity|]. cbn [tests summary].
    split; [apply summarize_returns|cbn; lia].
Qed.


(** C10: for every deployment result, the model-loading check reads
    [models.joblib] from the directory "initial-training-20250614" under
    the experiments directory; its entry is determined by what the file
    system holds at that path, and it passes exactly when a loadable
    collection is stored there. *)
Theorem model_loading_reads_fixed_path (ext : externals) (self : deployer)
    (outcome : deployment_result) (w : world) :
  fixed_models_file self
  = path_join (path_join (experiments_dir self) "initial-training-20250614")
              "models.joblib" /\
  exists r w' rest,
    run_deployment_tests ext self outcome w = (Ok r, w') /\
    tests r = model_loading_entry (fixed_models_file self)
                                  (fs w !! fixed_models_file self) :: rest /\
    (te_status (model_loading_entry (fixed_models_file self)
                                    (fs w !! fixed_models_file self)) = "passed"
     <-> exists n, fs w !! fixed_models_file self = Some (Joblib (Some n))).
Proof.
  split; [reflexivity|].
  destruct (run_deployment_tests_total ext self outcome w)
    as (r & w' & rest & H & _ & Ht & _).
  exists r, w', rest. split; [exact H|]. split; [exact Ht|].
  destruct (fs w !! fixed_models_file self) as [[|[n|]| |]|]; cbn;
    (split; [intros E; try discriminate E; eauto
            |intros [n' E]; try discriminate E; reflexivity]).
Qed.

(** ** Validation and the driver *)

Lemma glob_names_suffix (files : gmap string file) (dir name : string) :
  In name (glob_model_files files dir) -> ends_with "_v2.0.0.joblib" name = true.
Proof.
  unfold glob_model_files. intros H. apply list_elem_of_In in H.
  apply list_elem_of_omap in H as (entry & _ & H).
  destruct (strip_prefix _ _) as [n|]; [|discriminate].
  destruct (has_slash n); cbn in H; [discriminate|].
  destruct (ends_with "_v2.0.0.joblib" n) eqn:E; [|discriminate].
  injection H as <-. exact E.
Qed.

Lemma fold_insert_true_lookup (names : list string) (f : string) :
  forall acc : gmap string bool,
    ~ In f names ->
    fold_left (fun acc name => <[name := true]> acc) names acc !! f = acc !! f.
Proof.
  induction names as [|n names IH]; intros acc Hf; cbn; [reflexivity|].
  rewrite IH by (intros H; apply Hf; right; exact H).
  apply lookup_insert_ne. intros ->. apply Hf. left. reflexivity.
Qed.

Lemma all_values_false (v : gmap string bool) (k : string) :
  v !! k = Some false -> all_values v = false.
Proof.
  intros H. unfold all_values. apply not_true_iff_false. intros Hall.
  rewrite forallb_forall in Hall.
  apply elem_of_map_to_list in H. apply list_elem_of_In in H.
  specialize (Hall _ H). discriminate.
Qed.

Lemma load_experiment_metadata_world (self : deployer) (experiment_id : string)
    (w : world) :
  snd (load_experiment_metadata self experiment_id w) = w.
Proof.
  unfold load_experiment_metadata, mbind, path_exists, read_json, raise.
  cbv beta iota. destruct (is_present _ _); cbn; [|reflexivity].
  destruct (fs w !! _) as [[]|]; reflexivity.
Qed.

(** C9: [validate_models] never raises and maps every required file
    name to the presence of that file in the experiment directory; when
    some value of the mapping is false, [main] returns exit code 1 with
    the world untouched: no request was sent and no file written, so the
    registration was not reached. *)
Theorem validation_gates_registration :
  (forall self experiment_id w,
     exists v,
       validate_models self experiment_id w = (Ok v, w) /\
       forall file_name, In file_name required_files ->
         v !! file_name
         = Some (is_present (fs w)
                   (path_join (experiment_dir self experiment_id) file_name))) /\
  (forall ext args w v,
     validate_models
       (ModelDeployer (arg_models_dir args) (arg_experiments_dir args)
                      (arg_mlops_url args))
       (arg_experiment_id args) w = (Ok v, w) ->
     (exists k, v !! k = Some false) ->
     main ext args w = (1, w)).
Proof.
  split.
  - intros self experiment_id w. eexists. split; [reflexivity|].
    intros f Hf.
    rewrite fold_insert_true_lookup.
    + unfold required_files in *. cbn [fold_left].
      fold (experiment_dir self experiment_id).
      cbn in Hf. destruct Hf as [<-|[<-|[<-|[<-|[]]]]];
        repeat first [rewrite lookup_insert_eq; reflexivity
                     |rewrite lookup_insert_ne by discriminate].
    + intros Hin. apply glob_names_suffix in Hin.
      cbn in Hf. destruct Hf as [<-|[<-|[<-|[<-|[]]]]]; discriminate Hin.
  - intros ext args w v Hv [k Hk]. unfold main, main_body.
    unfold mbind at 1.
    pose proof (load_experiment_metadata_world
                  (ModelDeployer (arg_models_dir args) (arg_experiments_dir args)
                                 (arg_mlops_url args))
                  (arg_experiment_id args) w) as Hw.
    destruct (load_experiment_metadata _ _ w) as [[metadata|e] w0].
    + cbn in Hw. subst w0. unfold mbind at 1. rewrite Hv.
      rewrite (all_values_false v k Hk). reflexivity.
    + cbn in Hw. subst w0. reflexivity.
Qed.

Example missing_artifact_stops_the_driver :
  main offline exp1 incomplete = (1, incomplete).
Proof. vm_compute. reflexivity. Qed.

End DeployerProps.

(** * Further properties of the ensemble engine and of the report *)

Module TesterMore.
Import Py Tester Reference Samples TesterReport ReportSamples TesterProps.

(** ** More on the strategies *)

Lemma round_half_even_integer (z : Z) :
  round_half_even (inject_Z z / inject_Z 1) = z.
Proof.
  unfold round_half_even, Qdiv, Qmult, Qinv, inject_Z; cbn [Qnum Qden].
  rewrite Z.mul_1_r. cbn [Pos.mul]. rewrite Z.div_1_r, Z.mod_1_r. reflexivity.
Qed.

(** X1: with a single model the majority vote is that model's own
    prediction, for labels that a binary64 number holds exactly (those of
    magnitude at most 2^53, among them the labels 0 and 1): the mean of
    one such vote and its rounding leave the label as it is. *)
Theorem single_model_vote (model_name : string) (m : model) (X_test : batch)
    (y : list Z) :
  model_vote model_name m X_test = Ok y ->
  Forall (fun v => - 2 ^ 53 <= v <= 2 ^ 53) y ->
  majority_vote_ensemble [(model_name, m)] X_test = Ok (Arr y, None).
Proof.
  intros H _. unfold majority_vote_ensemble. cbn [collect_predictions].
  rewrite H. cbn [bind mean_round same_length forallb sum_axis0 fold_left length].
  do 3 f_equal. change (Z.of_nat 1) with 1. clear H.
  induction y as [|v y IH]; [reflexivity|]. cbn [map].
  rewrite round_half_even_integer. f_equal. exact IH.
Qed.

Lemma single_model_vote_witness :
  majority_vote_ensemble [("anomaly_detector", constant_model [-1; 1])] one_sample
  = Ok (Arr [1; 0], None).
Proof.
  apply (single_model_vote "anomaly_detector" (constant_model [-1; 1])
           one_sample [1; 0]).
  - reflexivity.
  - repeat (apply List.Forall_cons; [lia|]). apply List.Forall_nil.
Defined.

Lemma zero_weight_names (model_name : string) :
  Qeq_bool (weight_of model_name) 0
  = String.eqb model_name "ensemble_lr" || String.eqb model_name "ensemble_svm".
Proof.
  unfold weight_of, weights. cbn [assoc].
  destruct (String.eqb model_name "signature_detector") eqn:E1;
    [apply String.eqb_eq in E1; subst; reflexivity|].
  destruct (String.eqb model_name "anomaly_detector") eqn:E2;
    [apply String.eqb_eq in E2; subst; reflexivity|].
  destruct (String.eqb model_name "ensemble_rf") eqn:E3;
    [apply String.eqb_eq in E3; subst; reflexivity|].
  destruct (String.eqb model_name "ensemble_lr") eqn:E4; [reflexivity|].
  destruct (String.eqb model_name "ensemble_svm") eqn:E5; reflexivity.
Qed.

(** X2: the models [ensemble_lr] and [ensemble_svm] take no part in the
    weighted average: they are never asked for a prediction, so the
    result, failures included, is the one obtained without them. *)
Theorem zero_weight_models_are_ignored (ms : models) (X_test : batch) :
  weighted_average_ensemble ms X_test
  = weighted_average_ensemble
      (List.filter
         (fun nm => negb (String.eqb (fst nm) "ensemble_lr"
                          || String.eqb (fst nm) "ensemble_svm")) ms)
      X_test.
Proof.
  unfold weighted_average_ensemble. f_equal.
  generalize (@nil (list Q)) 0%Q.
  induction ms as [|[name m] ms IH]; intros acc total; [reflexivity|].
  cbn [weighted_loop List.filter fst]. rewrite zero_weight_names.
  destruct (String.eqb name "ensemble_lr" || String.eqb name "ensemble_svm")
    eqn:E; cbn [negb].
  - apply IH.
  - cbn [weighted_loop]. rewrite zero_weight_names, E.
    destruct (model_score name m X_test); cbn [bind]; [apply IH|reflexivity].
Qed.







Section ReportProps.
Context {report load_report : Type}.
Variable evaluate_model : list Z -> option (list Q) -> list Z -> result report.
Variable accuracy : report -> Q.
Variable prediction_time : report -> Q.
Variable measure : list Z -> list Z -> nat -> result load_report.
Variable choice : nat -> nat -> list nat.

(** X4: every model is tested on its own: the individual results list the
    models in order, each with the outcome of that model alone, so a
    model whose inference raises is recorded as an error and changes no
    other model's result. *)
Theorem individual_tests_are_isolated (X_test : batch) (y_test : list Z) :
  (forall ms,
     map fst (test_individual_models evaluate_model ms X_test y_test)
     = map fst ms) /\
  (forall before name m after,
     ~ In name (map fst before) ->
     assoc name (test_individual_models evaluate_model
                   (before ++ (name, m) :: after) X_test y_test)
     = Some (test_model evaluate_model name m X_test y_test)) /\
  (forall name m e,
     positive_probability m X_test = Raise e ->
     test_model evaluate_model name m X_test y_test = Error e) /\
  (forall name m e,
     is_ok (positive_probability m X_test) = true ->
     model_vote name m X_test = Raise e ->
     test_model evaluate_model name m X_test y_test = Error e).
Proof.
  split; [|split; [|split]].
  - intros ms. unfold test_individual_models. rewrite map_map. reflexivity.
  - intros before name m after Hn. unfold test_individual_models.
    induction before as [|[n0 m0] before IH]; cbn.
    + rewrite String.eqb_refl. reflexivity.
    + destruct (String.eqb name n0) eqn:E.
      * apply String.eqb_eq in E. subst n0. exfalso. apply Hn. left. reflexivity.
      * apply IH. intros H. apply Hn. right. exact H.
  - intros name m e H. unfold test_model. rewrite H. reflexivity.
  - intros name m e Hp Hv. unfold test_model.
    destruct (positive_probability m X_test); [|discriminate Hp].
    cbn [bind]. rewrite Hv. reflexivity.
Qed.

(** ** The best model of a report *)

Lemma max_by_accuracy_fold (rest : list (string * Q)) : forall first,
  let best :=
    fold_left (fun best x => if Qle_bool (snd x) (snd best) then best else x)
              rest first in
  In best (first :: rest) /\
  forall x, In x (first :: rest) -> (snd x <= snd best)%Q.
Proof.
  induction rest as [|y rest IH]; intros first; cbn [fold_left].
  - split; [left; reflexivity|]. intros x [<-|[]]. apply Qle_refl.
  - destruct (Qle_bool (snd y) (snd first)) eqn:E.
    + destruct (IH first) as [Hin Hmax]. split.
      * destruct Hin as [<-|Hin]; [left; reflexivity|right; right; exact Hin].
      * intros x [<-|[<-|Hx]].
        -- apply Hmax. left. reflexivity.
        -- apply Qle_bool_iff in E. eapply Qle_trans; [exact E|].
           apply Hmax. left. reflexivity.
        -- apply Hmax. right. exact Hx.
    + destruct (IH y) as [Hin Hmax]. split.
      * right. exact Hin.
      * intros x [<-|[<-|Hx]].
        -- assert (Hlt : (snd first <= snd y)%Q).
           { apply Qlt_le_weak, Qnot_le_lt. intros H.
             apply Qle_bool_iff in H. congruence. }
           eapply Qle_trans; [exact Hlt|]. apply Hmax. left. reflexivity.
        -- apply Hmax. left. reflexivity.
        -- apply Hmax. right. exact Hx.
Qed.

(** X5: the best model (or strategy) of a report is a successful one of
    greatest accuracy; when nothing succeeded, or nothing was tested, it
    is the placeholder "none" with accuracy 0. *)
Theorem best_of_is_maximal (results : list (string * strategy_result)) :
  match successes results with
  | [] => best_of accuracy results = ("none", 0%Q)
  | _ :: _ =>
      exists r,
        In (fst (best_of accuracy results), r) (successes results) /\
        In (fst (best_of accuracy results), Success r) results /\
        snd (best_of accuracy results) = accuracy r /\
        forall name r', In (name, Success r') results ->
                        (accuracy r' <= snd (best_of accuracy results))%Q
  end.
Proof.
  assert (Hs : forall name r,
             In (name, r) (successes results) <-> In (name, Success r) results).
  { intros name r. unfold successes.
    rewrite <- !list_elem_of_In, list_elem_of_omap. split.
    - intros ([n [r0|e]] & Hin & H); cbn in H; [|discriminate].
      injection H as <- <-. exact Hin.
    - intros H. exists (name, Success r). split; [exact H|reflexivity]. }
  unfold best_of.
  destruct (successes results) as [|[n0 r0] rest] eqn:E; [reflexivity|].
  cbn [map max_by_accuracy fst snd].
  destruct (max_by_accuracy_fold
              (map (fun nr => (fst nr, accuracy (snd nr))) rest)
              (n0, accuracy r0)) as [Hin Hmax].
  cbv zeta in Hin, Hmax.
  set (best := fold_left _ _ _) in *.
  assert (Hbest : exists r, In (fst best, r) ((n0, r0) :: rest) /\
                            snd best = accuracy r).
  { destruct Hin as [<-|Hin].
    - exists r0. split; [left; reflexivity|reflexivity].
    - apply in_map_iff in Hin as ([n r] & <- & Hin). exists r.
      split; [right; exact Hin|reflexivity]. }
  destruct Hbest as (r & Hr & Ha). exists r.
  split; [exact Hr|]. split; [apply Hs; exact Hr|]. split; [exact Ha|].
  intros name r' Hin'. apply Hs in Hin'.
  apply (Hmax (name, accuracy r')).
  destruct Hin' as [H|H].
  - injection H as <- <-. left. reflexivity.
  - right. apply in_map_iff. exists (name, r'). split; [reflexivity|exact H].
Qed.

(** ** Recommendations *)

Lemma successes_all_failed (results : list (string * strategy_result)) :
  Forall (fun nr => exists e, snd nr = @Error report e) results ->
  successes results = [].
Proof.
  induction 1 as [|[n r] results [e He] _ IH]; [reflexivity|].
  cbn in He. subst r. exact IH.
Qed.

Lemma model_recommendations_all_failed
    (results : list (string * strategy_result)) :
  Forall (fun nr => exists e, snd nr = @Error report e) results ->
  model_recommendations accuracy results
  = map (fun nr => ("Fix deployment issues for " ++ fst nr)%string) results.
Proof.
  induction 1 as [|[n r] results [e He] _ IH]; [reflexivity|].
  cbn in He. subst r. cbn. f_equal. exact IH.
Qed.

(** X7: every model that failed its individual test is named in a "Fix
    deployment issues" recommendation, and every model that succeeded
    with an accuracy below 0.8 in a "Retrain or replace"
    recommendation. *)
Theorem recommendations_name_weak_models
    (individual_results ensemble_results : list (string * strategy_result)) :
  (forall name e, In (name, Error e) individual_results ->
     In ("Fix deployment issues for " ++ name)%string
        (generate_recommendations accuracy prediction_time
           individual_results ensemble_results)) /\
  (forall name r, In (name, Success r) individual_results ->
     (accuracy r < 0.8)%Q ->
     In ("Retrain or replace " ++ name ++ " for better accuracy")%string
        (generate_recommendations accuracy prediction_time
           individual_results ensemble_results)).
Proof.
  split.
  - intros name e H. unfold generate_recommendations.
    apply in_or_app. right. unfold model_recommendations.
    apply list_elem_of_In, list_elem_of_omap.
    exists (name, Error e). split; [apply list_elem_of_In, H|reflexivity].
  - intros name r H Hacc. unfold generate_recommendations.
    apply in_or_app. right. unfold model_recommendations.
    apply list_elem_of_In, list_elem_of_omap.
    exists (name, Success r). split; [apply list_elem_of_In, H|].
    cbn. destruct (Qle_bool 0.8 (accuracy r)) eqn:E; [|reflexivity].
    apply Qle_bool_iff in E. exfalso. exact (Qlt_not_le _ _ Hacc E).
Qed.

(** X6: when no model succeeded (or none was tested) the report does not
    divide by zero: both averages are 0, the best individual model is
    "none", no test counts as successful, and the recommendations are
    exactly one "Fix deployment issues" line per model, in order. *)
Theorem report_without_successes {load : Type} (now : string)
    (individual_results ensemble_results : list (string * strategy_result))
    (load_results : load) (experiment_id : string) :
  Forall (fun nr => exists e, snd nr = @Error report e) individual_results ->
  let summary :=
    generate_performance_report accuracy prediction_time now
      individual_results ensemble_results load_results experiment_id in
  average_individual_accuracy (overall load summary) = 0%Q /\
  average_prediction_time (overall load summary) = 0%Q /\
  best_individual_model (overall load summary) = ("none", 0%Q) /\
  successful_tests (overall load summary) = 0%nat /\
  models_tested (overall load summary) = length individual_results /\
  recommendations load summary
  = map (fun nr => ("Fix deployment issues for " ++ fst nr)%string)
        individual_results.
Proof.
  intros Hfail. pose proof (successes_all_failed _ Hfail) as Hs.
  unfold generate_performance_report, generate_recommendations, best_of.
  cbn. rewrite Hs. cbn. repeat split.
  apply model_recommendations_all_failed, Hfail.
Qed.

Lemma maximum_spec (rest : list Q) : forall first,
  In (maximum first rest) (first :: rest) /\
  forall x, In x (first :: rest) -> (x <= maximum first rest)%Q.
Proof.
  unfold maximum.
  induction rest as [|y rest IH]; intros first; cbn [fold_left].
  - split; [left; reflexivity|]. intros x [<-|[]]. apply Qle_refl.
  - destruct (Qle_bool y first) eqn:E.
    + destruct (IH first) as [Hin Hmax]. split.
      * destruct Hin as [<-|Hin]; [left; reflexivity|right; right; exact Hin].
      * intros x [<-|[<-|Hx]].
        -- apply Hmax. left. reflexivity.
        -- apply Qle_bool_iff in E. eapply Qle_trans; [exact E|].
           apply Hmax. left. reflexivity.
        -- apply Hmax. right. exact Hx.
    + destruct (IH y) as [Hin Hmax]. split.
      * right. exact Hin.
      * intros x [<-|[<-|Hx]].
        -- assert (Hlt : (first <= y)%Q).
           { apply Qlt_le_weak, Qnot_le_lt. intros H.
             apply Qle_bool_iff in H. congruence. }
           eapply Qle_trans; [exact Hlt|]. apply Hmax. left. reflexivity.
        -- apply Hmax. left. reflexivity.
        -- apply Hmax. right. exact Hx.
Qed.

Lemma success_accuracies (results : list (string * strategy_result)) (a : Q) :
  In a (map (fun nr => accuracy (snd nr)) (successes results)) <->
  exists name r, In (name, Success r) results /\ a = accuracy r.
Proof.
  rewrite in_map_iff. unfold successes. split.
  - intros ([n r] & <- & Hin). apply list_elem_of_In in Hin.
    apply list_elem_of_omap in Hin as ([n0 [r0|e]] & Hin & H); cbn in H;
      [|discriminate].
    injection H as <- <-. exists n0, r0.
    split; [apply list_elem_of_In, Hin|reflexivity].
  - intros (n & r & Hin & ->). exists (n, r). split; [reflexivity|].
    apply list_elem_of_In, list_elem_of_omap. exists (n, Success r).
    split; [apply list_elem_of_In, Hin|reflexivity].
Qed.

Lemma model_recommendations_shape
    (results : list (string * strategy_result)) (x : string) :
  In x (model_recommendations accuracy results) ->
  exists name, x = ("Fix deployment issues for " ++ name)%string \/
               x = ("Retrain or replace " ++ name
                    ++ " for better accuracy")%string.
Proof.
  unfold model_recommendations. intros H. apply list_elem_of_In in H.
  apply list_elem_of_omap in H as ([n [r|e]] & _ & H); cbn in H.
  - destruct (Qle_bool 0.8 (accuracy r)); [discriminate|].
    injection H as <-. exists n. right. reflexivity.
  - injection H as <-. exists n. left. reflexivity.
Qed.

(** X8: when at least one model succeeded, the report recommends
    deploying the ensemble exactly when some successful strategy is more
    accurate than every successful individual model. *)
Theorem ensemble_recommended_when_it_wins
    (individual_results ensemble_results : list (string * strategy_result)) :
  successes individual_results <> [] ->
  In "Deploy ensemble model for best performance"
     (generate_recommendations accuracy prediction_time
        individual_results ensemble_results)
  <-> exists strategy r,
        In (strategy, Success r) ensemble_results /\
        forall name r', In (name, Success r') individual_results ->
                        (accuracy r' < accuracy r)%Q.
Proof.
  intros Hsome. unfold generate_recommendations.
  pose proof (success_accuracies individual_results) as Hind.
  pose proof (success_accuracies ensemble_results) as Hens.
  destruct (map (fun nr => accuracy (snd nr)) (successes individual_results))
    as [|f fs] eqn:Ef.
  { destruct (successes individual_results); [congruence|discriminate]. }
  destruct (map (fun nr => accuracy (snd nr)) (successes ensemble_results))
    as [|e es] eqn:Ee.
  - split.
    + intros H. repeat (apply in_app_or in H as [H|H]).
      * destruct (Qle_bool 0.85 _); cbn in H; intuition discriminate.
      * destruct (Qle_bool _ 1.0); cbn in H; intuition discriminate.
      * cbn in H. intuition discriminate.
      * apply model_recommendations_shape in H as [n [H|H]]; discriminate H.
    + intros (n & r & Hin & _). exfalso.
      apply (proj2 (Hens (accuracy r))). eauto.
  - destruct (maximum_spec es e) as [Hein Hemax].
    destruct (maximum_spec fs f) as [Hfin Hfmax].
    split.
    + intros H. repeat (apply in_app_or in H as [H|H]).
      * destruct (Qle_bool 0.85 _); cbn in H; intuition discriminate.
      * destruct (Qle_bool _ 1.0); cbn in H; intuition discriminate.
      * destruct (Qle_bool (maximum e es) (maximum f fs)) eqn:E;
          [cbn in H; intuition discriminate|].
        apply Hens in Hein as (n & r & Hin & Hr). exists n, r.
        split; [exact Hin|]. intros n' r' Hin'.
        rewrite <- Hr. eapply Qle_lt_trans.
        -- apply Hfmax, Hind. eauto.
        -- apply Qnot_le_lt. intros Hle. apply Qle_bool_iff in Hle. congruence.
      * apply model_recommendations_shape in H as [n [H|H]]; discriminate H.
    + intros (n & r & Hin & Hbeat).
      apply in_or_app. left. apply in_or_app. right. apply in_or_app. right.
      destruct (Qle_bool (maximum e es) (maximum f fs)) eqn:E;
        [|left; reflexivity].
      exfalso. apply Qle_bool_iff in E.
      apply Hind in Hfin as (n' & r' & Hin' & Hr').
      specialize (Hbeat n' r' Hin'). rewrite <- Hr' in Hbeat.
      assert (Hle : (accuracy r <= maximum e es)%Q) by (apply Hemax, Hens; eauto).
      apply (Qlt_not_le _ _ Hbeat). eapply Qle_trans; eassumption.
Qed.

(** ** Load test *)

Lemma take_indices_ok {A} (l : list A) (indices : list nat) :
  Forall (fun i => (i < length l)%nat) indices ->
  exists xs, take_indices l indices = Ok xs /\ length xs = length indices.
Proof.
  induction 1 as [|i indices Hi _ (xs & IH & Hlen)]; cbn.
  - exists []. split; reflexivity.
  - destruct (lookup_lt_is_Some_2 l i Hi) as [x ->]. rewrite IH. cbn.
    exists (x :: xs). split; [reflexivity|cbn; lia].
Qed.

(** X9: when numpy draws indices below the number of samples and there
    are as many labels as samples, the load test returns one entry per
    batch size of 1, 10, 50, 100, 500 and 1000 that does not exceed the
    number of samples, in that order and under the key
    "batch_size_<size>", and each entry holds one result per model, in
    order, a failing model being recorded without stopping the others. *)
Theorem load_test_batch_sizes (ms : models) (X_test : batch)
    (y_test : list Z) :
  length y_test = length X_test ->
  (forall n size, Forall (fun i => (i < n)%nat) (choice n size)) ->
  exists results,
    test_performance_under_load measure choice ms X_test y_test = Ok results /\
    map fst results
    = map (fun size => ("batch_size_" ++ pretty size)%string)
          (List.filter (fun size => (size <=? length X_test)%nat) batch_sizes) /\
    Forall (fun entry => map fst (snd entry) = map fst ms) results.
Proof.
  intros Hy Hchoice. unfold test_performance_under_load.
  generalize batch_sizes. intros sizes.
  induction sizes as [|size sizes (results & IH & Hkeys & Hmodels)];
    cbn [load_test_batches List.filter].
  - exists []. repeat split. constructor.
  - destruct (length X_test <? size)%nat eqn:E.
    + apply Nat.ltb_lt in E.
      replace (size <=? length X_test)%nat with false
        by (symmetry; apply Nat.leb_gt; exact E).
      exists results. repeat split; assumption.
    + apply Nat.ltb_ge in E.
      replace (size <=? length X_test)%nat with true
        by (symmetry; apply Nat.leb_le; exact E).
      destruct (take_indices_ok X_test (choice (length X_test) size)
                  (Hchoice _ _)) as (xb & -> & _).
      destruct (take_indices_ok y_test (choice (length X_test) size))
        as (yb & -> & _); [rewrite Hy; apply Hchoice|].
      cbn [bind]. rewrite IH. cbn [bind].
      eexists. split; [reflexivity|]. cbn [map fst]. split.
      * f_equal. exact Hkeys.
      * constructor; [|exact Hmodels]. cbn [snd]. rewrite map_map.
        reflexivity.
Qed.

End ReportProps.

Lemma report_without_successes_witness :
  let summary :=
    generate_performance_report (report := timed) fst snd
      "2025-06-14T12:00:00" all_failed vote_passed tt "exp1" in
  average_individual_accuracy (overall unit summary) = 0%Q /\
  average_prediction_time (overall unit summary) = 0%Q /\
  best_individual_model (overall unit summary) = ("none", 0%Q) /\
  successful_tests (overall unit summary) = 0%nat /\
  models_tested (overall unit summary) = length all_failed /\
  recommendations unit summary
  = map (fun nr => ("Fix deployment issues for " ++ fst nr)%string) all_failed.
Proof.
  apply (report_without_successes (report := timed) fst snd
           "2025-06-14T12:00:00" all_failed vote_passed tt "exp1").
  repeat (apply List.Forall_cons; [eexists; reflexivity|]).
  apply List.Forall_nil.
Defined.

Lemma ensemble_recommended_when_it_wins_witness :
  In "Deploy ensemble model for best performance"
     (generate_recommendations (report := timed) fst snd one_passed vote_passed)
  <-> exists strategy r,
        In (strategy, Success r) vote_passed /\
        forall name r', In (name, Success r') one_passed ->
                        (fst r' < fst r)%Q.
Proof.
  apply (ensemble_recommended_when_it_wins (report := timed) fst snd
           one_passed vote_passed).
  discriminate.
Defined.

Lemma load_test_batch_sizes_witness :
  exists results,
    test_performance_under_load size_only first_indices tied twelve_samples
      twelve_labels = Ok results /\
    map fst results
    = map (fun size => ("batch_size_" ++ pretty size)%string)
          (List.filter (fun size => (size <=? length twelve_samples)%nat)
                       batch_sizes) /\
    Forall (fun entry => map fst (snd entry) = map fst tied) results.
Proof.
  apply (load_test_batch_sizes size_only first_indices tied twelve_samples
           twelve_labels).
  - reflexivity.
  - intros n size. apply Forall_forall. intros i Hi.
    apply list_elem_of_In, in_seq in Hi. lia.
Defined.

End TesterMore.

(** * Further properties of the deployment orchestrator *)

Module DeployerMore.
Import Py Deployer DeployReference DeploySamples DeployMore DeployerProps.

(** ** Validation *)

Lemma fold_insert_true_inv (names : list string) (k : string) (b : bool) :
  forall acc : gmap string bool,
    fold_left (fun acc name => <[name := true]> acc) names acc !! k = Some b ->
    b = true \/ acc !! k = Some b.
Proof.
  induction names as [|n names IH]; intros acc H; cbn in H; [right; exact H|].
  apply IH in H as [H|H]; [left; exact H|].
  destruct (decide (n = k)) as [->|Hne].
  - rewrite lookup_insert_eq in H. injection H as <-. left. reflexivity.
  - rewrite lookup_insert_ne in H by exact Hne. right. exact H.
Qed.

Lemma validation_results_inv (self : deployer) (experiment_id : string)
    (w : world) (v : gmap string bool) (k : string) (b : bool) :
  validate_models self experiment_id w = (Ok v, w) ->
  v !! k = Some b ->
  b = true \/
  (In k required_files /\
   b = is_present (fs w) (path_join (experiment_dir self experiment_id) k)).
Proof.
  unfold validate_models. intros H Hk. injection H as <-.
  apply fold_insert_true_inv in Hk as [Hk|Hk]; [left; exact Hk|]. right.
  unfold required_files in *. cbn [fold_left] in Hk.
  fold (experiment_dir self experiment_id) in Hk.
  repeat match type of Hk with
  | <[?f := _]> _ !! k = Some _ =>
      destruct (decide (f = k)) as [<-|Hne];
      [rewrite lookup_insert_eq in Hk; injection Hk as <-;
       split; [cbn; tauto|reflexivity]
      |rewrite lookup_insert_ne in Hk by exact Hne; clear Hne]
  end.
  rewrite lookup_empty in Hk. discriminate.
Qed.

Lemma validation_results_required (self : deployer) (experiment_id : string)
    (w : world) (v : gmap string bool) (f : string) :
  validate_models self experiment_id w = (Ok v, w) ->
  In f required_files ->
  v !! f = Some (is_present (fs w)
                   (path_join (experiment_dir self experiment_id) f)).
Proof.
  unfold validate_models. intros H Hf. injection H as <-.
  rewrite fold_insert_true_lookup.
  - unfold required_files in *. cbn [fold_left].
    fold (experiment_dir self experiment_id).
    cbn in Hf. destruct Hf as [<-|[<-|[<-|[<-|[]]]]];
      repeat first [rewrite lookup_insert_eq; reflexivity
                   |rewrite lookup_insert_ne by discriminate].
  - intros Hin. apply glob_names_suffix in Hin.
    cbn in Hf. destruct Hf as [<-|[<-|[<-|[<-|[]]]]]; discriminate Hin.
Qed.

Lemma all_values_true (v : gmap string bool) :
  all_values v = true <-> forall k b, v !! k = Some b -> b = true.
Proof.
  unfold all_values. rewrite forallb_forall. split.
  - intros H k b Hk. apply elem_of_map_to_list in Hk.
    apply list_elem_of_In in Hk. exact (H _ Hk).
  - intros H [k b] Hin. apply list_elem_of_In in Hin.
    apply elem_of_map_to_list in Hin. exact (H _ _ Hin).
Qed.

Lemma validation_passes_when_required (self : deployer)
    (experiment_id : string) (w : world) (v : gmap string bool) :
  validate_models self experiment_id w = (Ok v, w) ->
  all_values v = true <->
  forall f, In f required_files ->
    is_present (fs w) (path_join (experiment_dir self experiment_id) f) = true.
Proof.
  intros Hv. rewrite all_values_true. split.
  - intros H f Hf. eapply (H f).
    apply (validation_results_required self experiment_id w v f Hv Hf).
  - intros H k b Hk.
    destruct (validation_results_inv self experiment_id w v k b Hv Hk)
      as [Hb|[Hin ->]]; [exact Hb|]. apply H, Hin.
Qed.

(** X10: the validation passes exactly when the four required files exist
    in the experiment directory; the model files found by the glob are
    recorded as present and never make it fail. *)
Theorem validation_passes_iff_required_present (self : deployer)
    (experiment_id : string) (w : world) :
  exists v,
    validate_models self experiment_id w = (Ok v, w) /\
    (all_values v = true <->
     forall f, In f required_files ->
       is_present (fs w) (path_join (experiment_dir self experiment_id) f)
       = true) /\
    (forall name, In name (glob_model_files (fs w) (models_dir self)) ->
       v !! name = Some true).
Proof.
  eexists. split; [reflexivity|]. split.
  - apply validation_passes_when_required. reflexivity.
  - intros name Hin. generalize (glob_model_files (fs w) (models_dir self)) Hin.
    generalize (fold_left
      (fun (acc : gmap string bool) file_name =>
         <[file_name :=
             is_present (fs w)
               (path_join (path_join (experiments_dir self) experiment_id)
                          file_name)]> acc)
      required_files ∅).
    intros acc names. revert acc.
    induction names as [|n names IH]; intros acc Hn; [destruct Hn|].
    cbn [fold_left]. destruct (in_dec string_dec name names) as [Hlater|Hnot].
    + apply IH, Hlater.
    + destruct Hn as [->|Hn]; [|contradiction].
      rewrite fold_insert_true_lookup by exact Hnot. apply lookup_insert_eq.
Qed.

(** ** Summary of the checks *)

Lemma filter_length_le {A} (f : A -> bool) (l : list A) :
  (length (List.filter f l) <= length l)%nat.
Proof.
  induction l as [|a l IH]; cbn; [lia|]. destruct (f a); cbn; lia.
Qed.

(** X18: the summary is always computed; its counts add up and the
    success rate is a ratio between 0 and 1. *)
Theorem summary_counts_consistent (entries : list test_entry) :
  exists s,
    summarize entries = Ok s /\
    (passed s + failed s = total_tests s)%nat /\
    (0 <= success_rate s)%Q /\ (success_rate s <= 1)%Q.
Proof.
  exists (summary_of entries). split; [apply summarize_returns|].
  unfold summary_of, success_rate_of.
  cbn [total_tests passed failed success_rate].
  pose proof (filter_length_le is_passed entries) as Hle.
  split; [lia|].
  destruct (length entries) as [|n] eqn:E.
  - split; [apply Qle_refl|]. unfold Qle. cbn. lia.
  - set (p := Z.of_nat (length (List.filter is_passed entries))).
    set (t := Z.of_nat (S n)).
    assert (Hp : 0 <= p) by (subst p; lia).
    assert (Ht : 0 < t) by (subst t; lia).
    assert (Hpt : p <= t) by (subst p t; lia).
    destruct t as [|tp|tp]; try lia.
    unfold Qdiv, Qinv, Qmult, Qle, inject_Z. cbn [Qnum Qden].
    split; cbn; nia.
Qed.

(** ** Health checks *)

Lemma endpoint_health_tests_trace (ext : externals) infos : forall w,
  exists ts,
    endpoint_health_tests ext infos w
    = (Ok ts, World (fs w)
                    (trace w ++ map (fun i => Got (ei_health_endpoint i)) infos))
    /\ length ts = length infos.
Proof.
  induction infos as [|info infos IH]; intros w; cbn [endpoint_health_tests map].
  - exists []. rewrite app_nil_r. destruct w. split; reflexivity.
  - unfold mbind at 1.
    destruct (endpoint_health_test_total ext info w) as (t & ->).
    unfold mbind at 1.
    destruct (IH (World (fs w) (trace w ++ [Got (ei_health_endpoint info)])))
      as (ts & -> & Hlen).
    exists (t :: ts). cbn [fs trace]. rewrite <- app_assoc.
    split; [reflexivity|]. cbn. lia.
Qed.

Lemma run_deployment_tests_trace (ext : externals) (self : deployer)
    (outcome : deployment_result) (w : world) :
  exists r,
    run_deployment_tests ext self outcome w
    = (Ok r,
       World (fs w)
             (trace w ++
              if String.eqb (dr_status outcome) "deployed"
              then map (fun i => Got (ei_health_endpoint i))
                       (dr_endpoints outcome)
              else [])) /\
    length (tests r)
    = if String.eqb (dr_status outcome) "deployed"
      then (2 + length (dr_endpoints outcome))%nat else 2%nat.
Proof.
  unfold run_deployment_tests. unfold mbind at 1.
  rewrite model_loading_test_entry. unfold mbind at 1.
  destruct (preprocessor_loading_test_total self w) as (t2 & ->).
  unfold mbind at 1.
  destruct (String.eqb (dr_status outcome) "deployed").
  - destruct (endpoint_health_tests_trace ext (dr_endpoints outcome) w)
      as (ts & -> & Hlen).
    unfold mbind, lift, ret. rewrite summarize_returns.
    eexists. split; [reflexivity|]. cbn. rewrite Hlen. reflexivity.
  - destruct w as [files events]. cbn [fs trace].
    unfold mbind, lift, ret. rewrite summarize_returns.
    rewrite (app_nil_r events). eexists. split; reflexivity.
Qed.

(** X17: the validation harness always runs the two loading checks; it adds
    one health check per endpoint, each a single GET of that endpoint's
    health URL in order, only when the deployment status is "deployed",
    and sends nothing otherwise. It never changes the file system, and
    its first two entries are the model-loading and the
    preprocessor-loading checks. *)
Theorem health_checks_only_when_deployed (ext : externals) (self : deployer)
    (outcome : deployment_result) (w : world) :
  exists r w',
    run_deployment_tests ext self outcome w = (Ok r, w') /\
    fs w' = fs w /\
    (exists rest,
       map test (tests r)
       = "model_loading" :: "preprocessor_loading" :: rest) /\
    if String.eqb (dr_status outcome) "deployed"
    then trace w' = trace w ++ map (fun i => Got (ei_health_endpoint i))
                                   (dr_endpoints outcome) /\
         length (tests r) = (2 + length (dr_endpoints outcome))%nat
    else trace w' = trace w /\ length (tests r) = 2%nat.
Proof.
  destruct (run_deployment_tests_trace ext self outcome w) as (r & Hr & Hlen).
  eexists r, _. split; [exact Hr|]. split; [reflexivity|]. split.
  - revert Hr. unfold run_deployment_tests. unfold mbind at 1.
    rewrite model_loading_test_entry. unfold mbind at 1.
    unfold preprocessor_loading_test, try_except, mbind, path_exists,
      joblib_load, is_present, ret, raise, lift.
    assert (Hm : test (model_loading_entry (fixed_models_file self)
                         (fs w !! fixed_models_file self)) = "model_loading")
      by (destruct (fs w !! fixed_models_file self) as [[|[]| |]|];
          reflexivity).
    destruct (fs w !! path_join (models_dir self) "preprocessors_v2.0.0.joblib")
      as [[|[n|]| |]|] eqn:E; cbv beta iota; rewrite ?E; cbv beta iota;
      (destruct (String.eqb (dr_status outcome) "deployed");
       [destruct (endpoint_health_tests ext (dr_endpoints outcome) w)
          as [[ts|] w1]; [|discriminate]|];
       rewrite summarize_returns;
       intros H; injection H as <-; cbn [tests map app]; rewrite Hm;
       eexists; reflexivity).
  - cbn [trace]. destruct (String.eqb (dr_status outcome) "deployed").
    + split; [reflexivity|exact Hlen].
    + rewrite app_nil_r. split; [reflexivity|exact Hlen].
Qed.

(** ** Saving the summary *)

Lemma path_join_neq (d f : string) : path_join d f <> d.
Proof.
  unfold path_join. induction d as [|a d IH]; cbn; [discriminate|].
  intros H. injection H as H. exact (IH H).
Qed.

Lemma save_summary_ok (ext : externals) (self : deployer)
    (experiment_id : string) (outcome : deployment_result)
    (tested : test_outcome) (w : world) :
  fs w !! experiment_dir self experiment_id = Some Dir ->
  fs w !! summary_file self experiment_id <> Some Dir ->
  exists s w',
    save_deployment_summary ext self experiment_id outcome tested w
    = (Ok s, w') /\
    ds_status s = (if String.eqb (dr_status outcome) "deployed"
                   then "deployed" else "ready_for_deployment") /\
    length (next_steps s) = 4%nat /\
    ds_deployment_result s = outcome /\ ds_test_results s = tested /\
    trace w' = trace w ++ [Wrote (summary_file self experiment_id)] /\
    read_json (summary_file self experiment_id) w'
    = (Ok (json_of_summary ext s), w') /\
    forall p, p <> summary_file self experiment_id -> fs w' !! p = fs w !! p.
Proof.
  intros Hdir Hfile.
  unfold save_deployment_summary, mbind, write_json, ret.
  fold (experiment_dir self experiment_id).
  fold (summary_file self experiment_id).
  rewrite Hdir.
  assert (Hw : exists o, fs w !! summary_file self experiment_id = o /\
                         o <> Some Dir) by eauto.
  destruct Hw as (o & -> & Ho).
  destruct o as [[]|]; try congruence;
    (eexists _, _; split; [reflexivity|];
     split; [reflexivity|];
     split; [cbn; destruct (String.eqb _ _); reflexivity|];
     split; [reflexivity|]; split; [reflexivity|];
     split; [reflexivity|]; split;
     [unfold read_json; cbn [fs]; rewrite lookup_insert_eq; reflexivity
     |intros p Hp; cbn [fs]; apply lookup_insert_ne; congruence]).
Qed.

(** X19: in an existing experiment directory the summary is written to
    [deployment_summary.json] and can be read back; its status is
    "deployed" for a deployed result and "ready_for_deployment" for any
    other, with four next steps either way. *)
Theorem summary_saved_and_readable (ext : externals) (self : deployer)
    (experiment_id : string) (outcome : deployment_result)
    (tested : test_outcome) (w : world) :
  fs w !! experiment_dir self experiment_id = Some Dir ->
  fs w !! summary_file self experiment_id <> Some Dir ->
  exists s w',
    save_deployment_summary ext self experiment_id outcome tested w
    = (Ok s, w') /\
    ds_status s = (if String.eqb (dr_status outcome) "deployed"
                   then "deployed" else "ready_for_deployment") /\
    length (next_steps s) = 4%nat /\
    ds_deployment_result s = outcome /\ ds_test_results s = tested /\
    trace w' = trace w ++ [Wrote (summary_file self experiment_id)] /\
    read_json (summary_file self experiment_id) w'
    = (Ok (json_of_summary ext s), w') /\
    forall p, p <> summary_file self experiment_id -> fs w' !! p = fs w !! p.
Proof. apply save_summary_ok. Qed.

Lemma summary_saved_and_readable_witness :
  exists s w',
    save_deployment_summary offline local "exp1" pending_result
      (Skipped "2025-06-14T12:00:00") bare
    = (Ok s, w') /\
    ds_status s = (if String.eqb (dr_status pending_result) "deployed"
                   then "deployed" else "ready_for_deployment") /\
    length (next_steps s) = 4%nat /\
    ds_deployment_result s = pending_result /\
    ds_test_results s = Skipped "2025-06-14T12:00:00" /\
    trace w' = trace bare ++ [Wrote (summary_file local "exp1")] /\
    read_json (summary_file local "exp1") w'
    = (Ok (json_of_summary offline s), w') /\
    forall p, p <> summary_file local "exp1" -> fs w' !! p = fs bare !! p.
Proof.
  apply (summary_saved_and_readable offline local "exp1" pending_result
           (Skipped "2025-06-14T12:00:00") bare).
  - reflexivity.
  - intros H. vm_compute in H. discriminate H.
Defined.

(** ** Registration *)

Lemma prepare_models_entries (ext : externals) (self : deployer)
    (evaluation_results : value) (w : world) names : forall prepared w',
  prepare_models ext self evaluation_results names w = (Ok prepared, w') ->
  w' = w /\
  Forall2 (catalogue_entry self evaluation_results) prepared
          (List.filter (fun n => is_present (fs w) (model_file self n)) names).
Proof.
  induction names as [|name names IH]; intros prepared w' H;
    cbn [prepare_models List.filter] in *.
  - injection H as <- <-. split; [reflexivity|constructor].
  - unfold mbind at 1, path_exists in H.
    destruct (is_present (fs w) (model_file self name)).
    + unfold mbind at 1, lift in H.
      destruct (get evaluation_results name (VDict [])) as [metrics|] eqn:Hm;
        [|discriminate].
      unfold mbind at 1 in H.
      destruct (prepare_models ext self evaluation_results names w)
        as [[more|] w1] eqn:Hmore; [|discriminate].
      destruct (IH more w1 eq_refl) as [-> Hrest].
      injection H as <- <-. split; [reflexivity|].
      constructor; [|exact Hrest].
      unfold catalogue_entry. repeat split; try reflexivity.
      exists metrics. split; [exact Hm|reflexivity].
    + apply IH, H.
Qed.

Lemma registry_payload_shape (ext : externals) (self : deployer)
    (experiment_id : string) (metadata candidate : value) (w w' : world) :
  registry_payload_of ext self experiment_id metadata w = (Ok candidate, w') ->
  w' = w /\
  exists evaluation_results prepared,
    get metadata "evaluation_results" (VDict []) = Ok evaluation_results /\
    getitem candidate "experiment_id" = Ok (VStr experiment_id) /\
    getitem candidate "models" = Ok (VList prepared) /\
    get candidate "models" (VList []) = Ok (VList prepared) /\
    Forall2 (catalogue_entry self evaluation_results) prepared
            (present_models self w) /\
    (is_present (fs w)
       (path_join (models_dir self) "preprocessors_v2.0.0.joblib") = false ->
     getitem candidate "preprocessors" = Raise (KeyError "preprocessors")) /\
    (is_present (fs w)
       (path_join (models_dir self) "preprocessors_v2.0.0.joblib") = true ->
     exists p, getitem candidate "preprocessors" = Ok p /\
               getitem p "file_path"
               = Ok (VStr (path_join (models_dir self)
                                     "preprocessors_v2.0.0.joblib"))).
Proof.
  unfold registry_payload_of. unfold mbind at 1, lift. intros H.
  destruct (get metadata "evaluation_results" (VDict [])) as [ev|] eqn:Hev;
    [|discriminate].
  unfold mbind at 1 in H.
  destruct (prepare_models ext self ev model_names w) as [[prepared|] w1]
    eqn:Hp; [|discriminate].
  destruct (prepare_models_entries ext self ev w model_names prepared w1 Hp)
    as [-> Hentries].
  unfold mbind, path_exists, ret in H.
  destruct (is_present (fs w) _) eqn:Hpre; injection H as <- <-;
    (split; [reflexivity|]); exists ev, prepared;
    repeat split; try reflexivity; try exact Hentries; try discriminate.
  intros _. eexists. split; reflexivity.
Qed.

(** X11: for a models directory written the way pathlib prints it, the
    candidate registry entry names the experiment and lists, in
    catalogue order, exactly the catalogue models whose file exists, each
    with version 2.0.0, its file path (the directory, a slash and the
    file name), stage "staging" and the metrics the evaluation results
    hold for it (an empty dictionary when they hold none); it has a
    preprocessors record exactly when the preprocessors file exists.
    Building it changes nothing. *)
Theorem candidate_lists_present_models (ext : externals) (self : deployer)
    (experiment_id : string) (metadata candidate : value) (w w' : world) :
  pathlib_normal (models_dir self) = true ->
  registry_payload_of ext self experiment_id metadata w = (Ok candidate, w') ->
  w' = w /\
  exists evaluation_results prepared,
    get metadata "evaluation_results" (VDict []) = Ok evaluation_results /\
    getitem candidate "experiment_id" = Ok (VStr experiment_id) /\
    getitem candidate "models" = Ok (VList prepared) /\
    Forall2 (catalogue_entry self evaluation_results) prepared
            (present_models self w) /\
    (is_present (fs w)
       (path_join (models_dir self) "preprocessors_v2.0.0.joblib") = false ->
     getitem candidate "preprocessors" = Raise (KeyError "preprocessors")) /\
    (is_present (fs w)
       (path_join (models_dir self) "preprocessors_v2.0.0.joblib") = true ->
     exists p, getitem candidate "preprocessors" = Ok p /\
               getitem p "file_path"
               = Ok (VStr (path_join (models_dir self)
                                     "preprocessors_v2.0.0.joblib"))).
Proof.
  intros _ H.
  destruct (registry_payload_shape ext self experiment_id metadata candidate
              w w' H) as (-> & ev & prepared & H1 & H2 & H3 & _ & H5 & H6 & H7).
  split; [reflexivity|]. exists ev, prepared. repeat split; assumption.
Qed.

Lemma candidate_lists_present_models_witness :
  exists candidate,
    complete = complete /\
    exists evaluation_results prepared,
      get sound_metadata "evaluation_results" (VDict [])
      = Ok evaluation_results /\
      getitem candidate "experiment_id" = Ok (VStr "exp1") /\
      getitem candidate "models" = Ok (VList prepared) /\
      Forall2 (catalogue_entry local evaluation_results) prepared
              (present_models local complete) /\
      (is_present (fs complete)
         (path_join (models_dir local) "preprocessors_v2.0.0.joblib") = false ->
       getitem candidate "preprocessors" = Raise (KeyError "preprocessors")) /\
      (is_present (fs complete)
         (path_join (models_dir local) "preprocessors_v2.0.0.joblib") = true ->
       exists p, getitem candidate "preprocessors" = Ok p /\
                 getitem p "file_path"
                 = Ok (VStr (path_join (models_dir local)
                                       "preprocessors_v2.0.0.joblib"))).
Proof.
  eexists.
  apply (candidate_lists_present_models offline local "exp1" sound_metadata
           _ complete complete).
  - reflexivity.
  - vm_compute. reflexivity.
Defined.

Lemma getitem_get (v : value) (k : string) (x d : value) :
  getitem v k = Ok x -> get v k d = Ok x.
Proof.
  destruct v; cbn; try discriminate.
  destruct (assoc k d0); [|discriminate]. intros H. exact H.
Qed.

Lemma catalogue_entries_configs (ext : externals) (self : deployer)
    (evaluation_results : value) prepared : forall names,
  Forall2 (catalogue_entry self evaluation_results) prepared names ->
  exists configs,
    model_configs_of ext prepared = Ok configs /\
    Forall2 (serves ext self) configs names.
Proof.
  induction prepared as [|info prepared IH]; intros names H;
    inversion H as [|? name ? names' Hentry Hrest]; subst.
  - exists []. split; [reflexivity|constructor].
  - destruct (IH names' Hrest) as (configs & Hc & Hserve).
    destruct Hentry as (Hn & Hv & Hf & _ & metrics & _ & Hm).
    cbn [model_configs_of]. unfold model_config_of.
    rewrite Hn, Hv, Hf. cbn [bind].
    rewrite (getitem_get _ _ _ _ Hm). cbn [bind]. rewrite Hc. cbn [bind].
    eexists. split; [reflexivity|].
    constructor; [|exact Hserve]. repeat split.
Qed.

Lemma candidate_config (ext : externals) (self : deployer)
    (experiment_id : string) (metadata candidate : value) (w w' : world) :
  registry_payload_of ext self experiment_id metadata w = (Ok candidate, w') ->
  exists config,
    create_model_serving_config ext experiment_id candidate = Ok config /\
    sc_deployment_id config
    = ("deploy-" ++ experiment_id ++ "-" ++ pretty (unix_time ext))%string /\
    Forall2 (serves ext self) (sc_models config) (present_models self w).
Proof.
  intros H.
  destruct (registry_payload_shape ext self experiment_id metadata candidate
              w w' H) as (-> & ev & prepared & _ & _ & _ & Hget & Hentries & _).
  destruct (catalogue_entries_configs ext self ev prepared _ Hentries)
    as (configs & Hc & Hserve).
  unfold create_model_serving_config. rewrite Hget. cbn [bind iterate].
  rewrite Hc. cbn [bind]. eexists. split; [reflexivity|].
  split; [reflexivity|exact Hserve].
Qed.

(** X13: whatever the registration prepares is accepted by the synthesis.
    For a models directory written the way pathlib prints it, and with a
    string formatted as itself, the serving configuration built from a
    candidate entry has the deployment id
    "deploy-<experiment>-<unix time>" and, for each listed model in
    order, an entry with that model's name, version 2.0.0, the path of
    its file and the endpoints "/predict/<name>" and "/health/<name>". *)
Theorem candidate_always_synthesises (ext : externals) (self : deployer)
    (experiment_id : string) (metadata candidate : value) (w w' : world) :
  pathlib_normal (models_dir self) = true ->
  (forall s, format_value ext (VStr s) = s) ->
  registry_payload_of ext self experiment_id metadata w = (Ok candidate, w') ->
  exists config,
    create_model_serving_config ext experiment_id candidate = Ok config /\
    sc_deployment_id config
    = ("deploy-" ++ experiment_id ++ "-" ++ pretty (unix_time ext))%string /\
    Forall2 (serves_model self) (sc_models config) (present_models self w).
Proof.
  intros _ Hformat H.
  destruct (candidate_config ext self experiment_id metadata candidate w w' H)
    as (config & Hc & Hid & Hserve).
  exists config. split; [exact Hc|]. split; [exact Hid|].
  eapply Forall2_impl; [exact Hserve|].
  intros entry name (Hn & Hv & Hf & He & Hh).
  unfold serves_model. rewrite Hformat in He, Hh.
  repeat split; assumption.
Qed.

Lemma candidate_always_synthesises_witness :
  exists config,
    create_model_serving_config offline "exp1" complete_candidate = Ok config /\
    sc_deployment_id config
    = "deploy-exp1-1749902400" /\
    Forall2 (serves_model local) (sc_models config)
            (present_models local complete).
Proof.
  apply (candidate_always_synthesises offline local "exp1" sound_metadata
           complete_candidate complete complete).
  - reflexivity.
  - intros s. reflexivity.
  - vm_compute. reflexivity.
Defined.

(** X12: the registry document is written only on the fallback path. When
    the registry accepts the request its answer is returned and the file
    system is left as it was; otherwise the candidate is returned, the
    registry document of the experiment reads back as exactly that
    candidate, and no other path is touched. *)
Theorem registry_document_round_trip (ext : externals) (self : deployer)
    (experiment_id : string) (metadata candidate : value) (w : world) :
  registry_payload_of ext self experiment_id metadata w = (Ok candidate, w) ->
  fs w !! experiment_dir self experiment_id = Some Dir ->
  fs w !! registry_file self experiment_id <> Some Dir ->
  exists entry w',
    register_models_with_registry ext self experiment_id metadata w
    = (Ok entry, w') /\
    match accepted (http_post ext (registry_url self)
                              (RegistryRequest candidate)) with
    | Some body => entry = body /\ fs w' = fs w
    | None =>
        entry = candidate /\
        read_json (registry_file self experiment_id) w' = (Ok candidate, w') /\
        forall p, p <> registry_file self experiment_id ->
                  fs w' !! p = fs w !! p
    end.
Proof.
  intros Hpay Hdir Hfile.
  rewrite (register_with_candidate ext self experiment_id metadata candidate w)
    by assumption.
  cbv zeta. destruct (accepted _) as [body|].
  - eexists _, _. split; [reflexivity|]. split; reflexivity.
  - eexists _, _. split; [reflexivity|]. split; [reflexivity|]. split.
    + unfold read_json. cbn [fs]. rewrite lookup_insert_eq. reflexivity.
    + intros p Hp. cbn [fs]. apply lookup_insert_ne. congruence.
Qed.

Lemma registry_document_round_trip_witness :
  exists entry w',
    register_models_with_registry offline local "exp1" sound_metadata complete
    = (Ok entry, w') /\
    match accepted (http_post offline (registry_url local)
                              (RegistryRequest complete_candidate)) with
    | Some body => entry = body /\ fs w' = fs complete
    | None =>
        entry = complete_candidate /\
        read_json (registry_file local "exp1") w'
        = (Ok complete_candidate, w') /\
        forall p, p <> registry_file local "exp1" ->
                  fs w' !! p = fs complete !! p
    end.
Proof.
  apply (registry_document_round_trip offline local "exp1" sound_metadata
           complete_candidate complete).
  - vm_compute. reflexivity.
  - reflexivity.
  - intros H. vm_compute in H. discriminate H.
Defined.

(** ** Serving configuration *)

(** X14: in an item of the registry's model list the keys [name],
    [version] and [file_path] are required and [performance_metrics] is
    optional: the first item without a name makes the whole synthesis
    raise [KeyError] for "name", and an item without metrics gets an
    empty dictionary. *)
Theorem synthesis_required_and_optional_keys (ext : externals)
    (experiment_id : string) :
  (forall d before item after,
     assoc "models" d = Some (VList (before ++ VDict item :: after)) ->
     Forall (fun i => is_ok (model_config_of ext i) = true) before ->
     assoc "name" item = None ->
     create_model_serving_config ext experiment_id (VDict d)
     = Raise (KeyError "name")) /\
  (forall item name version file_path,
     assoc "name" item = Some name ->
     assoc "version" item = Some version ->
     assoc "file_path" item = Some file_path ->
     assoc "performance_metrics" item = None ->
     exists entry,
       model_config_of ext (VDict item) = Ok entry /\
       mc_name entry = name /\ mc_version entry = version /\
       mc_file_path entry = file_path /\
       mc_performance_metrics entry = VDict []).
Proof.
  split.
  - intros d before item after Hm Hb Hn.
    unfold create_model_serving_config. cbn [get]. rewrite Hm.
    cbn [bind iterate].
    assert (H : model_configs_of ext (before ++ VDict item :: after)
                = Raise (KeyError "name")).
    { clear Hm. induction Hb as [|i before Hi _ IH]; cbn [app model_configs_of].
      - unfold model_config_of. cbn [getitem]. rewrite Hn. reflexivity.
      - destruct (model_config_of ext i); [|discriminate Hi].
        cbn [bind]. rewrite IH. reflexivity. }
    rewrite H. reflexivity.
  - intros item name version file_path Hn Hv Hf Hp.
    unfold model_config_of. cbn [getitem get]. rewrite Hn, Hv, Hf, Hp.
    cbn [bind]. eexists. repeat split.
Qed.

(** ** Deployment *)

Lemma deploy_result (ext : externals) (self : deployer)
    (config : serving_config) (w : world) :
  exists r,
    deploy_to_serving_infrastructure ext self config w
    = (Ok r, World (fs w)
                   (trace w ++ [Posted (deploy_url self)
                                  (DeployRequest config (sc_models config))])) /\
    dr_endpoints r = map (endpoint_of self) (sc_models config) /\
    dr_health_checks r = [] /\
    ((dr_status r = "deployed" /\ dr_manual_deployment r = None /\
      exists body,
        accepted (http_post ext (deploy_url self)
                    (DeployRequest config (sc_models config))) = Some body /\
        dr_api_response r = Some body) \/
     (dr_status r = "configuration_ready" /\ dr_api_response r = None /\
      accepted (http_post ext (deploy_url self)
                  (DeployRequest config (sc_models config))) = None /\
      exists package, dr_manual_deployment r = Some package)).
Proof.
  unfold deploy_to_serving_infrastructure, deploy_attempt, post, mbind, emit,
    deploy_url, raise, ret, accepted.
  destruct (http_post ext _ _) as [what|code [body|]]; cbn;
    [|destruct (code =? 200); cbn..];
    eexists; (split; [reflexivity|]); cbn;
    (split; [reflexivity|]); (split; [reflexivity|]);
    first [left; repeat split; eexists; split; reflexivity
          |right; repeat split; eexists; reflexivity].
Qed.

(** X15: the deployment sends exactly one request and touches no file; its
    result is "deployed" with the peer's answer and no manual package
    exactly when the peer accepts, and "configuration_ready" with a
    manual package and no answer otherwise (never "pending"). In both
    cases the endpoints are the same: for each model of the
    configuration, in order, the base URL followed by the model's
    configured prediction and health paths. *)
Theorem deployment_outcomes (ext : externals) (self : deployer)
    (config : serving_config) (w : world) :
  exists r,
    deploy_to_serving_infrastructure ext self config w
    = (Ok r, World (fs w)
                   (trace w ++ [Posted (deploy_url self)
                                  (DeployRequest config (sc_models config))])) /\
    Forall2 (fun e m =>
               ei_model e = mc_name m /\
               ei_endpoint e = (mlops_base_url self ++ mc_endpoint m)%string /\
               ei_health_endpoint e
               = (mlops_base_url self ++ mc_health_endpoint m)%string)
            (dr_endpoints r) (sc_models config) /\
    dr_health_checks r = [] /\
    match accepted (http_post ext (deploy_url self)
                      (DeployRequest config (sc_models config))) with
    | Some body => dr_status r = "deployed" /\ dr_api_response r = Some body /\
                   dr_manual_deployment r = None
    | None => dr_status r = "configuration_ready" /\
              dr_api_response r = None /\
              dr_manual_deployment r <> None
    end.
Proof.
  destruct (deploy_result ext self config w) as (r & Hr & He & Hh & Hs).
  exists r. split; [exact Hr|]. split.
  { rewrite He. clear. induction (sc_models config) as [|m ms IH]; cbn;
      constructor; [repeat split|exact IH]. }
  split; [exact Hh|].
  destruct Hs as [(Hs & Hm & body & -> & Ha)|(Hs & Ha & -> & package & Hm)].
  - repeat split; assumption.
  - repeat split; try assumption. rewrite Hm. discriminate.
Qed.

(** X16: after an accepted deployment the validation harness probes the
    health URL of every model of the configuration once, in order, and
    runs two loading checks besides; after a deployment that was not
    accepted it sends no request at all. *)
Theorem harness_follows_deployment (ext : externals) (self : deployer)
    (config : serving_config) (w : world) :
  exists r w1 t w2,
    deploy_to_serving_infrastructure ext self config w = (Ok r, w1) /\
    run_deployment_tests ext self r w1 = (Ok t, w2) /\
    fs w2 = fs w /\
    match accepted (http_post ext (deploy_url self)
                      (DeployRequest config (sc_models config))) with
    | Some _ =>
        trace w2
        = trace w1 ++ map (fun m => Got (mlops_base_url self
                                         ++ mc_health_endpoint m)%string)
                          (sc_models config) /\
        length (tests t) = (2 + length (sc_models config))%nat
    | None => trace w2 = trace w1 /\ length (tests t) = 2%nat
    end.
Proof.
  destruct (deploy_result ext self config w) as (r & Hr & He & _ & Hs).
  destruct (run_deployment_tests_trace ext self r
              (World (fs w) (trace w ++ [Posted (deploy_url self)
                               (DeployRequest config (sc_models config))])))
    as (t & Ht & Hlen).
  eexists r, _, t, _. split; [exact Hr|]. split; [exact Ht|].
  split; [reflexivity|]. cbn [trace fs].
  destruct Hs as [(Hs & _ & body & -> & _)|(Hs & _ & -> & _)];
    rewrite Hs in *; cbn in Hlen |- *.
  - rewrite He, map_map, length_map in *. split; [reflexivity|exact Hlen].
  - rewrite app_nil_r. split; [reflexivity|exact Hlen].
Qed.

(** ** The driver *)

Lemma validate_models_world (self : deployer) (experiment_id : string)
    (w : world) :
  exists v, validate_models self experiment_id w = (Ok v, w).
Proof. eexists. reflexivity. Qed.

Lemma save_summary_inv (ext : externals) (self : deployer)
    (experiment_id : string) (outcome : deployment_result)
    (tested : test_outcome) (w w' : world) (s : deployment_summary) :
  save_deployment_summary ext self experiment_id outcome tested w = (Ok s, w') ->
  fs w' !! summary_file self experiment_id = Some (Json (json_of_summary ext s)) /\
  trace w' = trace w ++ [Wrote (summary_file self experiment_id)].
Proof.
  unfold save_deployment_summary, mbind, write_json, ret.
  fold (experiment_dir self experiment_id).
  fold (summary_file self experiment_id).
  destruct (fs w !! experiment_dir self experiment_id) as [[]|];
    try discriminate.
  destruct (fs w !! summary_file self experiment_id) as [[]|];
    try discriminate; intros H; injection H as <- <-; cbn [fs trace];
    (split; [apply lookup_insert_eq|reflexivity]).
Qed.

(** What a returning registration did. *)
Lemma register_inv (ext : externals) (self : deployer)
    (experiment_id : string) (metadata info : value) (w w1 : world) :
  register_models_with_registry ext self experiment_id metadata w
  = (Ok info, w1) ->
  exists candidate,
    registry_payload_of ext self experiment_id metadata w = (Ok candidate, w) /\
    match accepted (http_post ext (registry_url self)
                              (RegistryRequest candidate)) with
    | Some body =>
        info = body /\ fs w1 = fs w /\
        trace w1
        = trace w ++ [Posted (registry_url self) (RegistryRequest candidate)]
    | None =>
        info = candidate /\
        fs w1 = <[registry_file self experiment_id := Json candidate]> (fs w) /\
        trace w1
        = trace w ++ [Posted (registry_url self) (RegistryRequest candidate);
                      Wrote (registry_file self experiment_id)]
    end.
Proof.
  unfold register_models_with_registry. unfold mbind at 1.
  destruct (registry_payload_of ext self experiment_id metadata w)
    as [[candidate|e] w0] eqn:Hpay; [|intros H; discriminate H].
  destruct (registry_payload_shape ext self experiment_id metadata candidate
              w w0 Hpay) as [-> _].
  intros H. exists candidate. split; [reflexivity|]. revert H.
  unfold try_except_request, post, response_json, emit, write_json, mbind, ret,
    raise, accepted, registry_url.
  fold (experiment_dir self experiment_id).
  fold (registry_file self experiment_id).
  destruct (http_post ext _ _) as [what|code [body|]]; cbv beta iota zeta;
    cbn [is_request_exception fst snd trace fs];
    [|destruct (code =? 200); cbv beta iota;
      cbn [is_request_exception fst snd trace fs]..];
    try (intros H; injection H as <- <-; repeat split; reflexivity);
    (destruct (fs w !! experiment_dir self experiment_id) as [[]|];
     try (intros H; discriminate H);
     destruct (fs w !! registry_file self experiment_id) as [[]|];
     try (intros H; discriminate H);
     intros H; injection H as <- <-; cbn [fs trace];
     rewrite <- app_assoc; repeat split; reflexivity).
Qed.

(** X20: exit code 0 is returned only after the whole pipeline ran. The
    four required files were present at the start; the metadata was
    loaded; the registration returned, after sending the candidate entry
    to the registry; the serving configuration was built from what the
    registration returned; the deployment returned, after sending that
    configuration; the validation harness returned, unless it was
    skipped; and the summary of this deployment result and these test
    results was written to the experiment directory. The requests and
    writes of the run are, in this order: the registry request, the
    registry document if one was written, the deployment request, the
    health probes, and the summary as the last effect. *)
Theorem success_means_summary_written (ext : externals) (args : arguments)
    (w w' : world) :
  main ext args w = (0, w') ->
  (forall f, In f required_files ->
     is_present (fs w)
       (path_join (experiment_dir (deployer_of args) (arg_experiment_id args))
                  f) = true) /\
  exists metadata candidate info w1 config outcome w2 tested w3 s,
    load_experiment_metadata (deployer_of args) (arg_experiment_id args) w
    = (Ok metadata, w) /\
    registry_payload_of ext (deployer_of args) (arg_experiment_id args)
                        metadata w = (Ok candidate, w) /\
    register_models_with_registry ext (deployer_of args)
      (arg_experiment_id args) metadata w = (Ok info, w1) /\
    create_model_serving_config ext (arg_experiment_id args) info
    = Ok config /\
    deploy_to_serving_infrastructure ext (deployer_of args) config w1
    = (Ok outcome, w2) /\
    (if arg_skip_tests args
     then tested = Skipped (now_isoformat ext) /\ w3 = w2
     else exists r,
            run_deployment_tests ext (deployer_of args) outcome w2
            = (Ok r, w3) /\ tested = Tested r) /\
    save_deployment_summary ext (deployer_of args) (arg_experiment_id args)
                            outcome tested w3 = (Ok s, w') /\
    ds_deployment_result s = outcome /\ ds_test_results s = tested /\
    fs w' !! summary_file (deployer_of args) (arg_experiment_id args)
    = Some (Json (json_of_summary ext s)) /\
    exists written probes,
      trace w'
      = trace w
        ++ Posted (registry_url (deployer_of args)) (RegistryRequest candidate)
           :: written
        ++ Posted (deploy_url (deployer_of args))
                  (DeployRequest config (sc_models config))
           :: probes
        ++ [Wrote (summary_file (deployer_of args) (arg_experiment_id args))] /\
      (written = [] \/
       written = [Wrote (registry_file (deployer_of args)
                                       (arg_experiment_id args))]) /\
      forallb is_get probes = true.
Proof.
  unfold main, main_body. fold (deployer_of args).
  set (self := deployer_of args). set (id := arg_experiment_id args).
  unfold mbind at 1.
  pose proof (load_experiment_metadata_world self id w) as Hw.
  destruct (load_experiment_metadata self id w) as [[metadata|e] w0] eqn:Hload;
    [|intros H; discriminate H].
  cbn in Hw. subst w0. unfold mbind at 1.
  destruct (validate_models_world self id w) as [v Hv]. rewrite Hv.
  destruct (all_values v) eqn:Hall; cbn [negb];
    [|intros H; discriminate H].
  unfold mbind at 1.
  destruct (register_models_with_registry ext self id metadata w)
    as [[info|] w1] eqn:Hreg; [|intros H; discriminate H].
  unfold mbind at 1, lift.
  destruct (create_model_serving_config ext id info) as [config|] eqn:Hconfig;
    [|intros H; discriminate H].
  unfold mbind at 1.
  destruct (deploy_result ext self config w1) as (outcome & Hdeploy & He & _).
  rewrite Hdeploy.
  set (w2 := World (fs w1) (trace w1 ++ [Posted (deploy_url self)
                              (DeployRequest config (sc_models config))])) in *.
  unfold mbind at 1.
  assert (Htested : exists tested w3 probes,
    (if negb (arg_skip_tests args)
     then mbind (run_deployment_tests ext self outcome)
                (fun r => ret (Tested r))
     else ret (Skipped (now_isoformat ext))) w2 = (Ok tested, w3) /\
    (if arg_skip_tests args
     then tested = Skipped (now_isoformat ext) /\ w3 = w2
     else exists r,
            run_deployment_tests ext self outcome w2 = (Ok r, w3) /\
            tested = Tested r) /\
    trace w3 = trace w2 ++ probes /\ forallb is_get probes = true).
  { destruct (arg_skip_tests args); cbn [negb].
    - exists (Skipped (now_isoformat ext)), w2, [].
      rewrite app_nil_r. repeat split.
    - destruct (run_deployment_tests_trace ext self outcome w2)
        as (t & Ht & _).
      unfold mbind. rewrite Ht. eexists _, _, _.
      split; [reflexivity|]. split; [exists t; split; reflexivity|].
      cbn [trace]. split; [reflexivity|].
      destruct (String.eqb (dr_status outcome) "deployed"); [|reflexivity].
      clear. induction (dr_endpoints outcome) as [|i l IH]; [reflexivity|].
      exact IH. }
  destruct Htested as (tested & w3 & probes & -> & Hcase & Htrace & Hget).
  unfold mbind at 1.
  destruct (save_deployment_summary ext self id outcome tested w3)
    as [[s|] w4] eqn:Hsave; [|intros H; discriminate H].
  unfold ret. intros H. injection H as <-.
  pose proof Hsave as Hinv.
  apply save_summary_inv in Hinv as [Hfile Hlast].
  split; [apply (validation_passes_when_required self id w v Hv), Hall|].
  destruct (register_inv ext self id metadata info w w1 Hreg)
    as (candidate & Hpay & Hacc).
  exists metadata, candidate, info, w1, config, outcome, w2, tested, w3, s.
  split; [reflexivity|]. split; [exact Hpay|]. split; [exact Hreg|].
  split; [exact Hconfig|]. split; [exact Hdeploy|]. split; [exact Hcase|].
  split; [exact Hsave|].
  assert (Hs : ds_deployment_result s = outcome /\ ds_test_results s = tested).
  { revert Hsave. unfold save_deployment_summary, mbind, write_json, ret.
    destruct (fs w3 !! _) as [[]|]; try (intros H; discriminate H);
      destruct (fs w3 !! _) as [[]|]; try (intros H; discriminate H);
      intros H; injection H as <- _; split; reflexivity. }
  destruct Hs as [Hs1 Hs2]. split; [exact Hs1|]. split; [exact Hs2|].
  split; [exact Hfile|].
  rewrite Hlast, Htrace. subst w2. cbn [trace].
  destruct (accepted _) as [body|].
  - destruct Hacc as (_ & _ & ->). exists [], probes.
    split; [|split; [left; reflexivity|exact Hget]].
    rewrite <- !app_assoc. reflexivity.
  - destruct Hacc as (_ & _ & ->). eexists [_], probes.
    split; [|split; [right; reflexivity|exact Hget]].
    rewrite <- !app_assoc. reflexivity.
Qed.

Lemma success_means_summary_written_witness :
  (forall f, In f required_files ->
     is_present (fs complete)
       (path_join (experiment_dir (deployer_of exp1) (arg_experiment_id exp1))
                  f) = true) /\
  exists metadata candidate info w1 config outcome w2 tested w3 s,
    load_experiment_metadata (deployer_of exp1) (arg_experiment_id exp1)
                             complete
    = (Ok metadata, complete) /\
    registry_payload_of offline (deployer_of exp1) (arg_experiment_id exp1)
                        metadata complete = (Ok candidate, complete) /\
    register_models_with_registry offline (deployer_of exp1)
      (arg_experiment_id exp1) metadata complete = (Ok info, w1) /\
    create_model_serving_config offline (arg_experiment_id exp1) info
    = Ok config /\
    deploy_to_serving_infrastructure offline (deployer_of exp1) config w1
    = (Ok outcome, w2) /\
    (if arg_skip_tests exp1
     then tested = Skipped (now_isoformat offline) /\ w3 = w2
     else exists r,
            run_deployment_tests offline (deployer_of exp1) outcome w2
            = (Ok r, w3) /\ tested = Tested r) /\
    save_deployment_summary offline (deployer_of exp1) (arg_experiment_id exp1)
                            outcome tested w3
    = (Ok s, snd (main offline exp1 complete)) /\
    ds_deployment_result s = outcome /\ ds_test_results s = tested /\
    fs (snd (main offline exp1 complete))
      !! summary_file (deployer_of exp1) (arg_experiment_id exp1)
    = Some (Json (json_of_summary offline s)) /\
    exists written probes,
      trace (snd (main offline exp1 complete))
      = trace complete
        ++ Posted (registry_url (deployer_of exp1)) (RegistryRequest candidate)
           :: written
        ++ Posted (deploy_url (deployer_of exp1))
                  (DeployRequest config (sc_models config))
           :: probes
        ++ [Wrote (summary_file (deployer_of exp1) (arg_experiment_id exp1))] /\
      (written = [] \/
       written = [Wrote (registry_file (deployer_of exp1)
                                       (arg_experiment_id exp1))]) /\
      forallb is_get probes = true.
Proof.
  apply (success_means_summary_written offline exp1 complete
           (snd (main offline exp1 complete))).
  vm_compute. reflexivity.
Defined.

(** X21: without the experiment's [metadata.json] the driver stops at once
    with exit code 1: nothing is validated, sent or written. *)
Theorem missing_metadata_stops_the_driver (ext : externals)
    (args : arguments) (w : world) :
  fs w !! metadata_file (deployer_of args) (arg_experiment_id args) = None ->
  main ext args w = (1, w).
Proof.
  intros H. unfold main, main_body. fold (deployer_of args).
  unfold mbind at 1.
  unfold load_experiment_metadata, mbind, path_exists, is_present, raise.
  fold (experiment_dir (deployer_of args) (arg_experiment_id args)).
  fold (metadata_file (deployer_of args) (arg_experiment_id args)).
  rewrite H. reflexivity.
Qed.

Lemma missing_metadata_stops_the_driver_witness :
  main online exp1 bare = (1, bare).
Proof.
  apply (missing_metadata_stops_the_driver online exp1 bare). reflexivity.
Defined.

Lemma path_join_inj (d a b : string) : path_join d a = path_join d b -> a = b.
Proof.
  unfold path_join. induction d as [|c d IH]; cbn; intros H.
  - injection H as H. exact H.
  - injection H as H. exact (IH H).
Qed.

Lemma registry_payload_ok (ext : externals) (self : deployer)
    (experiment_id : string) (d : list (string * value)) (w : world) :
  (assoc "evaluation_results" d = None \/
   exists results, assoc "evaluation_results" d = Some (VDict results)) ->
  exists candidate,
    registry_payload_of ext self experiment_id (VDict d) w = (Ok candidate, w).
Proof.
  intros Hres.
  assert (Hev : exists results,
             get (VDict d) "evaluation_results" (VDict []) = Ok (VDict results)).
  { cbn. destruct Hres as [-> | [results ->]]; eauto. }
  destruct Hev as [results Hev].
  destruct (prepare_models_dict ext self results w model_names)
    as (prepared & Hprep & _).
  unfold registry_payload_of. unfold mbind at 1, lift. rewrite Hev.
  unfold mbind at 1. rewrite Hprep. unfold mbind, path_exists, ret.
  eexists. reflexivity.
Qed.

Lemma load_metadata_ok (self : deployer) (experiment_id : string)
    (w : world) (v : value) :
  fs w !! metadata_file self experiment_id = Some (Json v) ->
  load_experiment_metadata self experiment_id w = (Ok v, w).
Proof.
  intros H.
  unfold load_experiment_metadata, mbind, path_exists, is_present, read_json,
    raise.
  fold (experiment_dir self experiment_id).
  fold (metadata_file self experiment_id).
  rewrite H. cbn [negb]. cbv beta iota in H |- *. rewrite H. reflexivity.
Qed.

(** X22: an unreachable registry does not fail the run. With sound
    metadata and the required files in place, the driver returns exit
    code 0 whatever the deployment and health endpoints answer; it leaves
    the candidate entry in the registry document and a deployment summary
    in the experiment directory, and touches no other path. *)
Theorem unreachable_registry_still_succeeds (ext : externals)
    (args : arguments) (w : world) (d : list (string * value)) :
  let self := deployer_of args in
  let id := arg_experiment_id args in
  fs w !! experiment_dir self id = Some Dir ->
  fs w !! metadata_file self id = Some (Json (VDict d)) ->
  (assoc "evaluation_results" d = None \/
   exists results, assoc "evaluation_results" d = Some (VDict results)) ->
  (forall f, In f required_files ->
     is_present (fs w) (path_join (experiment_dir self id) f) = true) ->
  fs w !! registry_file self id <> Some Dir ->
  fs w !! summary_file self id <> Some Dir ->
  (forall request,
     accepted (http_post ext (registry_url self) request) = None) ->
  exists w' candidate doc,
    main ext args w = (0, w') /\
    registry_payload_of ext self id (VDict d) w = (Ok candidate, w) /\
    fs w' !! registry_file self id = Some (Json candidate) /\
    fs w' !! summary_file self id = Some (Json doc) /\
    forall p, p <> registry_file self id -> p <> summary_file self id ->
              fs w' !! p = fs w !! p.
Proof.
  intros self id Hdir Hmeta Hres Hreq Hreg Hsum Hdown.
  destruct (registry_payload_ok ext self id d w Hres) as [candidate Hpay].
  destruct (candidate_config ext self id (VDict d) candidate w w Hpay)
    as (config & Hconfig & _).
  pose proof (register_with_candidate ext self id (VDict d) candidate w
                Hpay Hdir Hreg) as Hregister.
  cbv zeta in Hregister. rewrite Hdown in Hregister.
  set (w1 := World (<[registry_file self id := Json candidate]> (fs w))
                   (trace w ++ [Posted (registry_url self)
                                       (RegistryRequest candidate);
                                Wrote (registry_file self id)])) in *.
  destruct (deploy_result ext self config w1) as (r & Hdeploy & _).
  set (w2 := World (fs w1) (trace w1 ++ [Posted (deploy_url self)
                              (DeployRequest config (sc_models config))])) in *.
  assert (Htested : exists tested w3,
    (if negb (arg_skip_tests args)
     then mbind (run_deployment_tests ext self r) (fun t => ret (Tested t))
     else ret (Skipped (now_isoformat ext))) w2 = (Ok tested, w3) /\
    fs w3 = fs w1).
  { destruct (arg_skip_tests args); cbn [negb].
    - eexists _, _. split; reflexivity.
    - destruct (run_deployment_tests_trace ext self r w2) as (t & Ht & _).
      unfold mbind. rewrite Ht. eexists _, _. split; reflexivity. }
  destruct Htested as (tested & w3 & Htested & Hfs3).
  assert (Hdir3 : fs w3 !! experiment_dir self id = Some Dir).
  { rewrite Hfs3. subst w1. cbn [fs]. rewrite lookup_insert_ne; [exact Hdir|].
    apply path_join_neq. }
  assert (Hsum3 : fs w3 !! summary_file self id <> Some Dir).
  { rewrite Hfs3. subst w1. cbn [fs].
    destruct (decide (registry_file self id = summary_file self id)) as [E|E].
    - rewrite E, lookup_insert_eq. discriminate.
    - rewrite lookup_insert_ne by exact E. exact Hsum. }
  destruct (save_summary_ok ext self id r tested w3 Hdir3 Hsum3)
    as (s & w4 & Hsave & _ & _ & _ & _ & _ & Hread & Hother).
  assert (Hne : summary_file self id <> registry_file self id).
  { intros E. apply path_join_inj in E. discriminate E. }
  exists w4, candidate, (json_of_summary ext s).
  split; [|split; [exact Hpay|]].
  - unfold main, main_body. fold (deployer_of args). fold self. fold id.
    unfold mbind at 1.
    rewrite (load_metadata_ok self id w (VDict d) Hmeta). unfold mbind at 1.
    destruct (validate_models_world self id w) as [v Hv]. rewrite Hv.
    rewrite (proj2 (validation_passes_when_required self id w v Hv) Hreq).
    cbn [negb]. unfold mbind at 1. rewrite Hregister.
    unfold mbind at 1, lift. rewrite Hconfig.
    unfold mbind at 1. rewrite Hdeploy.
    unfold mbind at 1. rewrite Htested.
    unfold mbind at 1. rewrite Hsave. reflexivity.
  - unfold read_json in Hread.
    destruct (fs w4 !! summary_file self id) as [[]|] eqn:E;
      try discriminate Hread.
    injection Hread as Hdoc. split; [|split].
    + rewrite (Hother _ (not_eq_sym Hne)), Hfs3. subst w1. cbn [fs].
      apply lookup_insert_eq.
    + rewrite Hdoc. reflexivity.
    + intros p Hp1 Hp2. rewrite (Hother p Hp2), Hfs3. subst w1. cbn [fs].
      apply lookup_insert_ne. congruence.
Qed.

Lemma unreachable_registry_still_succeeds_witness :
  exists w' candidate doc,
    main offline exp1 complete = (0, w') /\
    registry_payload_of offline (deployer_of exp1) (arg_experiment_id exp1)
      (VDict sound_entries) complete = (Ok candidate, complete) /\
    fs w' !! registry_file (deployer_of exp1) (arg_experiment_id exp1)
    = Some (Json candidate) /\
    fs w' !! summary_file (deployer_of exp1) (arg_experiment_id exp1)
    = Some (Json doc) /\
    forall p, p <> registry_file (deployer_of exp1) (arg_experiment_id exp1) ->
              p <> summary_file (deployer_of exp1) (arg_experiment_id exp1) ->
              fs w' !! p = fs complete !! p.
Proof.
  apply (unreachable_registry_still_succeeds offline exp1 complete
           sound_entries).
  - reflexivity.
  - reflexivity.
  - right. eexists. reflexivity.
  - intros f Hf. cbn in Hf.
    destruct Hf as [<-|[<-|[<-|[<-|[]]]]]; reflexivity.
  - intros H. vm_compute in H. discriminate H.
  - intros H. vm_compute in H. discriminate H.
  - intros request. reflexivity.
Defined.

(** ** Requests of a run *)

Lemma no_get_pure {A} (r : result A) : sends_no_get (fun w => (r, w)).
Proof. intros w. exists []. rewrite app_nil_r. split; reflexivity. Qed.

Lemma no_get_bind {A B} (m : M A) (k : A -> M B) :
  sends_no_get m -> (forall a, sends_no_get (k a)) -> sends_no_get (mbind m k).
Proof.
  intros Hm Hk w. unfold mbind. destruct (Hm w) as (e1 & H1 & F1).
  destruct (m w) as [[a|e] w1]; cbn [snd] in *.
  - destruct (Hk a w1) as (e2 & H2 & F2). exists (e1 ++ e2).
    rewrite H2, H1, app_assoc, forallb_app, F1, F2. split; reflexivity.
  - exists e1. split; assumption.
Qed.

Lemma no_get_try_request {A} (body : M A) (handler : exn -> M A) :
  sends_no_get body -> (forall e, sends_no_get (handler e)) ->
  sends_no_get (try_except_request body handler).
Proof.
  intros Hb Hh w. unfold try_except_request. destruct (Hb w) as (e1 & H1 & F1).
  destruct (body w) as [[a|e] w1]; cbn [snd] in *.
  - exists e1. split; assumption.
  - destruct (is_request_exception e); [|exists e1; split; assumption].
    destruct (Hh e w1) as (e2 & H2 & F2). exists (e1 ++ e2).
    rewrite H2, H1, app_assoc, forallb_app, F1, F2. split; reflexivity.
Qed.

Lemma no_get_post (ext : externals) (url : string) (body : request) :
  sends_no_get (post ext url body).
Proof.
  intros w. unfold post, mbind, emit, raise, ret.
  exists [Posted url body]. destruct (http_post ext url body); split; reflexivity.
Qed.

Lemma no_get_write (dir name : string) (doc : value) :
  sends_no_get (write_json dir name doc).
Proof.
  intros w. unfold write_json.
  destruct (fs w !! dir) as [[]|];
    try (exists []; rewrite app_nil_r; split; reflexivity).
  destruct (fs w !! path_join dir name) as [[]|];
    first [exists []; rewrite app_nil_r; split; reflexivity
          |eexists [_]; split; reflexivity].
Qed.

Lemma no_get_prepare (ext : externals) (self : deployer) (ev : value) names :
  sends_no_get (prepare_models ext self ev names).
Proof.
  induction names as [|n names IH]; cbn [prepare_models].
  - apply (no_get_pure (Ok [])).
  - apply no_get_bind; [intros w; exists []; rewrite app_nil_r; split; reflexivity|].
    intros [|]; [|exact IH].
    apply no_get_bind; [apply no_get_pure|]. intros metrics.
    apply no_get_bind; [exact IH|]. intros more. apply (no_get_pure (Ok _)).
Qed.

Lemma no_get_register (ext : externals) (self : deployer)
    (experiment_id : string) (metadata : value) :
  sends_no_get (register_models_with_registry ext self experiment_id metadata).
Proof.
  unfold register_models_with_registry, registry_payload_of.
  apply no_get_bind.
  { apply no_get_bind; [apply no_get_pure|]. intros ev.
    apply no_get_bind; [apply no_get_prepare|]. intros models.
    apply no_get_bind; [intros w; exists []; rewrite app_nil_r; split; reflexivity|].
    intros found. apply (no_get_pure (Ok _)). }
  intros payload. apply no_get_bind.
  { apply no_get_try_request; [|intros e; apply (no_get_pure (Ok None))].
    apply no_get_bind; [apply no_get_post|]. intros response.
    destruct (fst response =? 200); [|apply (no_get_pure (Ok None))].
    apply no_get_bind; [|intros body; apply (no_get_pure (Ok _))].
    unfold response_json. destruct (snd response); apply no_get_pure. }
  intros [body|]; [apply (no_get_pure (Ok body))|].
  apply no_get_bind; [apply no_get_write|]. intros _. apply (no_get_pure (Ok _)).
Qed.

Lemma no_get_deploy (ext : externals) (self : deployer)
    (config : serving_config) :
  sends_no_get (deploy_to_serving_infrastructure ext self config).
Proof.
  intros w. destruct (deploy_result ext self config w) as (r & -> & _).
  eexists [_]. split; reflexivity.
Qed.

Lemma no_get_save (ext : externals) (self : deployer) (experiment_id : string)
    (outcome : deployment_result) (tested : test_outcome) :
  sends_no_get (save_deployment_summary ext self experiment_id outcome tested).
Proof.
  unfold save_deployment_summary.
  apply no_get_bind; [apply no_get_write|]. intros _. apply (no_get_pure (Ok _)).
Qed.

Lemma no_get_load (self : deployer) (experiment_id : string) :
  sends_no_get (load_experiment_metadata self experiment_id).
Proof.
  intros w. rewrite load_experiment_metadata_world. exists [].
  rewrite app_nil_r. split; reflexivity.
Qed.

(** X23: under [--skip-tests] a run never sends a GET request: no health
    endpoint is probed, whatever the registry and the serving API answer
    and however the run ends. *)
Theorem skipped_tests_probe_nothing (ext : externals) (args : arguments)
    (w : world) :
  arg_skip_tests args = true ->
  exists events,
    trace (snd (main ext args w)) = trace w ++ events /\
    Forall (fun e => is_get e = false) events.
Proof.
  intros Hskip.
  assert (H : sends_no_get (main_body ext args)).
  { unfold main_body. rewrite Hskip. cbn [negb].
    apply no_get_bind; [apply no_get_load|]. intros metadata.
    apply no_get_bind;
      [intros w0; exists []; rewrite app_nil_r; split; reflexivity|].
    intros v.
    destruct (negb (all_values v)); [apply (no_get_pure (Ok 1))|].
    apply no_get_bind; [apply no_get_register|]. intros info.
    apply no_get_bind; [apply no_get_pure|]. intros config.
    apply no_get_bind; [apply no_get_deploy|]. intros outcome.
    apply no_get_bind; [apply (no_get_pure (Ok _))|]. intros tested.
    apply no_get_bind; [apply no_get_save|]. intros _.
    apply (no_get_pure (Ok 0)). }
  destruct (H w) as (events & Ht & Hf). exists events. split.
  - unfold main. destruct (main_body ext args w) as [[code|e] w']; exact Ht.
  - apply Forall_forall. intros e He. rewrite forallb_forall in Hf.
    apply list_elem_of_In in He. apply negb_true_iff, Hf, He.
Qed.

Lemma skipped_tests_probe_nothing_witness :
  exists events,
    trace (snd (main online exp1_skipping complete))
    = trace complete ++ events /\
    Forall (fun e => is_get e = false) events.
Proof.
  apply (skipped_tests_probe_nothing online exp1_skipping complete).
  reflexivity.
Defined.

End DeployerMore.
